(** * delira: the type-preserving JSON codec and the tensorboardX handler

    A shallow embedding of

      - [delira/utils/external/trixi/json_utils.py]: the encoder classes
        [CustomJSONEncoder], [MultiTypeEncoder], [ModuleMultiTypeEncoder]
        and the decoder classes [CustomJSONDecoder], [MultiTypeDecoder],
        [ModuleMultiTypeDecoder];
      - [delira/logging/tensorboardx_handler.py]: [TensorboardXHandler]
        with [_create_frequencies] and [emit].

    Python values are a tagged union [PyVal]; a computation returns an
    [outcome] (a value or a raised exception) together with the warnings
    it emitted.  What the host runtime decides (the digits of a finite
    float, the text of objects whose [repr] or [str] is their class's,
    the module registry behind [importlib], the literals outside the
    grammar modelled for [ast.literal_eval]) is gathered in the class
    [Host]; what the handler meets (the tensorboardX logger, the
    arithmetic of periods that are no native numbers) in the class
    [TensorboardXHandler.Logger]. *)

From Stdlib Require Import ZArith List String Ascii Bool Lia Arith.
From Stdlib Require Import DecimalString DecimalZ DecimalPos DecimalN DecimalFacts.
Import ListNotations.
Local Open Scope string_scope.
Set Warnings "-register-all".

(* ===================================================================== *)
(** ** Exceptions, outcomes and the warning channel                       *)
(* ===================================================================== *)

Inductive pyexc : Type :=
| ValueError
| TypeError
| SyntaxError
| ZeroDivisionError
| KeyError
| NotImplementedError
| ReprError.          (* whatever escapes a user-defined [__repr__] or
                         [__str__] *)

Inductive outcome (A : Type) : Type :=
| Return (a : A)
| Raise (e : pyexc).
Arguments Return {A} a.
Arguments Raise {A} e.

(** A computation: its outcome and the messages handed to
    [warnings.warn], oldest first. *)
Definition Py (A : Type) : Type := (outcome A * list string)%type.

Definition ret {A} (a : A) : Py A := (Return a, []).
Definition throw {A} (e : pyexc) : Py A := (Raise e, []).
Definition warn (msg : string) : Py unit := (Return tt, [msg]).
Definition lift {A} (o : outcome A) : Py A := (o, []).

Definition bind {A B} (m : Py A) (f : A -> Py B) : Py B :=
  match m with
  | (Return a, w) => let (r, w') := f a in (r, (w ++ w')%list)
  | (Raise e, w) => (Raise e, w)
  end.

Notation "x <- m ;; k" := (bind m (fun x => k))
  (at level 61, m at next level, right associativity).
Notation "m ;;; k" := (bind m (fun _ => k))
  (at level 61, right associativity).

(** [try: m except Exception as e: h e] *)
Definition try_except {A} (m : Py A) (h : pyexc -> Py A) : Py A :=
  match m with
  | (Return a, w) => (Return a, w)
  | (Raise e, w) => let (r, w') := h e in (r, (w ++ w')%list)
  end.

Definition obind {A B} (o : outcome A) (f : A -> outcome B) : outcome B :=
  match o with
  | Return a => f a
  | Raise e => Raise e
  end.

(* ===================================================================== *)
(** ** Text: slicing, prefixes, splitting                                 *)
(* ===================================================================== *)

Fixpoint drop (n : nat) (s : string) : string :=
  match n, s with
  | O, _ => s
  | S _, EmptyString => EmptyString
  | S k, String _ r => drop k r
  end.

Fixpoint take (n : nat) (s : string) : string :=
  match n, s with
  | O, _ => EmptyString
  | S _, EmptyString => EmptyString
  | S k, String c r => String c (take k r)
  end.

(** [s[a:-1]]: the characters at positions [a <= i < len(s) - 1]. *)
Definition slice_to_last (a : nat) (s : string) : string :=
  take (String.length s - 1 - a) (drop a s).

(** [s.startswith(p)] *)
Definition startswith (s p : string) : bool := String.prefix p s.

(** [s.split(".")]: never empty; [""] splits into [[""]]. *)
Fixpoint split_dot (s : string) : list string :=
  match s with
  | EmptyString => [EmptyString]
  | String c r =>
      if Ascii.eqb c "."%char then EmptyString :: split_dot r
      else match split_dot r with
           | [] => [String c EmptyString]
           | p :: ps => String c p :: ps
           end
  end.

(** [".".join(parts)] *)
Definition join_dot (parts : list string) : string := String.concat "." parts.

(** [parts[:-1]] *)
Definition all_but_last {A} (l : list A) : list A := removelast l.

Definition code (c : ascii) : nat := nat_of_ascii c.

Definition is_digit (c : ascii) : bool :=
  (48 <=? code c)%nat && (code c <=? 57)%nat.

Definition digit_val (c : ascii) : N := N.of_nat (code c - 48).

(** The white space [int()] and [float()] skip around a number, for code
    points below 256: tab to carriage return, the space, U+0085 and
    U+00A0.  (The separators U+001C to U+001F, which [str.strip()]
    removes, are not among them.) *)
Definition is_space (c : ascii) : bool :=
  let n := code c in
  ((9 <=? n) && (n <=? 13) || (n =? 32) || (n =? 133) || (n =? 160))%nat.

Fixpoint lstrip (s : string) : string :=
  match s with
  | EmptyString => EmptyString
  | String c r => if is_space c then lstrip r else s
  end.

Fixpoint rstrip (s : string) : string :=
  match s with
  | EmptyString => EmptyString
  | String c r =>
      match rstrip r with
      | EmptyString => if is_space c then EmptyString else String c EmptyString
      | r' => String c r'
      end
  end.

Definition strip (s : string) : string := rstrip (lstrip s).

Definition lower_char (c : ascii) : ascii :=
  if ((65 <=? code c) && (code c <=? 90))%nat
  then ascii_of_nat (code c + 32) else c.

Fixpoint lower (s : string) : string :=
  match s with
  | EmptyString => EmptyString
  | String c r => String (lower_char c) (lower r)
  end.

(* ===================================================================== *)
(** ** Integers as text: [str(int)] and [int(str)]                        *)
(* ===================================================================== *)

(** ["{}".format(n)] for an integer: decimal digits, ["-"] if negative. *)
Definition str_int (z : Z) : string := NilZero.string_of_int (Z.to_int z).

(** The digit part of [int(text)]: decimal digits, single underscores
    allowed between two digits.  [after_digit] tells whether the previous
    character was a digit. *)
Fixpoint int_digits (s : string) (acc : N) (after_digit : bool) : option N :=
  match s with
  | EmptyString => if after_digit then Some acc else None
  | String c r =>
      if is_digit c then int_digits r (10 * acc + digit_val c)%N true
      else if Ascii.eqb c "_"%char
           then (if after_digit then int_digits r acc false else None)
           else None
  end.

Definition split_sign (s : string) : bool * string :=
  match s with
  | String c r =>
      if Ascii.eqb c "-"%char then (true, r)
      else if Ascii.eqb c "+"%char then (false, r)
      else (false, s)
  | EmptyString => (false, s)
  end.

(** [int(text)]: surrounding white space stripped, optional sign, then the
    digit part; [ValueError] otherwise. *)
Definition int_of_text (s : string) : outcome Z :=
  let (neg, body) := split_sign (strip s) in
  match int_digits body 0%N false with
  | Some n => Return (if neg then (- Z.of_N n)%Z else Z.of_N n)
  | None => Raise ValueError
  end.

(* ===================================================================== *)
(** ** Floats                                                             *)
(* ===================================================================== *)

(** A binary floating-point value: not-a-number, an infinity, a signed
    zero, or [(-1)^neg * m * 2^e]. *)
Inductive pyfloat : Type :=
| FNan
| FInf (neg : bool)
| FZero (neg : bool)
| FFinite (neg : bool) (m : positive) (e : Z).

Definition fneg (f : pyfloat) : pyfloat :=
  match f with
  | FNan => FNan
  | FInf n => FInf (negb n)
  | FZero n => FZero (negb n)
  | FFinite n m e => FFinite (negb n) m e
  end.

Definition signed (neg : bool) (z : Z) : Z := if neg then (- z)%Z else z.

(** [m1 * 2^e1 = m2 * 2^e2], compared after scaling to the smaller
    exponent. *)
Definition scaled_eqb (m1 : Z) (e1 : Z) (m2 : Z) (e2 : Z) : bool :=
  let e := Z.min e1 e2 in
  (m1 * 2 ^ (e1 - e) =? m2 * 2 ^ (e2 - e))%Z.

(** [x == y] on floats, except that not-a-number counts as the same
    dictionary key as itself (the object is found by identity). *)
Definition float_eqb (x y : pyfloat) : bool :=
  match x, y with
  | FNan, FNan => true
  | FInf a, FInf b => Bool.eqb a b
  | FZero _, FZero _ => true
  | FFinite a m1 e1, FFinite b m2 e2 =>
      scaled_eqb (signed a (Zpos m1)) e1 (signed b (Zpos m2)) e2
  | _, _ => false
  end.

(** [z == f] for an integer and a float, exactly. *)
Definition int_float_eqb (z : Z) (f : pyfloat) : bool :=
  match f with
  | FZero _ => (z =? 0)%Z
  | FFinite n m e => scaled_eqb z 0 (signed n (Zpos m)) e
  | _ => false
  end.

Inductive int_kind : Type :=
| Int8 | Int16 | Int32 | Int64 | UInt8 | UInt16 | UInt32 | UInt64.

Inductive float_kind : Type := Float16 | Float32 | Float64.

(** The storage of a numeric array: its element type and the elements in
    row-major order. *)
Inductive ndbuffer : Type :=
| IntBuffer (k : int_kind) (data : list Z)
| FloatBuffer (k : float_kind) (data : list pyfloat).

(* ===================================================================== *)
(** ** Python values                                                      *)
(* ===================================================================== *)

Inductive PyVal : Type :=
| PNone
| PBool (b : bool)
| PInt (z : Z)                                  (* native [int] *)
| PFloat (f : pyfloat)                          (* native [float] *)
| PStr (s : string)
| PList (l : list PyVal)
| PTuple (l : list PyVal)                       (* a plain [tuple] *)
| PTupleSub (cls : string) (oid : nat) (l : list PyVal)
                                                (* an instance of a subclass of
                                                   [tuple] that compares and hashes
                                                   as a tuple; its text is its
                                                   class's *)
| PDict (d : list (PyVal * PyVal))              (* in insertion order *)
| NpInteger (k : int_kind) (z : Z)              (* [np.integer] scalar *)
| NpFloating (k : float_kind) (f : pyfloat)     (* [np.floating] scalar *)
| NdArray (shape : list nat) (buf : ndbuffer)   (* [np.ndarray] *)
| PType (module_ name_ : string) (oid : nat)    (* a class whose type is [type]:
                                                   its [__module__], its [__name__]
                                                   and the identity of the object *)
| TorchDtype (text : string)                    (* [torch.dtype]; [text] is [str(obj)] *)
| PFunction (module_ name_ : string)            (* [FunctionType] *)
| PModule (name_ : string)                      (* [ModuleType] *)
| PObject (cls : string) (oid : nat).           (* an instance of any other class *)

(** What the host runtime supplies. *)
Class Host : Type := {
  (** the shortest decimal text that reads back as [m * 2^e]
      ([float.__repr__] without the sign), e.g. ["2.5"], ["1e+16"] *)
  finite_repr : positive -> Z -> string;
  (** the float nearest to an unsigned decimal text, if it is one *)
  finite_of_text : string -> option pyfloat;
  (** [repr(obj)] where the text depends on the runtime (addresses,
      library versions, user-defined [__repr__]) *)
  runtime_repr : PyVal -> outcome string;
  (** ["{}".format(obj)] for an instance of a subclass of [tuple]: what
      its [__format__] gives, which is [str(obj)] unless the class has a
      [__format__] of its own *)
  runtime_format : PyVal -> outcome string;
  (** [importlib.import_module(name)]; [None] when it raises *)
  import_module : string -> option PyVal;
  (** [getattr(obj, name)]; [None] when it raises *)
  getattr : PyVal -> string -> option PyVal;
  (** [ast.literal_eval(text)] for a text outside the grammar that is
      modelled below *)
  literal_eval_other : string -> outcome PyVal;
  (** [traceback.format_exc()] inside an [except] block *)
  format_exc : pyexc -> string
}.

Definition newline : string := String (ascii_of_nat 10) EmptyString.
Definition dquote : ascii := ascii_of_nat 34.
Definition squote : ascii := ascii_of_nat 39.
Definition backslash : ascii := ascii_of_nat 92.

Section FloatText.
Context {H : Host}.

(** [repr(f)], which is also ["{}".format(f)]. *)
Definition float_repr (f : pyfloat) : string :=
  match f with
  | FNan => "nan"
  | FInf n => if n then "-inf" else "inf"
  | FZero n => if n then "-0.0" else "0.0"
  | FFinite n m e => if n then "-" ++ finite_repr m e else finite_repr m e
  end.

(** [float(text)]: white space stripped, optional sign, then [inf],
    [infinity] or [nan] in any case, or a decimal text. *)
Definition float_of_text (s : string) : outcome pyfloat :=
  let (neg, body) := split_sign (strip s) in
  let l := lower body in
  if String.eqb l "inf" || String.eqb l "infinity"
  then Return (FInf neg)
  else if String.eqb l "nan" then Return FNan
  else match finite_of_text body with
       | Some f => Return (if neg then fneg f else f)
       | None => Raise ValueError
       end.
End FloatText.

(* ===================================================================== *)
(** ** Dictionaries: key equality, hashing, insertion                     *)
(* ===================================================================== *)

(** The number a value stands for under [==]: booleans are the integers
    0 and 1, numpy scalars compare by value. *)
Inductive number : Type := NumInt (z : Z) | NumFloat (f : pyfloat).

Definition as_number (v : PyVal) : option number :=
  match v with
  | PBool b => Some (NumInt (if b then 1 else 0)%Z)
  | PInt z => Some (NumInt z)
  | NpInteger _ z => Some (NumInt z)
  | PFloat f => Some (NumFloat f)
  | NpFloating _ f => Some (NumFloat f)
  | _ => None
  end.

Definition number_eqb (a b : number) : bool :=
  match a, b with
  | NumInt x, NumInt y => (x =? y)%Z
  | NumInt x, NumFloat f => int_float_eqb x f
  | NumFloat f, NumInt y => int_float_eqb y f
  | NumFloat f, NumFloat g => float_eqb f g
  end.

(** [a] and [b] are the same dictionary key. *)
Fixpoint key_eqb (a b : PyVal) : bool :=
  match as_number a, as_number b with
  | Some x, Some y => number_eqb x y
  | Some _, None | None, Some _ => false
  | None, None =>
      match a, b with
      | PNone, PNone => true
      | PStr s, PStr t => String.eqb s t
      | PTuple l1, PTuple l2
      | PTuple l1, PTupleSub _ _ l2
      | PTupleSub _ _ l1, PTuple l2
      | PTupleSub _ _ l1, PTupleSub _ _ l2 =>
          (fix go (l1 l2 : list PyVal) : bool :=
             match l1, l2 with
             | [], [] => true
             | x :: r1, y :: r2 => key_eqb x y && go r1 r2
             | _, _ => false
             end) l1 l2
      | PType m n i, PType m' n' i' =>
          String.eqb m m' && String.eqb n n' && Nat.eqb i i'
      | TorchDtype s, TorchDtype t => String.eqb s t
      | PFunction m n, PFunction m' n' => String.eqb m m' && String.eqb n n'
      | PModule n, PModule n' => String.eqb n n'
      | PObject c i, PObject c' i' => String.eqb c c' && Nat.eqb i i'
      | _, _ => false
      end
  end.

(** [hash(v)] does not raise. *)
Fixpoint hashable (v : PyVal) : bool :=
  match v with
  | PList _ | PDict _ | NdArray _ _ => false
  | PTuple l | PTupleSub _ _ l => forallb hashable l
  | _ => true
  end.

Definition pydict : Type := list (PyVal * PyVal).

(** [d[k] = v] on an existing key keeps its place and takes the new
    value; a new key goes last. *)
Fixpoint dict_put (d : pydict) (k v : PyVal) : pydict :=
  match d with
  | [] => [(k, v)]
  | (k0, v0) :: r =>
      if key_eqb k0 k then (k0, v) :: r else (k0, v0) :: dict_put r k v
  end.

Definition dict_set (d : pydict) (k v : PyVal) : outcome pydict :=
  if hashable k then Return (dict_put d k v) else Raise TypeError.

(** [d.get(k, default)] *)
Fixpoint dict_get (d : pydict) (k : PyVal) (default : PyVal) : PyVal :=
  match d with
  | [] => default
  | (k0, v0) :: r => if key_eqb k0 k then v0 else dict_get r k default
  end.

(** [k in d] *)
Definition dict_mem (d : pydict) (k : PyVal) : bool :=
  existsb (fun kv => key_eqb (fst kv) k) d.

(** A dict that can be unpacked into keyword arguments: its keys are
    strings. *)
Definition keyword_args (d : pydict) : bool :=
  forallb (fun kv => match fst kv with PStr _ => true | _ => false end) d.

(* ===================================================================== *)
(** ** [repr]                                                             *)
(* ===================================================================== *)

Fixpoint contains_char (c : ascii) (s : string) : bool :=
  match s with
  | EmptyString => false
  | String d r => Ascii.eqb c d || contains_char c r
  end.

Definition hex_char (n : nat) : ascii :=
  nth n (list_ascii_of_string "0123456789abcdef") "0"%char.

Definition hex2 (c : ascii) : string :=
  String (hex_char (code c / 16)) (String (hex_char (code c mod 16)) EmptyString).

(** [str.isprintable] on one code point below 256. *)
Definition printable (c : ascii) : bool :=
  let n := code c in
  ((32 <=? n) && (n <=? 126) || (161 <=? n) && negb (n =? 173))%nat.

(** One character of [repr(str)] inside quotes [q]. *)
Definition repr_char (q c : ascii) : string :=
  if Ascii.eqb c q || Ascii.eqb c backslash
  then String backslash (String c EmptyString)
  else if (code c =? 9)%nat then String backslash "t"
  else if (code c =? 10)%nat then String backslash "n"
  else if (code c =? 13)%nat then String backslash "r"
  else if printable c then String c EmptyString
  else String backslash (String "x"%char (hex2 c)).

Fixpoint repr_body (q : ascii) (s : string) : string :=
  match s with
  | EmptyString => EmptyString
  | String c r => repr_char q c ++ repr_body q r
  end.

(** The quote [repr] picks: double quotes only when the text has a single
    quote and no double quote. *)
Definition repr_quote (s : string) : ascii :=
  if contains_char squote s && negb (contains_char dquote s)
  then dquote else squote.

Definition str_repr (s : string) : string :=
  let q := repr_quote s in
  String q (repr_body q s ++ String q EmptyString).

Definition type_repr (module_ name_ : string) : string :=
  if String.eqb module_ "builtins"
  then "<class '" ++ name_ ++ "'>"
  else "<class '" ++ module_ ++ "." ++ name_ ++ "'>".

Section Repr.
Context {H : Host}.

(** [repr(v)], the text a tuple, list or dict shows for its elements. *)
Fixpoint py_repr (v : PyVal) : outcome string :=
  let fix reprs (l : list PyVal) : outcome (list string) :=
    match l with
    | [] => Return []
    | x :: r =>
        obind (py_repr x) (fun s =>
        obind (reprs r) (fun ss => Return (s :: ss)))
    end in
  match v with
  | PNone => Return "None"
  | PBool b => Return (if b then "True" else "False")
  | PInt z => Return (str_int z)
  | PFloat f => Return (float_repr f)
  | PStr s => Return (str_repr s)
  | PList l =>
      obind (reprs l) (fun ss => Return ("[" ++ String.concat ", " ss ++ "]"))
  | PTuple l =>
      obind (reprs l) (fun ss =>
        Return (match ss with
                | [s] => "(" ++ s ++ ",)"
                | _ => "(" ++ String.concat ", " ss ++ ")"
                end))
  | PDict d =>
      obind ((fix items (d : list (PyVal * PyVal)) : outcome (list string) :=
                match d with
                | [] => Return []
                | (k, x) :: r =>
                    obind (py_repr k) (fun sk =>
                    obind (py_repr x) (fun sx =>
                    obind (items r) (fun ss =>
                      Return ((sk ++ ": " ++ sx) :: ss))))
                end) d)
            (fun ss => Return ("{" ++ String.concat ", " ss ++ "}"))
  | PType m n _ => Return (type_repr m n)
  | TorchDtype t => Return t
  | PTupleSub _ _ _ | NpInteger _ _ | NpFloating _ _ | NdArray _ _
  | PFunction _ _ | PModule _ | PObject _ _ => runtime_repr v
  end.

(** ["{}".format(obj)] for a plain tuple: [str(obj)], which is
    [repr(obj)]. *)
Definition format_tuple (l : list PyVal) : outcome string :=
  py_repr (PTuple l).
End Repr.

(** [repr(type(obj))], as the fallback warning shows it. *)
Definition int_kind_name (k : int_kind) : string :=
  match k with
  | Int8 => "int8" | Int16 => "int16" | Int32 => "int32" | Int64 => "int64"
  | UInt8 => "uint8" | UInt16 => "uint16" | UInt32 => "uint32"
  | UInt64 => "uint64"
  end.

Definition float_kind_name (k : float_kind) : string :=
  match k with
  | Float16 => "float16" | Float32 => "float32" | Float64 => "float64"
  end.

Definition class_repr (v : PyVal) : string :=
  match v with
  | PNone => type_repr "builtins" "NoneType"
  | PBool _ => type_repr "builtins" "bool"
  | PInt _ => type_repr "builtins" "int"
  | PFloat _ => type_repr "builtins" "float"
  | PStr _ => type_repr "builtins" "str"
  | PList _ => type_repr "builtins" "list"
  | PTuple _ => type_repr "builtins" "tuple"
  | PTupleSub c _ _ => "<class '" ++ c ++ "'>"
  | PDict _ => type_repr "builtins" "dict"
  | NpInteger k _ => type_repr "numpy" (int_kind_name k)
  | NpFloating k _ => type_repr "numpy" (float_kind_name k)
  | NdArray _ _ => type_repr "numpy" "ndarray"
  | PType _ _ _ => type_repr "builtins" "type"
  | TorchDtype _ => type_repr "torch" "dtype"
  | PFunction _ _ => type_repr "builtins" "function"
  | PModule _ => type_repr "builtins" "module"
  | PObject c _ => "<class '" ++ c ++ "'>"
  end.

(* ===================================================================== *)
(** ** [ast.literal_eval]                                                 *)
(* ===================================================================== *)

(** The grammar modelled here: integers (decimal, hexadecimal, octal and
    binary) and decimal floats, quoted strings with their escapes,
    [True], [False], [None], other names that are not keywords, a sign in
    front of an expression, parenthesised expressions, tuples, lists and
    dictionary displays.  As Python does, the text is first parsed to a
    tree and the tree is then converted, so that a name such as [inf] is
    a [ValueError] of the conversion and not a syntax error.

    The parser answers only where it recognises the whole text.  Every
    other text (set displays, bytes and prefixed strings, complex
    numbers, triple quotes, adjacent string literals, comments, unicode
    escapes, operators other than a sign, and whatever is no expression
    at all) is left to the host: [literal_eval] hands it to
    [literal_eval_other], and the model says neither that the host
    raises nor that it returns. *)
Inductive ast : Type :=
| AConst (v : PyVal)
| AName (id : string)
| ATuple (l : list ast)
| AList (l : list ast)
| ADict (l : list (ast * ast))
| AUnary (neg : bool) (a : ast).

Definition is_alpha (c : ascii) : bool :=
  let n := code c in
  ((65 <=? n) && (n <=? 90) || (97 <=? n) && (n <=? 122))%nat.

Definition is_ident_char (c : ascii) : bool :=
  is_alpha c || is_digit c || Ascii.eqb c "_"%char.

Definition is_e (c : ascii) : bool :=
  Ascii.eqb c "e"%char || Ascii.eqb c "E"%char.

Definition is_sign (c : ascii) : bool :=
  Ascii.eqb c "+"%char || Ascii.eqb c "-"%char.

(** White space between tokens; line breaks count only inside brackets. *)
Definition is_blank (inner : bool) (c : ascii) : bool :=
  let n := code c in
  ((n =? 32) || (n =? 9) || (n =? 12)
   || inner && ((n =? 10) || (n =? 13)))%nat.

Fixpoint skip_ws (inner : bool) (s : string) : string :=
  match s with
  | EmptyString => EmptyString
  | String c r => if is_blank inner c then skip_ws inner r else s
  end.

(** The longest run of characters a number token can be made of; a sign
    belongs to it only right after an exponent mark. *)
Fixpoint scan_number (s : string) (after_e : bool) : string * string :=
  match s with
  | EmptyString => (EmptyString, EmptyString)
  | String c r =>
      if is_ident_char c || Ascii.eqb c "."%char || after_e && is_sign c
      then let (t, rest) := scan_number r (is_e c) in (String c t, rest)
      else (EmptyString, s)
  end.

Fixpoint scan_ident (s : string) : string * string :=
  match s with
  | EmptyString => (EmptyString, EmptyString)
  | String c r =>
      if is_ident_char c
      then let (t, rest) := scan_ident r in (String c t, rest)
      else (EmptyString, s)
  end.

(** A decimal integer literal: digits with single underscores between
    them, and no leading zero unless every digit is zero. *)
Definition int_literal (tok : string) : option Z :=
  match tok, int_digits tok 0%N false with
  | String c _, Some n =>
      if negb (Ascii.eqb c "0"%char) || (n =? 0)%N then Some (Z.of_N n)
      else None
  | _, _ => None
  end.

(** The float literals: [digits.], [.digits], [digits.digits], each with
    an optional exponent, and [digits] with an exponent. *)
Inductive numstate : Type :=
| NsStart | NsInt | NsIntU | NsDot | NsPoint | NsFrac | NsFracU
| NsExp | NsExpSign | NsExpDigit | NsExpU.

Definition num_step (st : numstate) (c : ascii) : option numstate :=
  let digit := is_digit c in
  let under := Ascii.eqb c "_"%char in
  let dot := Ascii.eqb c "."%char in
  match st with
  | NsStart => if digit then Some NsInt else if dot then Some NsDot else None
  | NsInt => if digit then Some NsInt else if under then Some NsIntU
             else if dot then Some NsPoint
             else if is_e c then Some NsExp else None
  | NsIntU => if digit then Some NsInt else None
  | NsDot => if digit then Some NsFrac else None
  | NsPoint => if digit then Some NsFrac
               else if is_e c then Some NsExp else None
  | NsFrac => if digit then Some NsFrac else if under then Some NsFracU
              else if is_e c then Some NsExp else None
  | NsFracU => if digit then Some NsFrac else None
  | NsExp => if digit then Some NsExpDigit
             else if is_sign c then Some NsExpSign else None
  | NsExpSign => if digit then Some NsExpDigit else None
  | NsExpDigit => if digit then Some NsExpDigit
                  else if under then Some NsExpU else None
  | NsExpU => if digit then Some NsExpDigit else None
  end.

Definition num_accept (st : numstate) : bool :=
  match st with
  | NsPoint | NsFrac | NsExpDigit => true
  | _ => false
  end.

Fixpoint num_run (st : numstate) (s : string) : bool :=
  match s with
  | EmptyString => num_accept st
  | String c r =>
      match num_step st c with
      | Some st' => num_run st' r
      | None => false
      end
  end.

Definition float_literal (tok : string) : bool := num_run NsStart tok.

Definition hex_val (c : ascii) : option nat :=
  let n := code c in
  if is_digit c then Some (n - 48)
  else if ((97 <=? n) && (n <=? 102))%nat then Some (n - 87)
  else if ((65 <=? n) && (n <=? 70))%nat then Some (n - 55)
  else None.

Definition oct_val (c : ascii) : option nat :=
  let n := code c in
  if ((48 <=? n) && (n <=? 55))%nat then Some (n - 48) else None.

(** The digits of an integer literal in base 16, 8 or 2: single
    underscores are allowed between two digits and after the prefix. *)
Fixpoint radix_digits (base : nat) (s : string) (acc : N) (after_digit : bool)
  : option N :=
  match s with
  | EmptyString => if after_digit then Some acc else None
  | String c r =>
      match hex_val c with
      | Some d =>
          if (d <? base)%nat
          then radix_digits base r (N.of_nat base * acc + N.of_nat d)%N true
          else None
      | None =>
          if Ascii.eqb c "_"%char
          then (if after_digit then radix_digits base r acc false else None)
          else None
      end
  end.

(** [0x...], [0o...] and [0b...], the prefix letter in either case. *)
Definition radix_literal (tok : string) : option Z :=
  match tok with
  | String z (String p (String c r)) =>
      if Ascii.eqb z "0"%char then
        let body := String c r in
        let base :=
          if Ascii.eqb p "x"%char || Ascii.eqb p "X"%char then 16
          else if Ascii.eqb p "o"%char || Ascii.eqb p "O"%char then 8
          else if Ascii.eqb p "b"%char || Ascii.eqb p "B"%char then 2
          else 0 in
        match radix_digits base body 0%N true with
        | Some n => Some (Z.of_N n)
        | None => None
        end
      else None
  | _ => None
  end.

Definition char_of_code (n : nat) : option ascii :=
  if (n <? 256)%nat then Some (ascii_of_nat n) else None.

Definition cons_char (c : option ascii) (k : option (string * string))
  : option (string * string) :=
  match c, k with
  | Some c, Some (t, rest) => Some (String c t, rest)
  | _, _ => None
  end.

(** The body of a string literal opened by the quote [q], up to the
    closing quote.  [None] also where the text is left to the host: a
    null character, a backslash before a carriage return, an escape
    that names a code point by [N], [u] or [U] or one above 255. *)
Fixpoint scan_string (q : ascii) (s : string) : option (string * string) :=
  match s with
  | EmptyString => None
  | String c r =>
      if Ascii.eqb c q then Some (EmptyString, r)
      else if Ascii.eqb c backslash then
        match r with
        | EmptyString => None
        | String e r1 =>
            if Ascii.eqb e backslash || Ascii.eqb e squote || Ascii.eqb e dquote
            then cons_char (Some e) (scan_string q r1)
            else if Ascii.eqb e "n"%char
            then cons_char (Some (ascii_of_nat 10)) (scan_string q r1)
            else if Ascii.eqb e "r"%char
            then cons_char (Some (ascii_of_nat 13)) (scan_string q r1)
            else if Ascii.eqb e "t"%char
            then cons_char (Some (ascii_of_nat 9)) (scan_string q r1)
            else if Ascii.eqb e "a"%char
            then cons_char (Some (ascii_of_nat 7)) (scan_string q r1)
            else if Ascii.eqb e "b"%char
            then cons_char (Some (ascii_of_nat 8)) (scan_string q r1)
            else if Ascii.eqb e "f"%char
            then cons_char (Some (ascii_of_nat 12)) (scan_string q r1)
            else if Ascii.eqb e "v"%char
            then cons_char (Some (ascii_of_nat 11)) (scan_string q r1)
            else if (code e =? 10)%nat then scan_string q r1
            else if ((code e =? 13) || (code e =? 0))%nat then None
            else if Ascii.eqb e "x"%char then
              match r1 with
              | String h1 (String h2 r2) =>
                  match hex_val h1, hex_val h2 with
                  | Some a, Some b =>
                      cons_char (char_of_code (16 * a + b)) (scan_string q r2)
                  | _, _ => None
                  end
              | _ => None
              end
            else if Ascii.eqb e "N"%char || Ascii.eqb e "u"%char
                    || Ascii.eqb e "U"%char
            then None
            else
              match oct_val e with
              | Some a =>
                  match r1 with
                  | String o2 r2 =>
                      match oct_val o2 with
                      | Some b =>
                          match r2 with
                          | String o3 r3 =>
                              match oct_val o3 with
                              | Some d =>
                                  cons_char (char_of_code (64 * a + 8 * b + d))
                                            (scan_string q r3)
                              | None =>
                                  cons_char (char_of_code (8 * a + b))
                                            (scan_string q r2)
                              end
                          | EmptyString =>
                              cons_char (char_of_code (8 * a + b))
                                        (scan_string q r2)
                          end
                      | None => cons_char (char_of_code a) (scan_string q r1)
                      end
                  | EmptyString => cons_char (char_of_code a) (scan_string q r1)
                  end
              | None =>
                  (* an unknown escape keeps its backslash *)
                  cons_char (Some backslash)
                            (cons_char (Some e) (scan_string q r1))
              end
        end
      else if ((code c =? 10) || (code c =? 13) || (code c =? 0))%nat
      then None
      else cons_char (Some c) (scan_string q r)
  end.

(** The reserved words that cannot stand as a name. *)
Definition keywords : list string :=
  ["and"; "as"; "assert"; "async"; "await"; "break"; "class"; "continue";
   "def"; "del"; "elif"; "else"; "except"; "finally"; "for"; "from";
   "global"; "if"; "import"; "in"; "is"; "lambda"; "nonlocal"; "not";
   "or"; "pass"; "raise"; "return"; "try"; "while"; "with"; "yield"].

Definition is_keyword (id : string) : bool :=
  existsb (String.eqb id) keywords.

Definition name_node (id : string) : ast :=
  if String.eqb id "True" then AConst (PBool true)
  else if String.eqb id "False" then AConst (PBool false)
  else if String.eqb id "None" then AConst PNone
  else AName id.

(** The line breaks that may end the text. *)
Fixpoint skip_nl (s : string) : string :=
  match s with
  | EmptyString => EmptyString
  | String c r =>
      if ((code c =? 10) || (code c =? 13))%nat then skip_nl r else s
  end.

(** [s] ends the sequence opened by [close]; at top level ([None]) the
    sequence ends with the text, after blanks and then line breaks. *)
Definition at_close (close : option ascii) (s : string) : option string :=
  match close with
  | Some c =>
      match skip_ws true s with
      | String d r => if Ascii.eqb d c then Some r else None
      | EmptyString => None
      end
  | None =>
      match skip_nl (skip_ws false s) with
      | EmptyString => Some EmptyString
      | String _ _ => None
      end
  end.

(** [s.lstrip(" \t")], which [literal_eval] applies before parsing. *)
Fixpoint lstrip_blank (s : string) : string :=
  match s with
  | EmptyString => EmptyString
  | String c r =>
      if ((code c =? 32) || (code c =? 9))%nat then lstrip_blank r else s
  end.

Definition is_inner (close : option ascii) : bool :=
  match close with Some _ => true | None => false end.

Section LiteralEval.
Context {H : Host}.

Definition number_token (tok : string) : option ast :=
  match int_literal tok with
  | Some z => Some (AConst (PInt z))
  | None =>
      if float_literal tok
      then match float_of_text tok with
           | Return f => Some (AConst (PFloat f))
           | Raise _ => None
           end
      else match radix_literal tok with
           | Some z => Some (AConst (PInt z))
           | None => None
           end
  end.

(** Recursive descent; every call spends one unit of [fuel].  Where the
    fuel runs out the text is not recognised. *)
Fixpoint parse_expr (fuel : nat) (inner : bool) (s : string) {struct fuel}
  : option (ast * string) :=
  match fuel with
  | O => None
  | S k =>
      match skip_ws inner s with
      | EmptyString => None
      | String c r =>
          if Ascii.eqb c "("%char then
            match parse_items k (Some ")"%char) r with
            | Some (items, comma, r') =>
                match items, comma with
                | [e], false => Some (e, r')
                | _, _ => Some (ATuple items, r')
                end
            | None => None
            end
          else if Ascii.eqb c "["%char then
            match parse_items k (Some "]"%char) r with
            | Some (items, _, r') => Some (AList items, r')
            | None => None
            end
          else if is_sign c then
            match parse_expr k inner r with
            | Some (a, r') => Some (AUnary (Ascii.eqb c "-"%char) a, r')
            | None => None
            end
          else if is_digit c || Ascii.eqb c "."%char then
            let (tok, r') := scan_number (String c r) false in
            match number_token tok with
            | Some a => Some (a, r')
            | None => None
            end
          else if Ascii.eqb c squote || Ascii.eqb c dquote then
            match scan_string c r with
            | Some (t, r') => Some (AConst (PStr t), r')
            | None => None
            end
          else if is_alpha c || Ascii.eqb c "_"%char then
            let (id, r') := scan_ident (String c r) in
            if is_keyword id then None else Some (name_node id, r')
          else if Ascii.eqb c "{"%char then
            match parse_pairs k r with
            | Some (pairs, r') => Some (ADict pairs, r')
            | None => None
            end
          else None
      end
  end
with parse_items (fuel : nat) (close : option ascii) (s : string)
       {struct fuel} : option (list ast * bool * string) :=
  match fuel with
  | O => None
  | S k =>
      match at_close close s with
      | Some r => Some ([], false, r)
      | None =>
          match parse_expr k (is_inner close) s with
          | None => None
          | Some (e, r1) =>
              match at_close close r1 with
              | Some r2 => Some ([e], false, r2)
              | None =>
                  match skip_ws (is_inner close) r1 with
                  | String c r2 =>
                      if Ascii.eqb c ","%char then
                        match parse_items k close r2 with
                        | Some (es, _, r3) => Some (e :: es, true, r3)
                        | None => None
                        end
                      else None
                  | EmptyString => None
                  end
              end
          end
      end
  end
with parse_pairs (fuel : nat) (s : string) {struct fuel}
       : option (list (ast * ast) * string) :=
  match fuel with
  | O => None
  | S k =>
      match at_close (Some "}"%char) s with
      | Some r => Some ([], r)
      | None =>
          match parse_expr k true s with
          | None => None
          | Some (key, r1) =>
              match skip_ws true r1 with
              | String c r2 =>
                  if Ascii.eqb c ":"%char then
                    match parse_expr k true r2 with
                    | None => None
                    | Some (val, r3) =>
                        match at_close (Some "}"%char) r3 with
                        | Some r4 => Some ([(key, val)], r4)
                        | None =>
                            match skip_ws true r3 with
                            | String c' r4 =>
                                if Ascii.eqb c' ","%char then
                                  match parse_pairs k r4 with
                                  | Some (ps, r5) => Some ((key, val) :: ps, r5)
                                  | None => None
                                  end
                                else None
                            | EmptyString => None
                            end
                        end
                    end
                  else None
              | EmptyString => None
              end
          end
      end
  end.

(** [ast.parse(text.lstrip(" \t"), mode='eval')]: one expression, or a
    tuple written without parentheses. *)
Definition parse_top (s : string) : option ast :=
  match lstrip_blank s with
  | EmptyString => None
  | String c r =>
      if is_blank true c then None
      else
        match parse_items (2 * String.length s + 2) None (String c r) with
        | Some ([], _, _) => None
        | Some ([e], false, _) => Some e
        | Some (items, _, _) => Some (ATuple items)
        | None => None
        end
  end.

(** The conversion of the tree: constants, tuples, lists, dictionaries
    (each key and its value converted and stored in turn) and a sign in
    front of a number; anything else is a malformed node. *)
Fixpoint convert (a : ast) : outcome PyVal :=
  let fix convs (l : list ast) : outcome (list PyVal) :=
    match l with
    | [] => Return []
    | x :: r =>
        obind (convert x) (fun v =>
        obind (convs r) (fun vs => Return (v :: vs)))
    end in
  match a with
  | AConst v => Return v
  | AName _ => Raise ValueError
  | ATuple l => obind (convs l) (fun vs => Return (PTuple vs))
  | AList l => obind (convs l) (fun vs => Return (PList vs))
  | ADict l =>
      obind ((fix pairs (l : list (ast * ast)) (acc : pydict)
                : outcome pydict :=
                match l with
                | [] => Return acc
                | (k, x) :: r =>
                    obind (convert k) (fun kv =>
                    obind (convert x) (fun xv =>
                    obind (dict_set acc kv xv) (fun acc' => pairs r acc')))
                end) l [])
            (fun d => Return (PDict d))
  | AUnary neg (AConst (PInt z)) =>
      Return (PInt (if neg then (- z)%Z else z))
  | AUnary neg (AConst (PFloat f)) =>
      Return (PFloat (if neg then fneg f else f))
  | AUnary _ _ => Raise ValueError
  end.

Definition literal_eval (s : string) : outcome PyVal :=
  match parse_top s with
  | Some a => convert a
  | None => literal_eval_other s
  end.
End LiteralEval.

Fixpoint chars (s : string) : list PyVal :=
  match s with
  | EmptyString => []
  | String c r => PStr (String c EmptyString) :: chars r
  end.

(** [tuple(v)] for a value [literal_eval] can return. *)
Definition py_tuple (v : PyVal) : outcome PyVal :=
  match v with
  | PTuple l | PTupleSub _ _ l => Return (PTuple l)
  | PList l => Return (PTuple l)
  | PStr s => Return (PTuple (chars s))
  | PDict d => Return (PTuple (map fst d))
  | _ => Raise TypeError
  end.

(* ===================================================================== *)
(** ** [np.ndarray.tolist]                                                *)
(* ===================================================================== *)

Definition buffer_items (buf : ndbuffer) : list PyVal :=
  match buf with
  | IntBuffer _ data => map PInt data
  | FloatBuffer _ data => map PFloat data
  end.

(** [n] consecutive pieces of [size] elements each. *)
Fixpoint chunks {A} (n size : nat) (data : list A) : list (list A) :=
  match n with
  | O => []
  | S k => firstn size data :: chunks k size (skipn size data)
  end.

(** Row-major nesting of the elements along [shape]; an array without
    axes is its single element. *)
Fixpoint nest (shape : list nat) (items : list PyVal) : PyVal :=
  match shape with
  | [] => hd PNone items
  | n :: rest =>
      PList (map (nest rest) (chunks n (fold_right Nat.mul 1 rest) items))
  end.

Definition tolist (shape : list nat) (buf : ndbuffer) : PyVal :=
  nest shape (buffer_items buf).

(* ===================================================================== *)
(** ** The underlying format: [json.JSONEncoder] and [json.JSONDecoder]   *)
(* ===================================================================== *)

(** The document the base encoder writes and the base decoder reads.  A
    number is kept as the token that stands in the text. *)
Inductive Json : Type :=
| JNull
| JBool (b : bool)
| JNumber (text : string)
| JString (s : string)
| JArray (items : list Json)
| JObject (members : list (string * Json)).

Section JsonBase.
Context {H : Host}.

Definition json_float_text (f : pyfloat) : string :=
  match f with
  | FNan => "NaN"
  | FInf n => if n then "-Infinity" else "Infinity"
  | _ => float_repr f
  end.

(** The text of a mapping key; [TypeError] for a key that is not a
    string, number, boolean or [None]. *)
Definition json_key (k : PyVal) : outcome string :=
  match k with
  | PStr s => Return s
  | PFloat f | NpFloating Float64 f => Return (json_float_text f)
  | PBool b => Return (if b then "true" else "false")
  | PNone => Return "null"
  | PInt z => Return (str_int z)
  | _ => Raise TypeError
  end.

(** [json.JSONEncoder.encode]: [TypeError] on an object that is not
    serializable. *)
Fixpoint json_dumps (v : PyVal) : outcome Json :=
  let fix elems (l : list PyVal) : outcome (list Json) :=
    match l with
    | [] => Return []
    | x :: r =>
        obind (json_dumps x) (fun j =>
        obind (elems r) (fun js => Return (j :: js)))
    end in
  match v with
  | PNone => Return JNull
  | PBool b => Return (JBool b)
  | PInt z => Return (JNumber (str_int z))
  | PFloat f | NpFloating Float64 f => Return (JNumber (json_float_text f))
  | PStr s => Return (JString s)
  | PList l | PTuple l | PTupleSub _ _ l =>
      obind (elems l) (fun js => Return (JArray js))
  | PDict d =>
      obind ((fix members (d : list (PyVal * PyVal))
                : outcome (list (string * Json)) :=
                match d with
                | [] => Return []
                | (k, x) :: r =>
                    obind (json_key k) (fun ks =>
                    obind (json_dumps x) (fun jx =>
                    obind (members r) (fun ms => Return ((ks, jx) :: ms))))
                end) d)
            (fun ms => Return (JObject ms))
  | _ => Raise TypeError
  end.

(** A number token: the three constants, a float when the token has a
    fraction or an exponent, an integer otherwise. *)
Definition json_number (text : string) : outcome PyVal :=
  if String.eqb text "NaN" then Return (PFloat FNan)
  else if String.eqb text "Infinity" then Return (PFloat (FInf false))
  else if String.eqb text "-Infinity" then Return (PFloat (FInf true))
  else if contains_char "."%char text || contains_char "e"%char text
          || contains_char "E"%char text
  then obind (float_of_text text) (fun f => Return (PFloat f))
  else obind (int_of_text text) (fun z => Return (PInt z)).

(** [json.JSONDecoder.decode] on a well-formed document; of two members
    with the same name the later one wins. *)
Fixpoint json_loads (j : Json) : outcome PyVal :=
  match j with
  | JNull => Return PNone
  | JBool b => Return (PBool b)
  | JNumber t => json_number t
  | JString s => Return (PStr s)
  | JArray l =>
      obind ((fix elems (l : list Json) : outcome (list PyVal) :=
                match l with
                | [] => Return []
                | x :: r =>
                    obind (json_loads x) (fun v =>
                    obind (elems r) (fun vs => Return (v :: vs)))
                end) l)
            (fun vs => Return (PList vs))
  | JObject ms =>
      obind ((fix members (ms : list (string * Json)) (acc : pydict)
                : outcome pydict :=
                match ms with
                | [] => Return acc
                | (k, x) :: r =>
                    obind (json_loads x) (fun v =>
                      members r (dict_put acc (PStr k) v))
                end) ms [])
            (fun d => Return (PDict d))
  end.
End JsonBase.

(* ===================================================================== *)
(** ** json_utils.py: the encoders                                        *)
(* ===================================================================== *)

(** The methods a call on [self] reaches: the class of the instance
    decides them. *)
Record Encoder : Type := {
  self_encode : PyVal -> Py PyVal;
  self_encode_key : PyVal -> Py PyVal
}.

Module CustomJSONEncoder.
Section Methods.
Context {H : Host}.

Definition _encode (obj : PyVal) : Py PyVal := throw NotImplementedError.

(** [self_encode_] is what [self._encode] resolves to. *)
Definition _encode_key (self_encode_ : PyVal -> Py PyVal) (obj : PyVal)
  : Py PyVal :=
  self_encode_ obj.

Fixpoint _encode_switch (self : Encoder) (obj : PyVal) : Py PyVal :=
  match obj with
  | PList l =>
      items <- (fix each (l : list PyVal) : Py (list PyVal) :=
                  match l with
                  | [] => ret []
                  | item :: r =>
                      y <- _encode_switch self item ;;
                      ys <- each r ;;
                      ret (y :: ys)
                  end) l ;;
      ret (PList items)
  | PDict d =>
      d' <- (fix each (d : list (PyVal * PyVal)) (acc : pydict)
               : Py pydict :=
               match d with
               | [] => ret acc
               | (key, val) :: r =>
                   k <- self_encode_key self key ;;
                   v <- _encode_switch self val ;;
                   acc' <- lift (dict_set acc k v) ;;
                   each r acc'
               end) d [] ;;
      ret (PDict d')
  | _ => self_encode self obj
  end.

(** [encode]: the walk, then the base encoder on its result. *)
Definition encode (self : Encoder) (obj : PyVal) : Py Json :=
  v <- _encode_switch self obj ;;
  lift (json_dumps v).




Definition self : Encoder :=
  {| self_encode := _encode;
     self_encode_key := _encode_key _encode |}.
End Methods.
End CustomJSONEncoder.

Module MultiTypeEncoder.
Section Methods.
Context {H : Host}.

Definition _encode_key (self_encode_ : PyVal -> Py PyVal) (obj : PyVal)
  : Py PyVal :=
  match obj with
  | PBool b => ret (PStr ("__int__(" ++ (if b then "True" else "False") ++ ")"))
  | PInt z => ret (PStr ("__int__(" ++ str_int z ++ ")"))
  | PFloat f => ret (PStr ("__float__(" ++ float_repr f ++ ")"))
  | NpFloating Float64 f =>
      ret (PStr ("__float__(" ++ float_repr f ++ ")"))
  | _ => self_encode_ obj
  end.

Definition _encode (obj : PyVal) : Py PyVal :=
  match obj with
  | PTuple l =>
      s <- lift (format_tuple l) ;;
      ret (PStr ("__tuple__(" ++ s ++ ")"))
  | PTupleSub _ _ _ =>
      s <- lift (runtime_format obj) ;;
      ret (PStr ("__tuple__(" ++ s ++ ")"))
  | NpInteger _ z => ret (PStr ("__int__(" ++ str_int z ++ ")"))
  | NpFloating k f => ret (PStr ("__float__(" ++ float_repr f ++ ")"))
  | NdArray shape buf => ret (tolist shape buf)
  | _ => ret obj
  end.

Definition self : Encoder :=
  {| self_encode := _encode;
     self_encode_key := _encode_key _encode |}.

Definition _encode_switch := CustomJSONEncoder._encode_switch self.
Definition encode := CustomJSONEncoder.encode self.
End Methods.
End MultiTypeEncoder.

Module ModuleMultiTypeEncoder.
Section Methods.
Context {H : Host}.

Definition _encode (obj : PyVal) (strict : bool) : Py PyVal :=
  match obj with
  | PType module_ name_ _ =>
      ret (PStr ("__type__(" ++ module_ ++ "." ++ name_ ++ ")"))
  | TorchDtype text => ret (PStr ("__type__(" ++ text ++ ")"))
  | PFunction module_ name_ =>
      ret (PStr ("__function__(" ++ module_ ++ "." ++ name_ ++ ")"))
  | PModule name_ => ret (PStr ("__module__(" ++ name_ ++ ")"))
  | _ =>
      try_except (MultiTypeEncoder._encode obj) (fun e =>
        if strict then throw e
        else
          let message :=
            "Could not pickle object of type " ++ class_repr obj
            ++ newline ++ format_exc e in
          warn message ;;;
          s <- lift (py_repr obj) ;;
          ret (PStr s))
  end.

(** The walker calls [self._encode(obj)]: [strict] keeps its default. *)
Definition self : Encoder :=
  {| self_encode := fun obj => _encode obj false;
     self_encode_key :=
       MultiTypeEncoder._encode_key (fun obj => _encode obj false) |}.

Definition _encode_key := self_encode_key self.
Definition _encode_switch := CustomJSONEncoder._encode_switch self.
Definition encode := CustomJSONEncoder.encode self.
End Methods.
End ModuleMultiTypeEncoder.

(* ===================================================================== *)
(** ** json_utils.py: the decoders                                        *)
(* ===================================================================== *)

Record Decoder : Type := {
  self_decode : PyVal -> Py PyVal;
  self_decode_key : PyVal -> Py PyVal
}.

Module CustomJSONDecoder.
Section Methods.
Context {H : Host}.

Definition _decode (obj : PyVal) : Py PyVal := throw NotImplementedError.

(** [self_decode_] is what [self._decode] resolves to. *)
Definition _decode_key (self_decode_ : PyVal -> Py PyVal) (obj : PyVal)
  : Py PyVal :=
  self_decode_ obj.

Fixpoint _decode_switch (self : Decoder) (obj : PyVal) : Py PyVal :=
  match obj with
  | PList l =>
      items <- (fix each (l : list PyVal) : Py (list PyVal) :=
                  match l with
                  | [] => ret []
                  | item :: r =>
                      y <- _decode_switch self item ;;
                      ys <- each r ;;
                      ret (y :: ys)
                  end) l ;;
      ret (PList items)
  | PDict d =>
      d' <- (fix each (d : list (PyVal * PyVal)) (acc : pydict)
               : Py pydict :=
               match d with
               | [] => ret acc
               | (key, val) :: r =>
                   k <- self_decode_key self key ;;
                   v <- _decode_switch self val ;;
                   acc' <- lift (dict_set acc k v) ;;
                   each r acc'
               end) d [] ;;
      ret (PDict d')
  | _ => self_decode self obj
  end.

Definition decode (self : Decoder) (doc : Json) : Py PyVal :=
  v <- lift (json_loads doc) ;;
  _decode_switch self v.

Definition self : Decoder :=
  {| self_decode := _decode;
     self_decode_key := _decode_key _decode |}.
End Methods.
End CustomJSONDecoder.

Module MultiTypeDecoder.
Section Methods.
Context {H : Host}.

Definition _decode (obj : PyVal) : Py PyVal :=
  match obj with
  | PStr s =>
      if startswith s "__int__" then
        z <- lift (int_of_text (slice_to_last 8 s)) ;;
        ret (PInt z)
      else if startswith s "__float__" then
        f <- lift (float_of_text (slice_to_last 10 s)) ;;
        ret (PFloat f)
      else if startswith s "__tuple__" then
        v <- lift (literal_eval (slice_to_last 10 s)) ;;
        lift (py_tuple v)
      else ret obj
  | _ => ret obj
  end.

Definition self : Decoder :=
  {| self_decode := _decode;
     self_decode_key := CustomJSONDecoder._decode_key _decode |}.

Definition _decode_key := self_decode_key self.
Definition _decode_switch := CustomJSONDecoder._decode_switch self.
Definition decode := CustomJSONDecoder.decode self.
End Methods.
End MultiTypeDecoder.

Module ModuleMultiTypeDecoder.
Section Methods.
Context {H : Host}.

(** [getattr(importlib.import_module(module_), name_)] inside [try]. *)
Definition load_attribute (module_ name_ : string) : option PyVal :=
  match import_module module_ with
  | Some m => getattr m name_
  | None => None
  end.

Definition _decode (obj : PyVal) : Py PyVal :=
  match obj with
  | PStr s =>
      if startswith s "__type__" then
        let str_ := slice_to_last 9 s in
        let module_ := join_dot (all_but_last (split_dot str_)) in
        let name_ := last (split_dot str_) EmptyString in
        match load_attribute module_ name_ with
        | Some type_ => ret type_
        | None => warn ("Could not load " ++ str_) ;;; ret (PStr str_)
        end
      else if startswith s "__function__" then
        let str_ := slice_to_last 13 s in
        let module_ := join_dot (all_but_last (split_dot str_)) in
        let name_ := last (split_dot str_) EmptyString in
        match load_attribute module_ name_ with
        | Some type_ => ret type_
        | None => warn ("Could not load " ++ str_) ;;; ret (PStr str_)
        end
      else if startswith s "__module__" then
        let str_ := slice_to_last 11 s in
        match import_module str_ with
        | Some type_ => ret type_
        | None => warn ("Could not load " ++ str_) ;;; ret (PStr str_)
        end
      else MultiTypeDecoder._decode obj
  | _ => MultiTypeDecoder._decode obj
  end.

Definition self : Decoder :=
  {| self_decode := _decode;
     self_decode_key := CustomJSONDecoder._decode_key _decode |}.

Definition _decode_key := self_decode_key self.
Definition _decode_switch := CustomJSONDecoder._decode_switch self.
Definition decode := CustomJSONDecoder.decode self.
End Methods.
End ModuleMultiTypeDecoder.

(* ===================================================================== *)
(** ** tensorboardx_handler.py                                            *)
(* ===================================================================== *)

Module TensorboardXHandler.

Definition SUPPORTED_MODES : list string :=
  ["scalar"; "image"; "figure"; "histogram"; "audio";
   "text"; "graph"; "onnx_graph"; "embedding";
   "pr_curve"; "video"].

(** The [logging_frequencies] argument: [None], an [int] (a [bool] is
    one), a list, a tuple, a string, a dict, an [Iterable] of any other
    class, or an object that is neither an [int] nor an [Iterable].

    An iterable of another class (an array, a set, a generator) is given
    by what the three operations of [_create_frequencies] do on it:
    [len()] of it, the items of its sum with a list of [n] ones, and its
    own items. *)
Inductive FreqArg : Type :=
| FreqNone
| FreqBool (b : bool)
| FreqInt (z : Z)
| FreqList (l : list PyVal)
| FreqTuple (l : list PyVal)
| FreqStr (s : string)
| FreqDict (d : pydict)
| FreqIterable (length : outcome nat)
               (plus_ones : nat -> outcome (list PyVal))
               (items : list PyVal)
| FreqOther.

Definition is_None (a : FreqArg) : bool :=
  match a with FreqNone => true | _ => false end.

(** [isinstance(a, int)], with the value stored for every mode. *)
Definition as_int (a : FreqArg) : option PyVal :=
  match a with
  | FreqBool b => Some (PBool b)
  | FreqInt z => Some (PInt z)
  | _ => None
  end.

(** [isinstance(a, Iterable)]: a dict is an [Iterable] too. *)
Definition is_Iterable (a : FreqArg) : bool :=
  match a with
  | FreqList _ | FreqTuple _ | FreqStr _ | FreqDict _
  | FreqIterable _ _ _ => true
  | _ => false
  end.

Definition is_dict (a : FreqArg) : option pydict :=
  match a with FreqDict d => Some d | _ => None end.

(** [len(a)] of an iterable argument. *)
Definition arg_len (a : FreqArg) : outcome nat :=
  match a with
  | FreqList l | FreqTuple l => Return (List.length l)
  | FreqStr s => Return (String.length s)
  | FreqDict d => Return (List.length d)
  | FreqIterable length _ _ => length
  | _ => Return 0
  end.

(** [a + [1] * n]: a list is extended; a tuple, a string and a dict
    cannot be added to a list; an iterable of another class decides for
    itself. *)
Definition add_ones (a : FreqArg) (n : nat) : outcome FreqArg :=
  match a with
  | FreqList l => Return (FreqList (l ++ repeat (PInt 1) n))
  | FreqIterable _ plus_ones _ =>
      match plus_ones n with
      | Return l => Return (FreqList l)
      | Raise e => Raise e
      end
  | _ => Raise TypeError
  end.

(** What iterating over the argument yields: a dict yields its keys. *)
Definition arg_iter (a : FreqArg) : list PyVal :=
  match a with
  | FreqList l | FreqTuple l => l
  | FreqStr s => chars s
  | FreqDict d => map fst d
  | FreqIterable _ _ items => items
  | _ => []
  end.

Definition length_warning : string :=
  "The number of logging frequencies and "
  ++ "                    Supported Modes does not match, filling the other modes "
  ++ "                    with frequency 1 or truncating them".

Definition missing_warning : string :=
  "Not all Supported Modes have a valid logging frequency, "
  ++ "                        filling the other ones with 1".

(** [for key in SUPPORTED_MODES: _frequencies[key] =
    logging_frequencies.get(key, 1)], the branch written for a dict. *)
Definition frequencies_of_dict (d : pydict) : list (string * PyVal) :=
  map (fun key => (key, dict_get d (PStr key) (PInt 1))) SUPPORTED_MODES.

Definition _create_frequencies (logging_frequencies : FreqArg)
  : Py (list (string * PyVal)) :=
  if is_None logging_frequencies then
    ret (map (fun k => (k, PInt 1)) SUPPORTED_MODES)
  else
    match as_int logging_frequencies with
    | Some f => ret (map (fun k => (k, f)) SUPPORTED_MODES)
    | None =>
        if is_Iterable logging_frequencies then
          n <- lift (arg_len logging_frequencies) ;;
          lf <- (if negb (n =? List.length SUPPORTED_MODES)%nat
                 then
                   warn length_warning ;;;
                   let missing_freqs :=
                     (Z.of_nat (List.length SUPPORTED_MODES)
                      - Z.of_nat n)%Z in
                   if (0 <? missing_freqs)%Z
                   then lift (add_ones logging_frequencies
                                       (Z.to_nat missing_freqs))
                   else ret logging_frequencies
                 else ret logging_frequencies) ;;
          ret (combine SUPPORTED_MODES (arg_iter lf))
        else
          match is_dict logging_frequencies with
          | Some d =>
              (if negb (forallb (fun k => dict_mem d (PStr k)) SUPPORTED_MODES)
               then warn missing_warning else ret tt) ;;;
              ret (frequencies_of_dict d)
          | None => throw ValueError
          end
    end.

(** What [emit] meets outside this file.  The tensorboardX logger: what
    the lookup of a method and the call of it with keyword arguments do
    after the calls made so far ([None]: no exception).  And the
    arithmetic of a period that is no native value: whether
    [(counter % period) == 0] holds or what it raises. *)
Class Logger : Type := {
  logger_getattr : list (string * PyVal) -> string -> option pyexc;
  logger_call : list (string * PyVal) -> string -> pydict -> option pyexc;
  period_fires : Z -> PyVal -> outcome bool
}.

(** The handler: its frequency table, its counters and, oldest first,
    the calls [add_<mode>] made on the tensorboardX logger, each with
    its keyword arguments. *)
Record Handler : Type := {
  _frequencies : list (string * PyVal);
  _counter : list (string * Z);
  _logger : list (string * PyVal)
}.

Fixpoint lookup {A} (k : string) (t : list (string * A)) : option A :=
  match t with
  | [] => None
  | (k0, v) :: r => if String.eqb k0 k then Some v else lookup k r
  end.

Fixpoint update {A} (k : string) (v : A) (t : list (string * A))
  : list (string * A) :=
  match t with
  | [] => [(k, v)]
  | (k0, v0) :: r =>
      if String.eqb k0 k then (k0, v) :: r else (k0, v0) :: update k v r
  end.

(** [__init__]: [None] when [_create_frequencies] raises. *)
Definition init (logging_frequencies : FreqArg) : Py Handler :=
  f <- _create_frequencies logging_frequencies ;;
  ret {| _frequencies := f;
         _counter := map (fun k => (k, 0%Z)) SUPPORTED_MODES;
         _logger := [] |}.

Section Emit.
Context {L : Logger}.

(** [(counter % period) == 0] for a positive counter.  A native number
    is computed here; a string, a container, a class, a function or a
    module does not support [%] with an [int]; for a numpy scalar or
    array and for an instance of another class the runtime decides. *)
Definition fires (counter : Z) (period : PyVal) : outcome bool :=
  match period with
  | PInt f =>
      if (f =? 0)%Z then Raise ZeroDivisionError
      else Return (counter mod f =? 0)%Z
  | PBool b =>
      if b then Return true else Raise ZeroDivisionError
  | PFloat (FZero _) => Raise ZeroDivisionError
  | PFloat (FFinite _ m e) =>
      Return (if (0 <=? e)%Z
              then (counter mod (Zpos m * 2 ^ e) =? 0)%Z
              else ((counter * 2 ^ (- e)) mod Zpos m =? 0)%Z)
  | PFloat _ => Return false
  | NpInteger _ _ | NpFloating _ _ | NdArray _ _
  | PObject _ _ | PTupleSub _ _ _ => period_fires counter period
  | _ => Raise TypeError
  end.

Definition in_modes (key : PyVal) : option string :=
  match key with
  | PStr s => if existsb (String.eqb s) SUPPORTED_MODES then Some s else None
  | _ => None
  end.

(** The call of [getattr(self._logger, "add_" + key)] with [val]
    unpacked into keyword arguments: the method is looked up, [val] is
    unpacked (a [TypeError] unless it is a dict with string keys), and
    the call is made. *)
Definition logger_add (self : Handler) (mode : string) (val : PyVal)
  : Handler * option pyexc :=
  let name := "add_" ++ mode in
  match logger_getattr (_logger self) name with
  | Some e => (self, Some e)
  | None =>
      match val with
      | PDict kwargs =>
          if keyword_args kwargs then
            ({| _frequencies := _frequencies self;
                _counter := _counter self;
                _logger := _logger self ++ [(name, val)] |},
             logger_call (_logger self) name kwargs)
          else (self, Some TypeError)
      | _ => (self, Some TypeError)
      end
  end.

(** The loop body of [emit] for one [(key, val)] of the message. *)
Definition emit_item (self : Handler) (key val : PyVal)
  : Handler * option pyexc :=
  match in_modes key with
  | None => (self, None)
  | Some mode =>
      match lookup mode (_counter self) with
      | None => (self, Some KeyError)
      | Some c =>
          let c' := (c + 1)%Z in
          let self' := {| _frequencies := _frequencies self;
                          _counter := update mode c' (_counter self);
                          _logger := _logger self |} in
          match lookup mode (_frequencies self) with
          | None => (self', Some KeyError)
          | Some period =>
              match fires c' period with
              | Raise e => (self', Some e)
              | Return false => (self', None)
              | Return true => logger_add self' mode val
              end
          end
      end
  end.

Fixpoint emit_items (self : Handler) (items : pydict)
  : Handler * option pyexc :=
  match items with
  | [] => (self, None)
  | (key, val) :: r =>
      match emit_item self key val with
      | (self', None) => emit_items self' r
      | (self', Some e) => (self', Some e)
      end
  end.

(** [emit(record)] on [record.msg]. *)
Definition emit (self : Handler) (msg : PyVal) : Handler * option pyexc :=
  match msg with
  | PDict items => emit_items self items
  | _ => (self, None)
  end.
End Emit.

End TensorboardXHandler.

(* ===================================================================== *)
(** ** A host for the examples                                            *)
(* ===================================================================== *)

(** A small runtime to run the model on.  It prints a finite float by
    its exact decimal expansion, which is the text Python shows for
    values with few digits such as [2.5] or [0.125], reads a text of that
    form back, knows a handful of modules, and reads no literal beyond
    the modelled grammar.  The examples stay where it agrees with
    CPython. *)
Module ExampleHost.

(** The mantissa made odd: [m * 2^e] with the factors of two moved to
    the exponent. *)
Fixpoint odd_part (m : positive) (e : Z) : positive * Z :=
  match m with
  | xO p => odd_part p (e + 1)
  | _ => (m, e)
  end.

Fixpoint zeros (n : nat) : string :=
  match n with
  | O => EmptyString
  | S k => String "0"%char (zeros k)
  end.

Definition exact_repr (m : positive) (e : Z) : string :=
  if (0 <=? e)%Z then str_int (Zpos m * 2 ^ e) ++ ".0"
  else
    let k := Z.to_nat (- e) in
    let whole := (Zpos m / 2 ^ (- e))%Z in
    let part := ((Zpos m mod 2 ^ (- e)) * 5 ^ (- e))%Z in
    let digits := str_int part in
    str_int whole ++ "." ++ zeros (k - String.length digits) ++ digits.

Definition exact_of_text (s : string) : option pyfloat :=
  match split_dot s with
  | [whole; part] =>
      match int_digits whole 0%N false, int_digits part 0%N false with
      | Some w, Some p =>
          let k := Z.of_nat (String.length part) in
          let n := (Z.of_N w * 10 ^ k + Z.of_N p)%Z in
          match n with
          | Zpos q =>
              if (Zpos q mod 5 ^ k =? 0)%Z
              then match (Zpos q / 5 ^ k)%Z with
                   | Zpos r => let (m, e) := odd_part r (- k) in
                               Some (FFinite false m e)
                   | _ => None
                   end
              else None
          | _ => Some (FZero false)
          end
      | _, _ => None
      end
  | _ => None
  end.

Definition float_text (f : pyfloat) : string :=
  match f with
  | FNan => "nan"
  | FInf n => if n then "-inf" else "inf"
  | FZero n => if n then "-0.0" else "0.0"
  | FFinite n m e => if n then "-" ++ exact_repr m e else exact_repr m e
  end.

Definition object_repr (v : PyVal) : outcome string :=
  match v with
  | NpInteger k z =>
      Return ("np." ++ int_kind_name k ++ "(" ++ str_int z ++ ")")
  | NpFloating k f =>
      Return ("np." ++ float_kind_name k ++ "(" ++ float_text f ++ ")")
  | PFunction _ n => Return ("<function " ++ n ++ ">")
  | PModule n => Return ("<module '" ++ n ++ "'>")
  | PObject c O => Raise ReprError
  | PObject c (S _) => Return ("<" ++ c ++ " object>")
  | PTupleSub c _ _ => Return ("<" ++ c ++ " record>")
  | _ => Return "array(...)"
  end.

(** The formatting of an instance of a tuple subclass: the class of the
    instance numbered 0 has a [__str__] that raises, the others show
    what [repr] shows. *)
Definition object_format (v : PyVal) : outcome string :=
  match v with
  | PTupleSub _ O _ => Raise ReprError
  | _ => object_repr v
  end.

Definition importable (name_ : string) : option PyVal :=
  if String.eqb name_ "builtins" || String.eqb name_ "numpy"
     || String.eqb name_ "json"
  then Some (PModule name_) else None.

(** The class objects of this host, each with its identity. *)
Definition attribute (obj : PyVal) (name_ : string) : option PyVal :=
  match obj with
  | PModule m =>
      if String.eqb m "builtins" then
        if String.eqb name_ "int" then Some (PType m name_ 1)
        else if String.eqb name_ "float" then Some (PType m name_ 2)
        else if String.eqb name_ "dict" then Some (PType m name_ 3)
        else if String.eqb name_ "str" then Some (PType m name_ 4)
        else None
      else if String.eqb m "json" && String.eqb name_ "dumps"
      then Some (PFunction m name_)
      else if String.eqb m "numpy" && String.eqb name_ "ndarray"
      then Some (PType m name_ 5)
      else None
  | _ => None
  end.

Definition trace_text (e : pyexc) : string :=
  "Traceback (most recent call last):".

(** The interpreter of this host reads no literal beyond the modelled
    grammar. *)
Definition other_literal (s : string) : outcome PyVal := Raise SyntaxError.

Definition host : Host :=
  {| finite_repr := exact_repr;
     finite_of_text := exact_of_text;
     runtime_repr := object_repr;
     runtime_format := object_format;
     import_module := importable;
     getattr := attribute;
     literal_eval_other := other_literal;
     format_exc := trace_text |}.

End ExampleHost.

(** The surroundings of the handler for the examples: a [TorchVis] over
    one writer whose only method is [add_scalar(tag, scalar_value,
    global_step=None, walltime=None)].  The lookup of a method always gives a wrapper; the
    call raises [TypeError] when a keyword is not a parameter of the
    method or a required one is missing, and does nothing for a method
    the writer does not have. *)
Module ExampleLogger.

Definition parameters : list string :=
  ["tag"; "scalar_value"; "global_step"; "walltime"].

Definition required : list string := ["tag"; "scalar_value"].

Definition lookup_method (calls : list (string * PyVal)) (name : string)
  : option pyexc := None.

(** Periods that are numpy integers: the remainder is the integer one,
    and the remainder by zero is zero.  The other objects of this
    runtime do not support [%]. *)
Definition other_period (counter : Z) (period : PyVal) : outcome bool :=
  match period with
  | NpInteger _ z => Return (if (z =? 0)%Z then true
                             else (counter mod z =? 0)%Z)
  | _ => Raise TypeError
  end.

Definition call (calls : list (string * PyVal)) (name : string)
           (kwargs : pydict) : option pyexc :=
  if String.eqb name "add_scalar" then
    if forallb (fun kv => match fst kv with
                          | PStr k => existsb (String.eqb k) parameters
                          | _ => false
                          end) kwargs
       && forallb (fun k => dict_mem kwargs (PStr k)) required
    then None else Some TypeError
  else None.

Definition logger : TensorboardXHandler.Logger :=
  {| TensorboardXHandler.logger_getattr := lookup_method;
     TensorboardXHandler.logger_call := call;
     TensorboardXHandler.period_fires := other_period |}.

End ExampleLogger.

(* ===================================================================== *)
(** ** Notions used in the statements                                     *)
(* ===================================================================== *)

Fixpoint all_chars (p : ascii -> bool) (s : string) : bool :=
  match s with
  | EmptyString => true
  | String c r => p c && all_chars p r
  end.

(** The value of a digit sequence read left to right from [acc]. *)
Fixpoint horner (d : Decimal.uint) (acc : N) : N :=
  match d with
  | Decimal.Nil => acc
  | Decimal.D0 r => horner r (10 * acc)
  | Decimal.D1 r => horner r (10 * acc + 1)
  | Decimal.D2 r => horner r (10 * acc + 2)
  | Decimal.D3 r => horner r (10 * acc + 3)
  | Decimal.D4 r => horner r (10 * acc + 4)
  | Decimal.D5 r => horner r (10 * acc + 5)
  | Decimal.D6 r => horner r (10 * acc + 6)
  | Decimal.D7 r => horner r (10 * acc + 7)
  | Decimal.D8 r => horner r (10 * acc + 8)
  | Decimal.D9 r => horner r (10 * acc + 9)
  end%N.

Definition int_char (c : ascii) : bool := is_digit c || Ascii.eqb c "-"%char.

(** A string that carries none of the six tags. *)
Definition untagged (s : string) : bool :=
  negb (startswith s "__int__" || startswith s "__float__"
        || startswith s "__tuple__" || startswith s "__type__"
        || startswith s "__function__" || startswith s "__module__").

(** Leaves the format holds as they are: [None], booleans, native
    integers and untagged strings. *)
Definition plain_leaf (v : PyVal) : bool :=
  match v with
  | PNone | PBool _ | PInt _ => true
  | PStr s => untagged s
  | _ => false
  end.

(** The computation ends in an exception. *)
Definition raises {A} (m : Py A) : Prop := exists e w, m = (Raise e, w).

(** [x] sits in [v]: it is [v], an item of a list in [v], or a value of a
    dict in [v], at any depth. *)
Inductive occurs_in (x : PyVal) : PyVal -> Prop :=
| occurs_here : occurs_in x x
| occurs_item (l : list PyVal) (y : PyVal) :
    In y l -> occurs_in x y -> occurs_in x (PList l)
| occurs_value (d : pydict) (k y : PyVal) :
    In (k, y) d -> occurs_in x y -> occurs_in x (PDict d).

(** An argument of one of the native kinds: [None], a [bool], an [int],
    a list, a tuple, a string, a dict, or no iterable at all. *)
Definition native_arg (a : TensorboardXHandler.FreqArg) : bool :=
  match a with
  | TensorboardXHandler.FreqIterable _ _ _ => false
  | _ => true
  end.


(** The three tags that carry a dotted path. *)
Inductive ref_tag : Type := TypeTag | FunctionTag | ModuleTag.

Definition tag_name (t : ref_tag) : string :=
  match t with
  | TypeTag => "__type__"
  | FunctionTag => "__function__"
  | ModuleTag => "__module__"
  end.

(** The path of a tagged reference does not resolve.  For a module: the
    import of the path raises.  For a type or a function: the import of
    the part before the last dot raises, or the module is found and the
    lookup of the last part in it raises. *)
Definition unresolvable {H : Host} (t : ref_tag) (path : string) : Prop :=
  match t with
  | ModuleTag => import_module path = None
  | _ =>
      match import_module (join_dot (all_but_last (split_dot path))) with
      | None => True
      | Some m => getattr m (last (split_dot path) EmptyString) = None
      end
  end.

(** Neither a list nor a dict: what the walker hands to the leaf codec. *)
Definition is_leaf (v : PyVal) : bool :=
  match v with
  | PList _ | PDict _ => false
  | _ => true
  end.

(** The number token written for [f] reads back as [f]. *)
Definition reads_back {H : Host} (f : pyfloat) : Prop :=
  json_number (json_float_text f) = Return (PFloat f).

(** The nested plain lists [[a, b], [c, d]]. *)
Definition nested_2x2 (a b c d : PyVal) : PyVal :=
  PList [PList [a; b]; PList [c; d]].

(** The dict comprehension of the walkers, as a function of its own:
    each key through [key_fn], each value through [val_fn], stored in
    turn. *)
Section Entries.
Variables key_fn val_fn : PyVal -> Py PyVal.

Fixpoint walk_entries (d : pydict) (acc : pydict) : Py pydict :=
  match d with
  | [] => ret acc
  | (key, val) :: r =>
      k <- key_fn key ;;
      v <- val_fn val ;;
      acc' <- lift (dict_set acc k v) ;;
      walk_entries r acc'
  end.
End Entries.

(** No two keys of [d] are the same dictionary key. *)
Fixpoint distinct_keys (d : pydict) : bool :=
  match d with
  | [] => true
  | (k, _) :: r =>
      forallb (fun kv => negb (key_eqb k (fst kv))) r && distinct_keys r
  end.

(** A native integer or a native float. *)
Definition numeric_key (k : PyVal) : bool :=
  match k with
  | PInt _ | PFloat _ => true
  | _ => false
  end.

Definition bool_text (b : bool) : string := if b then "True" else "False".

(** The string a numeric key is written as, and the entry with its key
    so written. *)
Definition key_tag {H : Host} (k : PyVal) : string :=
  match k with
  | PInt z => "__int__(" ++ str_int z ++ ")"
  | PFloat f => "__float__(" ++ float_repr f ++ ")"
  | _ => EmptyString
  end.

Definition tag_entry {H : Host} (kv : PyVal * PyVal) : PyVal * PyVal :=
  (PStr (key_tag (fst kv)), snd kv).

(** The document of a plain leaf. *)
Definition json_leaf (v : PyVal) : Json :=
  match v with
  | PBool b => JBool b
  | PInt z => JNumber (str_int z)
  | PStr s => JString s
  | _ => JNull
  end.

(** The text of a float key reads back as the key. *)
Definition key_reads_back {H : Host} (k : PyVal) : Prop :=
  match k with
  | PFloat f => float_of_text (float_repr f) = Return f
  | _ => True
  end.

(** What may follow an element inside a tuple: a comma or the closing
    parenthesis. *)
Definition is_delim (c : ascii) : bool :=
  Ascii.eqb c ","%char || Ascii.eqb c ")"%char.

Definition starts_delim (s : string) : bool :=
  match s with
  | String c _ => is_delim c
  | EmptyString => false
  end.

(** A float with a literal: a zero, or a finite value whose text the host
    writes as a float literal that reads back as the value. *)
Definition literal_float {H : Host} (f : pyfloat) : Prop :=
  match f with
  | FZero _ => float_of_text "0.0" = Return (FZero false)
  | FFinite _ m e =>
      float_literal (finite_repr m e) = true
      /\ float_of_text (finite_repr m e) = Return (FFinite false m e)
  | _ => False
  end.

(** The plain scalars that have a literal: [None], booleans, native
    integers, strings, and the floats above. *)
Definition literal_scalar {H : Host} (v : PyVal) : Prop :=
  match v with
  | PNone | PBool _ | PInt _ | PStr _ => True
  | PFloat f => literal_float f
  | _ => False
  end.

(** [repr] of such a scalar. *)
Definition scalar_text {H : Host} (v : PyVal) : string :=
  match v with
  | PNone => "None"
  | PBool b => bool_text b
  | PInt z => str_int z
  | PFloat f => float_repr f
  | PStr s => str_repr s
  | _ => EmptyString
  end.

(** The tree its text is parsed to: a negative number is a sign in front
    of its absolute value. *)
Definition scalar_ast (v : PyVal) : ast :=
  match v with
  | PInt z => if (z <? 0)%Z then AUnary true (AConst (PInt (- z))) else AConst v
  | PFloat (FZero true) => AUnary true (AConst (PFloat (FZero false)))
  | PFloat (FFinite true m e) =>
      AUnary true (AConst (PFloat (FFinite false m e)))
  | _ => AConst v
  end.

(** The text of a tuple with the element texts [ss]. *)
Definition tuple_text (ss : list string) : string :=
  match ss with
  | [s] => "(" ++ s ++ ",)"
  | _ => "(" ++ String.concat ", " ss ++ ")"
  end.


(** Nested lists of plain leaves: the data the format holds as it is. *)
Fixpoint plain_tree (v : PyVal) : bool :=
  match v with
  | PList l => forallb plain_tree l
  | _ => plain_leaf v
  end.

(** The document of such data. *)
Fixpoint doc_of (v : PyVal) : Json :=
  match v with
  | PList l => JArray (map doc_of l)
  | _ => json_leaf v
  end.

(** [emit] called [n] times in a row with the same message, stopping at
    the first exception. *)
Fixpoint emit_repeat {L : TensorboardXHandler.Logger} (n : nat)
         (self : TensorboardXHandler.Handler) (msg : PyVal)
  : TensorboardXHandler.Handler * option pyexc :=
  match n with
  | O => (self, None)
  | S k =>
      match emit_repeat k self msg with
      | (h, None) => TensorboardXHandler.emit h msg
      | (h, Some e) => (h, Some e)
      end
  end.

(* ===================================================================== *)
(** ** Text lemmas                                                        *)
(* ===================================================================== *)

Lemma length_app (a b : string) :
  String.length (a ++ b) = String.length a + String.length b.
Proof. induction a as [|c a IH]; simpl; [reflexivity | now rewrite IH]. Qed.

Lemma app_assoc_s (a b c : string) : (a ++ b) ++ c = a ++ (b ++ c).
Proof. induction a as [|x a IH]; simpl; [reflexivity | now rewrite IH]. Qed.

Lemma drop_app (p s : string) : drop (String.length p) (p ++ s) = s.
Proof. induction p as [|c p IH]; simpl; [now destruct s | exact IH]. Qed.

Lemma take_app (s t : string) : take (String.length s) (s ++ t) = s.
Proof.
  induction s as [|c s IH]; simpl; [now destruct t | now rewrite IH].
Qed.

(** Slicing a tag off: [(p ++ s ++ ")")[len(p):-1]] is [s]. *)
Lemma slice_tag (p s : string) :
  slice_to_last (String.length p) (p ++ s ++ ")") = s.
Proof.
  unfold slice_to_last.
  rewrite drop_app, !length_app. simpl.
  replace (String.length p + (String.length s + 1) - 1 - String.length p)
    with (String.length s) by lia.
  apply take_app.
Qed.

Lemma app_inv_head_s (p a b : string) : p ++ a = p ++ b -> a = b.
Proof. induction p as [|c p IH]; simpl; intros E; [exact E | injection E; auto]. Qed.

Lemma app_inv_tail_s (a b t : string) : a ++ t = b ++ t -> a = b.
Proof.
  revert b; induction a as [|x a IH]; intros [|y b] E; simpl in *.
  - reflexivity.
  - exfalso. apply (f_equal String.length) in E. simpl in E.
    rewrite length_app in E. lia.
  - exfalso. apply (f_equal String.length) in E. simpl in E.
    rewrite length_app in E. lia.
  - injection E as -> E. f_equal. now apply IH.
Qed.

Lemma all_chars_app p (a b : string) :
  all_chars p (a ++ b) = all_chars p a && all_chars p b.
Proof.
  induction a as [|c a IH]; simpl; [reflexivity|].
  now rewrite IH, andb_assoc.
Qed.

Lemma lstrip_id (s : string) :
  all_chars (fun c => negb (is_space c)) s = true -> lstrip s = s.
Proof.
  destruct s as [|c r]; simpl; [reflexivity|].
  intros E. apply andb_prop in E as [E _].
  now destruct (is_space c).
Qed.

Lemma rstrip_id (s : string) :
  all_chars (fun c => negb (is_space c)) s = true -> rstrip s = s.
Proof.
  induction s as [|c r IH]; simpl; [reflexivity|].
  intros E. apply andb_prop in E as [Ec Er].
  rewrite (IH Er). destruct r; [|reflexivity].
  now destruct (is_space c).
Qed.

Lemma strip_id (s : string) :
  all_chars (fun c => negb (is_space c)) s = true -> strip s = s.
Proof. intros E. unfold strip. now rewrite (lstrip_id _ E), (rstrip_id _ E). Qed.

Lemma all_chars_weaken (p q : ascii -> bool) (s : string) :
  (forall c, p c = true -> q c = true) ->
  all_chars p s = true -> all_chars q s = true.
Proof.
  intros W. induction s as [|c r IH]; simpl; [reflexivity|].
  intros E. apply andb_prop in E as [Ec Er].
  now rewrite (W _ Ec), (IH Er).
Qed.

(* ===================================================================== *)
(** ** Integers through text                                              *)
(* ===================================================================== *)

Lemma uint_text_digits (d : Decimal.uint) :
  all_chars is_digit (NilEmpty.string_of_uint d) = true.
Proof. induction d; simpl; auto. Qed.

Lemma int_digits_step (c : ascii) (r : string) (acc : N) (b : bool) :
  is_digit c = true ->
  int_digits (String c r) acc b = int_digits r (10 * acc + digit_val c)%N true.
Proof. intros E. cbn [int_digits]. now rewrite E. Qed.

Ltac eval_digit :=
  match goal with
  | |- context [digit_val ?c] =>
      let v := eval vm_compute in (digit_val c) in
      change (digit_val c) with v
  end.

Lemma int_digits_uint (d : Decimal.uint) : forall acc b,
  d <> Decimal.Nil \/ b = true ->
  int_digits (NilEmpty.string_of_uint d) acc b = Some (horner d acc).
Proof.
  induction d; intros acc b Hb; cbn [NilEmpty.string_of_uint horner];
    try (rewrite int_digits_step by reflexivity;
         rewrite IHd by (now right);
         do 2 f_equal; eval_digit; lia).
  destruct Hb as [Hb | ->]; [congruence | reflexivity].
Qed.

Lemma horner_of_lu (d : Decimal.uint) : forall d',
  horner d (DecimalPos.Unsigned.of_lu d') = DecimalPos.Unsigned.of_lu (Decimal.revapp d d').
Proof.
  induction d; intros d'; cbn [horner Decimal.revapp]; try reflexivity;
    rewrite <- IHd; f_equal; cbn [DecimalPos.Unsigned.of_lu]; lia.
Qed.

Lemma horner_of_uint (d : Decimal.uint) : horner d 0 = Pos.of_uint d.
Proof.
  rewrite DecimalPos.Unsigned.of_uint_alt. unfold Decimal.rev.
  now rewrite <- horner_of_lu.
Qed.

Lemma pos_to_uint_value (p : positive) :
  horner (Pos.to_uint p) 0 = Npos p.
Proof. rewrite horner_of_uint. apply DecimalPos.Unsigned.of_to. Qed.

Lemma pos_text (p : positive) :
  NilZero.string_of_uint (Pos.to_uint p) = NilEmpty.string_of_uint (Pos.to_uint p).
Proof.
  unfold NilZero.string_of_uint.
  destruct (Pos.to_uint p) eqn:E; try reflexivity.
  exfalso. now apply (DecimalPos.Unsigned.to_uint_nonnil p).
Qed.

(** The text of an integer: digits, after a minus sign when negative. *)
Lemma str_int_shape (z : Z) :
  exists d, d <> Decimal.Nil
    /\ horner d 0 = Z.abs_N z
    /\ str_int z = (if (z <? 0)%Z then "-" else "") ++ NilEmpty.string_of_uint d.
Proof.
  destruct z as [|p|p]; unfold str_int; simpl.
  - exists (Decimal.D0 Decimal.Nil). repeat split; congruence.
  - exists (Pos.to_uint p). repeat split.
    + apply DecimalPos.Unsigned.to_uint_nonnil.
    + apply pos_to_uint_value.
    + apply pos_text.
  - exists (Pos.to_uint p). repeat split.
    + apply DecimalPos.Unsigned.to_uint_nonnil.
    + apply pos_to_uint_value.
    + now rewrite pos_text.
Qed.

Lemma str_int_chars (z : Z) : all_chars int_char (str_int z) = true.
Proof.
  destruct (str_int_shape z) as (d & _ & _ & ->).
  rewrite all_chars_app. apply andb_true_intro; split.
  - now destruct (z <? 0)%Z.
  - apply (all_chars_weaken is_digit); [|apply uint_text_digits].
    intros c E. unfold int_char. now rewrite E.
Qed.

Lemma int_char_not_space (c : ascii) :
  int_char c = true -> negb (is_space c) = true.
Proof.
  destruct c as [[] [] [] [] [] [] [] []]; vm_compute; congruence.
Qed.

Lemma digit_not_sign (d : Decimal.uint) :
  d <> Decimal.Nil ->
  split_sign (NilEmpty.string_of_uint d) = (false, NilEmpty.string_of_uint d).
Proof. destruct d; simpl; congruence. Qed.

(** [int(str(z)) == z] *)
Lemma int_of_text_str_int (z : Z) : int_of_text (str_int z) = Return z.
Proof.
  unfold int_of_text.
  rewrite strip_id
    by (apply (all_chars_weaken int_char);
        [apply int_char_not_space | apply str_int_chars]).
  destruct (str_int_shape z) as (d & Hd & Hv & ->).
  destruct (z <? 0)%Z eqn:Hz; simpl.
  - rewrite int_digits_uint by (now left). rewrite Hv.
    f_equal. apply Z.ltb_lt in Hz. rewrite N2Z.inj_abs_N. lia.
  - rewrite digit_not_sign by exact Hd.
    rewrite int_digits_uint by (now left). rewrite Hv.
    f_equal. apply Z.ltb_ge in Hz. rewrite N2Z.inj_abs_N. lia.
Qed.

Lemma str_int_inj (a b : Z) : str_int a = str_int b -> a = b.
Proof.
  intros E. pose proof (int_of_text_str_int a) as Ha.
  rewrite E, int_of_text_str_int in Ha. congruence.
Qed.

(* ===================================================================== *)
(** ** Computations                                                       *)
(* ===================================================================== *)

Lemma bind_ret_l {A B} (a : A) (f : A -> Py B) : bind (ret a) f = f a.
Proof. unfold bind, ret. now destruct (f a). Qed.

Lemma bind_lift_return {A B} (a : A) (f : A -> Py B) :
  bind (lift (Return a)) f = f a.
Proof. exact (bind_ret_l a f). Qed.

Lemma bind_raise {A B} (e : pyexc) (w : list string) (f : A -> Py B) :
  bind (Raise e, w) f = (Raise e, w).
Proof. reflexivity. Qed.

Lemma raises_bind_l {A B} (m : Py A) (f : A -> Py B) :
  raises m -> raises (bind m f).
Proof. intros (e & w & ->). now exists e, w. Qed.

Lemma raises_bind_r {A B} (m : Py A) (f : A -> Py B) :
  (forall a, raises (f a)) -> raises (bind m f).
Proof.
  intros Hf. destruct m as [[a|e] w]; [|now exists e, w].
  destruct (Hf a) as (e & w' & E). unfold bind. rewrite E.
  now exists e, (w ++ w')%list.
Qed.

Lemma raises_not_return {A} (m : Py A) :
  raises m -> ~ exists a w, m = (Return a, w).
Proof. intros (e & w & ->) (a & w' & E). discriminate. Qed.

(* ===================================================================== *)
(** ** The leaf codec on tagged strings                                   *)
(* ===================================================================== *)

Section LeafLemmas.
Context {H : Host}.

Lemma decode_int_tag (s : string) :
  ModuleMultiTypeDecoder._decode (PStr ("__int__(" ++ s ++ ")"))
  = (z <- lift (int_of_text s) ;; ret (PInt z)).
Proof.
  unfold ModuleMultiTypeDecoder._decode, MultiTypeDecoder._decode.
  rewrite (slice_tag "__int__(" s : slice_to_last 8 _ = _).
  reflexivity.
Qed.

Lemma decode_float_tag (s : string) :
  ModuleMultiTypeDecoder._decode (PStr ("__float__(" ++ s ++ ")"))
  = (f <- lift (float_of_text s) ;; ret (PFloat f)).
Proof.
  unfold ModuleMultiTypeDecoder._decode, MultiTypeDecoder._decode.
  rewrite (slice_tag "__float__(" s : slice_to_last 10 _ = _).
  reflexivity.
Qed.

Lemma decode_tuple_tag (s : string) :
  ModuleMultiTypeDecoder._decode (PStr ("__tuple__(" ++ s ++ ")"))
  = (v <- lift (literal_eval s) ;; lift (py_tuple v)).
Proof.
  unfold ModuleMultiTypeDecoder._decode, MultiTypeDecoder._decode.
  rewrite (slice_tag "__tuple__(" s : slice_to_last 10 _ = _).
  reflexivity.
Qed.

Lemma decode_type_tag (p : string) :
  ModuleMultiTypeDecoder._decode (PStr ("__type__(" ++ p ++ ")"))
  = match ModuleMultiTypeDecoder.load_attribute
            (join_dot (all_but_last (split_dot p)))
            (last (split_dot p) EmptyString) with
    | Some type_ => ret type_
    | None => warn ("Could not load " ++ p) ;;; ret (PStr p)
    end.
Proof.
  unfold ModuleMultiTypeDecoder._decode.
  rewrite (slice_tag "__type__(" p : slice_to_last 9 _ = _).
  reflexivity.
Qed.

Lemma decode_function_tag (p : string) :
  ModuleMultiTypeDecoder._decode (PStr ("__function__(" ++ p ++ ")"))
  = match ModuleMultiTypeDecoder.load_attribute
            (join_dot (all_but_last (split_dot p)))
            (last (split_dot p) EmptyString) with
    | Some type_ => ret type_
    | None => warn ("Could not load " ++ p) ;;; ret (PStr p)
    end.
Proof.
  unfold ModuleMultiTypeDecoder._decode.
  rewrite (slice_tag "__function__(" p : slice_to_last 13 _ = _).
  reflexivity.
Qed.

Lemma decode_module_tag (p : string) :
  ModuleMultiTypeDecoder._decode (PStr ("__module__(" ++ p ++ ")"))
  = match import_module p with
    | Some type_ => ret type_
    | None => warn ("Could not load " ++ p) ;;; ret (PStr p)
    end.
Proof.
  unfold ModuleMultiTypeDecoder._decode.
  rewrite (slice_tag "__module__(" p : slice_to_last 11 _ = _).
  reflexivity.
Qed.

(** Decoding a document that is one string is decoding that leaf. *)
Lemma decode_string (s : string) :
  ModuleMultiTypeDecoder.decode (JString s)
  = ModuleMultiTypeDecoder._decode (PStr s).
Proof.
  unfold ModuleMultiTypeDecoder.decode, CustomJSONDecoder.decode.
  cbn [json_loads]. now rewrite bind_lift_return.
Qed.

(** A leaf that encodes to a string is written as that string. *)
Lemma encode_leaf_string (obj : PyVal) (s : string) :
  is_leaf obj = true ->
  ModuleMultiTypeEncoder._encode obj false = ret (PStr s) ->
  ModuleMultiTypeEncoder.encode obj = ret (JString s).
Proof.
  intros L E.
  unfold ModuleMultiTypeEncoder.encode, CustomJSONEncoder.encode.
  replace (CustomJSONEncoder._encode_switch ModuleMultiTypeEncoder.self obj)
    with (ModuleMultiTypeEncoder._encode obj false)
    by (destruct obj; try discriminate L; reflexivity).
  rewrite E, bind_ret_l. reflexivity.
Qed.
End LeafLemmas.

(* ===================================================================== *)
(** ** Dotted paths                                                       *)
(* ===================================================================== *)

Lemma split_dot_nonempty (s : string) : split_dot s <> [].
Proof.
  induction s as [|c r IH]; cbn [split_dot]; [discriminate|].
  destruct (Ascii.eqb c "."); [discriminate|].
  destruct (split_dot r); discriminate.
Qed.

Lemma split_dot_plain (n : string) :
  contains_char "."%char n = false -> split_dot n = [n].
Proof.
  induction n as [|c r IH]; cbn [split_dot contains_char]; [reflexivity|].
  intros E. apply orb_false_elim in E as [Ec Er].
  rewrite Ascii.eqb_sym, Ec, (IH Er). reflexivity.
Qed.

Lemma split_dot_app (m n : string) :
  contains_char "."%char n = false ->
  split_dot (m ++ "." ++ n) = (split_dot m ++ [n])%list.
Proof.
  intros Hn. induction m as [|c r IH].
  - cbn [append split_dot]. rewrite Ascii.eqb_refl.
    now rewrite (split_dot_plain n Hn).
  - cbn [append split_dot] in *. rewrite IH.
    destruct (Ascii.eqb c "."); [reflexivity|].
    pose proof (split_dot_nonempty r) as Hr.
    destruct (split_dot r); [congruence | reflexivity].
Qed.

Lemma join_split_dot (m : string) : join_dot (split_dot m) = m.
Proof.
  unfold join_dot. induction m as [|c r IH]; cbn [split_dot]; [reflexivity|].
  pose proof (split_dot_nonempty r) as Hr.
  destruct (Ascii.eqb c ".") eqn:Ec.
  - apply Ascii.eqb_eq in Ec as ->.
    destruct (split_dot r) as [|p ps]; [congruence|].
    cbn [String.concat append] in *. now rewrite IH.
  - destruct (split_dot r) as [|p ps]; [congruence|].
    destruct ps as [|q qs]; cbn [String.concat append] in *; now rewrite <- IH.
Qed.

(** A path [m.n] whose last part has no dot splits back into [m], [n]. *)
Lemma dotted_path_parts (m n : string) :
  contains_char "."%char n = false ->
  join_dot (all_but_last (split_dot (m ++ "." ++ n))) = m
  /\ last (split_dot (m ++ "." ++ n)) EmptyString = n.
Proof.
  intros Hn. rewrite (split_dot_app m n Hn). unfold all_but_last. split.
  - rewrite removelast_last. apply join_split_dot.
  - apply last_last.
Qed.

(* ===================================================================== *)
(** ** The walker stops at the first exception                            *)
(* ===================================================================== *)

Section Walker.
Context {H : Host}.
Variable self : Decoder.

Lemma decode_items_raise (l : list PyVal) (y : PyVal) :
  In y l ->
  raises (CustomJSONDecoder._decode_switch self y) ->
  raises (CustomJSONDecoder._decode_switch self (PList l)).
Proof.
  intros Hin Hy. cbn [CustomJSONDecoder._decode_switch].
  apply raises_bind_l.
  induction l as [|item r IH]; [contradiction|].
  destruct Hin as [-> | Hin].
  - now apply raises_bind_l.
  - apply raises_bind_r. intros a. apply raises_bind_l. now apply IH.
Qed.

Lemma decode_values_raise (d : pydict) (k y : PyVal) :
  In (k, y) d ->
  raises (CustomJSONDecoder._decode_switch self y) ->
  raises (CustomJSONDecoder._decode_switch self (PDict d)).
Proof.
  intros Hin Hy. cbn [CustomJSONDecoder._decode_switch].
  apply raises_bind_l.
  generalize (@nil (PyVal * PyVal)).
  induction d as [|[key val] r IH]; intros acc; [contradiction|].
  apply raises_bind_r. intros k'.
  destruct Hin as [E | Hin].
  - injection E as -> ->. now apply raises_bind_l.
  - apply raises_bind_r. intros v'. apply raises_bind_r. intros acc'.
    now apply IH.
Qed.

Lemma decode_keys_raise (d : pydict) (k y : PyVal) :
  In (k, y) d ->
  raises (self_decode_key self k) ->
  raises (CustomJSONDecoder._decode_switch self (PDict d)).
Proof.
  intros Hin Hk. cbn [CustomJSONDecoder._decode_switch].
  apply raises_bind_l.
  generalize (@nil (PyVal * PyVal)).
  induction d as [|[key val] r IH]; intros acc; [contradiction|].
  destruct Hin as [E | Hin].
  - injection E as -> ->. now apply raises_bind_l.
  - apply raises_bind_r. intros k'.
    apply raises_bind_r. intros v'. apply raises_bind_r. intros acc'.
    now apply IH.
Qed.

Lemma decode_switch_leaf (x : PyVal) :
  is_leaf x = true ->
  CustomJSONDecoder._decode_switch self x = self_decode self x.
Proof. destruct x; try discriminate; reflexivity. Qed.

(** A leaf whose decoding raises makes the walk of any structure it sits
    in raise. *)
Lemma decode_switch_raises (v x : PyVal) :
  occurs_in x v ->
  is_leaf x = true ->
  raises (self_decode self x) ->
  raises (CustomJSONDecoder._decode_switch self v).
Proof.
  intros Hocc Hleaf Hx.
  induction Hocc as [| l y Hin _ IH | d k y Hin _ IH].
  - now rewrite decode_switch_leaf.
  - now apply (decode_items_raise l y).
  - now apply (decode_values_raise d k y).
Qed.
End Walker.

(* ===================================================================== *)
(** ** Scalars, references and failures: the claims                       *)
(* ===================================================================== *)

Section LeafClaims.
Context {H : Host}.

(** C1 (as amended).  Decoding the encoding of a fixed-width integer
    scalar yields the native integer of the same value, and decoding the
    encoding of a fixed-width floating scalar yields the native float of
    the same value, on a host where [repr] of that float reads back as
    the float.  Both results stand for the same number as the scalar;
    in both cases the result is a plain native number: the fixed-width
    type is not restored. *)
Theorem fixed_width_scalar_decodes_native
  (ik : int_kind) (z : Z) (fk : float_kind) (f : pyfloat)
  (Hread : float_of_text (float_repr f) = Return f) :
  (bind (ModuleMultiTypeEncoder.encode (NpInteger ik z))
        ModuleMultiTypeDecoder.decode = (Return (PInt z), [])
   /\ key_eqb (PInt z) (NpInteger ik z) = true
   /\ PInt z <> NpInteger ik z)
  /\ (bind (ModuleMultiTypeEncoder.encode (NpFloating fk f))
           ModuleMultiTypeDecoder.decode = (Return (PFloat f), [])
      /\ as_number (PFloat f) = as_number (NpFloating fk f)
      /\ PFloat f <> NpFloating fk f).
Proof.
  split; [split; [|split] | split; [|split]]; try discriminate;
    try reflexivity.
  - rewrite (encode_leaf_string _ ("__int__(" ++ str_int z ++ ")"))
      by reflexivity.
    rewrite bind_ret_l, decode_string, decode_int_tag.
    now rewrite int_of_text_str_int.
  - cbn. apply Z.eqb_refl.
  - rewrite (encode_leaf_string _ ("__float__(" ++ float_repr f ++ ")"))
      by reflexivity.
    rewrite bind_ret_l, decode_string, decode_float_tag.
    now rewrite Hread.
Qed.

(** C2 (the code at the failing input).  An object no rule recognises is
    handed back unchanged by the leaf encoder, strict or not, without a
    warning; the base encoder then raises [TypeError]. *)
Theorem unsupported_object_is_not_degraded
  (cls : string) (oid : nat) (strict : bool) :
  ModuleMultiTypeEncoder._encode (PObject cls oid) strict
    = (Return (PObject cls oid), [])
  /\ ModuleMultiTypeEncoder.encode (PObject cls oid) = (Raise TypeError, []).
Proof. split; reflexivity. Qed.

(** C3 (as amended).  When a leaf of the parsed document cannot be
    decoded, the exception leaves [decode]: the whole structure is
    abandoned and no value is returned. *)
Theorem malformed_leaf_aborts_decode
  (doc : Json) (v x : PyVal)
  (Hdoc : json_loads doc = Return v)
  (Hocc : occurs_in x v)
  (Hleaf : is_leaf x = true)
  (Hbad : raises (ModuleMultiTypeDecoder._decode x)) :
  raises (ModuleMultiTypeDecoder.decode doc)
  /\ ~ exists r w, ModuleMultiTypeDecoder.decode doc = (Return r, w).
Proof.
  assert (R : raises (ModuleMultiTypeDecoder.decode doc)).
  { unfold ModuleMultiTypeDecoder.decode, CustomJSONDecoder.decode.
    rewrite Hdoc, bind_lift_return.
    now apply (decode_switch_raises _ v x). }
  split; [exact R | now apply raises_not_return].
Qed.

(** C4.  A tagged reference whose path does not resolve, because the
    import fails or because the attribute lookup fails, is decoded to
    the raw path string, with one warning and without an exception. *)
Theorem unresolvable_reference_degrades
  (t : ref_tag) (path : string)
  (Hbad : unresolvable t path) :
  ModuleMultiTypeDecoder.decode (JString (tag_name t ++ "(" ++ path ++ ")"))
    = (Return (PStr path), ["Could not load " ++ path]).
Proof.
  rewrite decode_string.
  destruct t; cbn [tag_name unresolvable] in *.
  - change ("__type__" ++ "(" ++ path ++ ")") with ("__type__(" ++ path ++ ")").
    rewrite decode_type_tag. unfold ModuleMultiTypeDecoder.load_attribute.
    destruct (import_module _) as [m|]; [rewrite Hbad|]; reflexivity.
  - change ("__function__" ++ "(" ++ path ++ ")")
      with ("__function__(" ++ path ++ ")").
    rewrite decode_function_tag. unfold ModuleMultiTypeDecoder.load_attribute.
    destruct (import_module _) as [m|]; [rewrite Hbad|]; reflexivity.
  - change ("__module__" ++ "(" ++ path ++ ")")
      with ("__module__(" ++ path ++ ")").
    rewrite decode_module_tag, Hbad. reflexivity.
Qed.

End LeafClaims.

(** An operation is called on the logger exactly when the counter, once
    incremented, is a multiple of the mode's integer period, for keyword
    arguments with string keys and a logger that has the method. *)
Lemma emit_item_fires {L : TensorboardXHandler.Logger}
      (self : TensorboardXHandler.Handler)
      (mode : string) (kwargs : pydict) (c f : Z) :
  TensorboardXHandler.in_modes (PStr mode) = Some mode ->
  TensorboardXHandler.lookup mode (TensorboardXHandler._counter self) = Some c ->
  TensorboardXHandler.lookup mode (TensorboardXHandler._frequencies self)
    = Some (PInt f) ->
  f <> 0%Z ->
  keyword_args kwargs = true ->
  TensorboardXHandler.logger_getattr (TensorboardXHandler._logger self)
    ("add_" ++ mode) = None ->
  TensorboardXHandler._logger
    (fst (TensorboardXHandler.emit_item self (PStr mode) (PDict kwargs)))
  = if ((c + 1) mod f =? 0)%Z
    then (TensorboardXHandler._logger self
          ++ [(("add_" ++ mode)%string, PDict kwargs)])%list
    else TensorboardXHandler._logger self.
Proof.
  intros Hm Hc Hf Hz Hkw Hget. unfold TensorboardXHandler.emit_item.
  rewrite Hm, Hc. cbn [TensorboardXHandler._frequencies].
  rewrite Hf. cbn [TensorboardXHandler.fires].
  apply Z.eqb_neq in Hz. rewrite Hz.
  destruct ((c + 1) mod f =? 0)%Z; [|reflexivity].
  unfold TensorboardXHandler.logger_add.
  cbn [TensorboardXHandler._logger]. now rewrite Hget, Hkw.
Qed.

(** C9 (the code at the failing input).  Given a dict, the handler never
    reads a period from it: a dict with fewer entries than there are
    modes makes [_create_frequencies] raise [TypeError], and a larger
    one has its keys, in order, stored as the periods. *)
Theorem create_frequencies_dict_is_taken_as_iterable (d : pydict) :
  TensorboardXHandler._create_frequencies (TensorboardXHandler.FreqDict d)
  = if (List.length d <? 11)%nat
    then (Raise TypeError, [TensorboardXHandler.length_warning])
    else (Return (combine TensorboardXHandler.SUPPORTED_MODES (map fst d)),
          if (List.length d =? 11)%nat then []
          else [TensorboardXHandler.length_warning]).
Proof.
  unfold TensorboardXHandler._create_frequencies.
  cbn [TensorboardXHandler.is_None TensorboardXHandler.as_int
       TensorboardXHandler.is_Iterable TensorboardXHandler.arg_len].
  rewrite bind_lift_return.
  change (List.length TensorboardXHandler.SUPPORTED_MODES) with 11%nat.
  destruct (List.length d =? 11)%nat eqn:E11.
  - apply Nat.eqb_eq in E11. rewrite E11. reflexivity.
  - apply Nat.eqb_neq in E11. cbn [negb].
    destruct (List.length d <? 11)%nat eqn:Elt.
    + apply Nat.ltb_lt in Elt.
      replace (0 <? Z.of_nat 11 - Z.of_nat (List.length d))%Z with true
        by (symmetry; apply Z.ltb_lt; lia).
      reflexivity.
    + apply Nat.ltb_ge in Elt.
      replace (0 <? Z.of_nat 11 - Z.of_nat (List.length d))%Z with false
        by (symmetry; apply Z.ltb_ge; lia).
      reflexivity.
Qed.

(* ===================================================================== *)
(** ** Numeric buffers                                                    *)
(* ===================================================================== *)

Lemma all_chars_contains (p : ascii -> bool) (c : ascii) (s : string) :
  all_chars p s = true -> p c = false -> contains_char c s = false.
Proof.
  intros Hs Hc. induction s as [|d r IH]; cbn [contains_char]; [reflexivity|].
  cbn [all_chars] in Hs. apply andb_prop in Hs as [Hd Hr].
  rewrite (IH Hr), orb_false_r.
  destruct (Ascii.eqb_spec c d) as [-> |]; congruence.
Qed.

Lemma all_chars_differ (p : ascii -> bool) (s t : string) :
  all_chars p s = true -> all_chars p t = false -> String.eqb s t = false.
Proof. intros Hs Ht. apply String.eqb_neq. congruence. Qed.

Section Buffers.
Context {H : Host}.

(** The number token of an integer reads back as that integer. *)
Lemma json_number_int (z : Z) : json_number (str_int z) = Return (PInt z).
Proof.
  unfold json_number.
  pose proof (str_int_chars z) as Hc.
  rewrite !(all_chars_differ int_char _ _ Hc) by reflexivity.
  rewrite !(all_chars_contains int_char _ _ Hc) by reflexivity.
  cbn [orb]. now rewrite int_of_text_str_int.
Qed.

(** C8.  A numeric buffer of shape (2,2) with elements a, b, c, d is
    encoded as the nested plain lists [[a, b], [c, d]], and decoding the
    encoding returns these nested lists of native numbers, not a buffer:
    for an integer buffer always, for a float buffer when the number
    tokens of its elements read back. *)
Theorem buffer_2x2_becomes_nested_lists
  (ik : int_kind) (a b c d : Z)
  (fk : float_kind) (p q r s : pyfloat)
  (Hp : reads_back p) (Hq : reads_back q)
  (Hr : reads_back r) (Hs : reads_back s) :
  ModuleMultiTypeEncoder._encode_switch
      (NdArray [2; 2] (IntBuffer ik [a; b; c; d]))
    = (Return (nested_2x2 (PInt a) (PInt b) (PInt c) (PInt d)), [])
  /\ bind (ModuleMultiTypeEncoder.encode
             (NdArray [2; 2] (IntBuffer ik [a; b; c; d])))
          ModuleMultiTypeDecoder.decode
     = (Return (nested_2x2 (PInt a) (PInt b) (PInt c) (PInt d)), [])
  /\ ModuleMultiTypeEncoder._encode_switch
      (NdArray [2; 2] (FloatBuffer fk [p; q; r; s]))
    = (Return (nested_2x2 (PFloat p) (PFloat q) (PFloat r) (PFloat s)), [])
  /\ bind (ModuleMultiTypeEncoder.encode
             (NdArray [2; 2] (FloatBuffer fk [p; q; r; s])))
          ModuleMultiTypeDecoder.decode
     = (Return (nested_2x2 (PFloat p) (PFloat q) (PFloat r) (PFloat s)), []).
Proof.
  repeat split.
  - change (ModuleMultiTypeEncoder.encode
              (NdArray [2; 2] (IntBuffer ik [a; b; c; d])))
      with (ret (JArray [JArray [JNumber (str_int a); JNumber (str_int b)];
                         JArray [JNumber (str_int c); JNumber (str_int d)]])).
    rewrite bind_ret_l.
    unfold ModuleMultiTypeDecoder.decode, CustomJSONDecoder.decode.
    cbn [json_loads]. rewrite !json_number_int. reflexivity.
  - change (ModuleMultiTypeEncoder.encode
              (NdArray [2; 2] (FloatBuffer fk [p; q; r; s])))
      with (ret (JArray [JArray [JNumber (json_float_text p);
                                 JNumber (json_float_text q)];
                         JArray [JNumber (json_float_text r);
                                 JNumber (json_float_text s)]])).
    rewrite bind_ret_l.
    unfold ModuleMultiTypeDecoder.decode, CustomJSONDecoder.decode.
    cbn [json_loads]. unfold reads_back in *. rewrite Hp, Hq, Hr, Hs.
    reflexivity.
Qed.
End Buffers.

(* ===================================================================== *)
(** ** Mappings: what the passes keep                                     *)
(* ===================================================================== *)

Lemma bind_returns {A B} (m : Py A) (f : A -> Py B) (b : B) (w : list string) :
  bind m f = (Return b, w) ->
  exists a w1 w2, m = (Return a, w1) /\ f a = (Return b, w2)
                  /\ w = (w1 ++ w2)%list.
Proof.
  destruct m as [[a|e] w1]; [|discriminate].
  unfold bind. destruct (f a) as [r w2] eqn:E. intros [= -> <-].
  now exists a, w1, w2.
Qed.

Lemma obind_returns {A B} (o : outcome A) (f : A -> outcome B) (b : B) :
  obind o f = Return b -> exists a, o = Return a /\ f a = Return b.
Proof. destruct o as [a|e]; [|discriminate]. intros E. now exists a. Qed.

Lemma lift_returns {A} (o : outcome A) (a : A) (w : list string) :
  lift o = (Return a, w) -> o = Return a.
Proof. unfold lift. now intros [= -> _]. Qed.

Lemma encode_switch_dict {H : Host} (self : Encoder) (d : pydict) :
  CustomJSONEncoder._encode_switch self (PDict d)
  = (d' <- walk_entries (self_encode_key self)
                        (CustomJSONEncoder._encode_switch self) d [] ;;
     ret (PDict d')).
Proof. reflexivity. Qed.

Lemma decode_switch_dict {H : Host} (self : Decoder) (d : pydict) :
  CustomJSONDecoder._decode_switch self (PDict d)
  = (d' <- walk_entries (self_decode_key self)
                        (CustomJSONDecoder._decode_switch self) d [] ;;
     ret (PDict d')).
Proof. reflexivity. Qed.

Lemma key_eqb_str (k : PyVal) (t : string) :
  key_eqb k (PStr t) = true -> k = PStr t.
Proof.
  destruct k; cbn; try discriminate.
  intros E. apply String.eqb_eq in E. now subst.
Qed.

Lemma dict_put_keeps (d : pydict) (k v k2 v2 : PyVal) :
  In (k, v) d -> exists v', In (k, v') (dict_put d k2 v2).
Proof.
  induction d as [|[k0 v0] r IH]; [contradiction|].
  intros [E | Hin]; cbn [dict_put].
  - injection E as -> ->.
    destruct (key_eqb k k2); eexists; left; reflexivity.
  - destruct (IH Hin) as (v' & Hv').
    destruct (key_eqb k0 k2).
    + exists v. now right.
    + exists v'. now right.
Qed.

Lemma dict_put_has_str (d : pydict) (t : string) (v : PyVal) :
  exists v', In (PStr t, v') (dict_put d (PStr t) v).
Proof.
  induction d as [|[k0 v0] r IH]; cbn [dict_put].
  - exists v. now left.
  - destruct (key_eqb k0 (PStr t)) eqn:E.
    + apply key_eqb_str in E as ->. exists v. now left.
    + destruct IH as (v' & Hv'). exists v'. now right.
Qed.

(** A key that is encoded to the string [t] is a key of the result. *)
Lemma walk_entries_keeps (key_fn val_fn : PyVal -> Py PyVal)
      (d : pydict) : forall acc d' w,
  walk_entries key_fn val_fn d acc = (Return d', w) ->
  (forall k v, In (k, v) acc -> exists v', In (k, v') d')
  /\ (forall k v t, In (k, v) d -> key_fn k = ret (PStr t) ->
        exists v', In (PStr t, v') d').
Proof.
  induction d as [|[key val] r IH]; intros acc d' w E; cbn [walk_entries] in E.
  - injection E as <- _. split; [eauto | contradiction].
  - apply bind_returns in E as (k1 & w1 & w2 & Ek & E & _).
    apply bind_returns in E as (v1 & w3 & w4 & Ev & E & _).
    apply bind_returns in E as (acc' & w5 & w6 & Es & E & _).
    apply lift_returns in Es. unfold dict_set in Es.
    destruct (hashable k1); [|discriminate]. injection Es as <-.
    destruct (IH _ _ _ E) as [Hacc Hnew]. split.
    + intros k v Hin.
      destruct (dict_put_keeps acc k v k1 v1 Hin) as (v' & Hv'). eauto.
    + intros k v t [Eq | Hin] Hk.
      * injection Eq as -> ->. rewrite Hk in Ek. injection Ek as <- _.
        destruct (dict_put_has_str acc t v1) as (v' & Hv'). eauto.
      * eauto.
Qed.

Section Mappings.
Context {H : Host}.

Lemma json_dumps_dict_names (d : pydict) (doc : Json) :
  json_dumps (PDict d) = Return doc ->
  exists ms, doc = JObject ms
    /\ forall t v, In (PStr t, v) d -> exists j, In (t, j) ms.
Proof.
  cbn [json_dumps]. intros E.
  apply obind_returns in E as (ms & E & [= <-]).
  exists ms. split; [reflexivity|].
  revert ms E. induction d as [|[k x] r IH]; intros ms E; [contradiction|].
  apply obind_returns in E as (ks & Ek & E).
  apply obind_returns in E as (jx & Ex & E).
  apply obind_returns in E as (ms' & Er & [= <-]).
  intros t v [Eq | Hin].
  - injection Eq as -> ->. cbn in Ek. injection Ek as <-.
    exists jx. now left.
  - destruct (IH _ Er t v Hin) as (j & Hj). exists j. now right.
Qed.

Lemma json_loads_object_names (ms : list (string * Json)) (v : PyVal) :
  json_loads (JObject ms) = Return v ->
  exists d, v = PDict d
    /\ forall t j, In (t, j) ms -> exists y, In (PStr t, y) d.
Proof.
  cbn [json_loads]. intros E.
  apply obind_returns in E as (d & E & [= <-]).
  exists d. split; [reflexivity|].
  assert (G : forall acc,
    (fix members (ms : list (string * Json)) (acc : pydict)
       : outcome pydict :=
       match ms with
       | [] => Return acc
       | (k, x) :: r =>
           obind (json_loads x) (fun v => members r (dict_put acc (PStr k) v))
       end) ms acc = Return d ->
    (forall k y, In (k, y) acc -> exists y', In (k, y') d)
    /\ (forall t j, In (t, j) ms -> exists y, In (PStr t, y) d)).
  { clear E. induction ms as [|[k x] r IH]; intros acc E.
    - injection E as <-. split; [eauto | contradiction].
    - apply obind_returns in E as (y & Ey & E).
      destruct (IH _ E) as [Hacc Hnew]. split.
      + intros k0 y0 Hin.
        destruct (dict_put_keeps acc k0 y0 (PStr k) y Hin) as (y' & Hy').
        eauto.
      + intros t j [Eq | Hin]; [|eauto].
        injection Eq as -> ->.
        destruct (dict_put_has_str acc t y) as (y' & Hy'). eauto. }
  exact (proj2 (G [] E)).
Qed.

(** C10.  A boolean key takes the integer-key rule and is written as
    [__int__(True)] or [__int__(False)]; a mapping with such a key and a
    plain value is encoded without an exception; the tagged key does not
    parse as an integer, so decoding what was encoded for any mapping
    with a boolean key raises. *)
Theorem bool_key_encodes_but_does_not_decode
  (b : bool) (u v : PyVal) (d : pydict) (doc : Json) (w : list string)
  (Hu : plain_leaf u = true)
  (Hin : In (PBool b, v) d)
  (Henc : ModuleMultiTypeEncoder.encode (PDict d) = (Return doc, w)) :
  ModuleMultiTypeEncoder._encode_key (PBool b)
    = (Return (PStr ("__int__(" ++ bool_text b ++ ")")), [])
  /\ (exists j, ModuleMultiTypeEncoder.encode (PDict [(PBool b, u)])
                = (Return (JObject [("__int__(" ++ bool_text b ++ ")", j)]), []))
  /\ ModuleMultiTypeDecoder._decode_key
       (PStr ("__int__(" ++ bool_text b ++ ")")) = (Raise ValueError, [])
  /\ raises (ModuleMultiTypeDecoder.decode doc).
Proof.
  assert (Hbad : ModuleMultiTypeDecoder._decode_key
                   (PStr ("__int__(" ++ bool_text b ++ ")"))
                 = (Raise ValueError, [])).
  { destruct b; reflexivity. }
  split; [reflexivity|]. split; [|split; [exact Hbad|]].
  - destruct u; try discriminate Hu; eexists; reflexivity.
  - unfold ModuleMultiTypeEncoder.encode, CustomJSONEncoder.encode in Henc.
    apply bind_returns in Henc as (v1 & w1 & w2 & Esw & Edump & _).
    apply lift_returns in Edump.
    rewrite encode_switch_dict in Esw.
    apply bind_returns in Esw as (d1 & w3 & w4 & Ewalk & Eret & _).
    injection Eret as <- _.
    destruct (walk_entries_keeps _ _ _ _ _ _ Ewalk) as [_ Hkey].
    destruct (Hkey (PBool b) v ("__int__(" ++ bool_text b ++ ")") Hin eq_refl)
      as (v' & Hv').
    destruct (json_dumps_dict_names _ _ Edump) as (ms & -> & Hms).
    destruct (Hms _ _ Hv') as (j & Hj).
    unfold ModuleMultiTypeDecoder.decode, CustomJSONDecoder.decode.
    destruct (json_loads (JObject ms)) as [v2|e] eqn:Eload;
      [|now exists e, []].
    rewrite bind_lift_return.
    destruct (json_loads_object_names _ _ Eload) as (d2 & -> & Hd2).
    destruct (Hd2 _ _ Hj) as (y & Hy).
    apply (decode_keys_raise _ d2 (PStr ("__int__(" ++ bool_text b ++ ")")) y Hy).
    exists ValueError, []. exact Hbad.
Qed.
End Mappings.

(* ===================================================================== *)
(** ** Mappings with numeric keys                                         *)
(* ===================================================================== *)

Lemma forallb_app_l {A} (p : A -> bool) (a b : list A) :
  forallb p (a ++ b) = true -> forallb p a = true /\ forallb p b = true.
Proof. rewrite forallb_app. apply andb_prop. Qed.

Lemma dict_put_fresh (acc : pydict) (k v : PyVal) :
  forallb (fun kv => negb (key_eqb (fst kv) k)) acc = true ->
  dict_put acc k v = (acc ++ [(k, v)])%list.
Proof.
  induction acc as [|[k0 v0] r IH]; cbn [dict_put forallb fst app];
    [reflexivity|].
  intros E. apply andb_prop in E as [E0 Er].
  apply negb_true_iff in E0. rewrite E0. now rewrite (IH Er).
Qed.

Lemma distinct_keys_fresh (acc r : pydict) (k v : PyVal) :
  distinct_keys (acc ++ (k, v) :: r)%list = true ->
  forallb (fun kv => negb (key_eqb (fst kv) k)) acc = true.
Proof.
  induction acc as [|[k0 v0] acc IH]; cbn [distinct_keys forallb fst app];
    [reflexivity|].
  intros E. apply andb_prop in E as [E0 Er].
  apply forallb_app_l in E0 as [_ E0]. cbn [forallb fst] in E0.
  apply andb_prop in E0 as [E0 _].
  now rewrite E0, (IH Er).
Qed.

(** When every key and value goes through unchanged in shape and the
    resulting keys are distinct, the comprehension yields the entries in
    order. *)
Lemma walk_entries_exact (key_fn val_fn : PyVal -> Py PyVal)
      (d out : pydict) :
  Forall2 (fun kv kv' =>
             key_fn (fst kv) = ret (fst kv')
             /\ val_fn (snd kv) = ret (snd kv')
             /\ hashable (fst kv') = true) d out ->
  forall acc, distinct_keys (acc ++ out)%list = true ->
  walk_entries key_fn val_fn d acc = ret (acc ++ out)%list.
Proof.
  induction 1 as [|[k v] [k' v'] d out (Hk & Hv & Hh) _ IH]; intros acc Hd.
  - now rewrite List.app_nil_r.
  - cbn [walk_entries fst snd] in *.
    rewrite Hk, bind_ret_l, Hv, bind_ret_l.
    unfold dict_set. rewrite Hh, bind_lift_return.
    rewrite (dict_put_fresh acc k' v') by (now apply distinct_keys_fresh in Hd).
    rewrite IH by (now rewrite <- List.app_assoc).
    now rewrite <- List.app_assoc.
Qed.

Lemma float_eqb_refl (f : pyfloat) : float_eqb f f = true.
Proof.
  destruct f as [|n|n|n m e]; cbn; try reflexivity.
  - now destruct n.
  - unfold scaled_eqb. apply Z.eqb_refl.
Qed.

Section NumericKeys.
Context {H : Host}.

Lemma key_tag_distinct (k1 k2 : PyVal) :
  numeric_key k1 = true -> numeric_key k2 = true ->
  key_reads_back k1 -> key_reads_back k2 ->
  key_eqb k1 k2 = false ->
  key_eqb (PStr (key_tag k1)) (PStr (key_tag k2)) = false.
Proof.
  intros N1 N2 R1 R2 E.
  change (String.eqb (key_tag k1) (key_tag k2) = false).
  apply String.eqb_neq. intros T.
  destruct k1 as [| | z1 | f1 | | | | | | | | | | | | |]; try discriminate N1;
    destruct k2 as [| | z2 | f2 | | | | | | | | | | | | |]; try discriminate N2;
    cbn [key_tag] in T; try discriminate T.
  - apply (app_inv_head_s "__int__(") in T. apply app_inv_tail_s in T.
    apply str_int_inj in T. subst z2.
    cbn in E. now rewrite Z.eqb_refl in E.
  - apply (app_inv_head_s "__float__(") in T. apply app_inv_tail_s in T.
    cbn [key_reads_back] in R1, R2. rewrite T, R2 in R1.
    injection R1 as <-. cbn in E. now rewrite float_eqb_refl in E.
Qed.

Lemma tagged_keys_distinct (d : pydict) :
  Forall (fun kv => numeric_key (fst kv) = true /\ key_reads_back (fst kv)) d ->
  distinct_keys d = true ->
  distinct_keys (map tag_entry d) = true.
Proof.
  induction 1 as [|[k v] r [Nk Rk] Hr IH]; [reflexivity|].
  cbn [distinct_keys map tag_entry fst snd]. intros E.
  apply andb_prop in E as [E0 Er].
  rewrite (IH Er), andb_true_r.
  clear IH Er. induction Hr as [|[k2 v2] r2 [N2 R2] _ IH2]; [reflexivity|].
  cbn [forallb map tag_entry fst snd] in *.
  apply andb_prop in E0 as [E2 E0]. apply negb_true_iff in E2.
  rewrite (key_tag_distinct k k2 Nk N2 Rk R2 E2). cbn [negb andb].
  now apply IH2.
Qed.

Lemma encode_plain_leaf (v : PyVal) :
  plain_leaf v = true ->
  CustomJSONEncoder._encode_switch ModuleMultiTypeEncoder.self v = ret v.
Proof. destruct v; try discriminate; reflexivity. Qed.

Lemma decode_untagged (s : string) :
  untagged s = true -> ModuleMultiTypeDecoder._decode (PStr s) = ret (PStr s).
Proof.
  unfold untagged. intros E. apply negb_true_iff in E.
  repeat (apply orb_false_elim in E as [E ?]).
  unfold ModuleMultiTypeDecoder._decode, MultiTypeDecoder._decode.
  repeat match goal with
         | Hs : startswith s _ = false |- _ => rewrite Hs; clear Hs
         end.
  reflexivity.
Qed.

Lemma decode_plain_leaf (v : PyVal) :
  plain_leaf v = true ->
  CustomJSONDecoder._decode_switch ModuleMultiTypeDecoder.self v = ret v.
Proof.
  destruct v; try discriminate; try reflexivity.
  intros E. now apply decode_untagged.
Qed.

Lemma decode_key_tag (k : PyVal) :
  numeric_key k = true -> key_reads_back k ->
  self_decode_key ModuleMultiTypeDecoder.self (PStr (key_tag k)) = ret k.
Proof.
  intros N R.
  change (ModuleMultiTypeDecoder._decode (PStr (key_tag k)) = ret k).
  destruct k; try discriminate N; cbn [key_tag].
  - now rewrite decode_int_tag, int_of_text_str_int, bind_lift_return.
  - cbn [key_reads_back] in R.
    now rewrite decode_float_tag, R, bind_lift_return.
Qed.

Lemma json_dumps_plain_leaf (v : PyVal) :
  plain_leaf v = true -> json_dumps v = Return (json_leaf v).
Proof. destruct v; try discriminate; reflexivity. Qed.

Lemma json_loads_plain_leaf (v : PyVal) :
  plain_leaf v = true -> json_loads (json_leaf v) = Return v.
Proof.
  destruct v; try discriminate; try reflexivity.
  intros _. cbn [json_leaf json_loads]. apply json_number_int.
Qed.

(** The base encoder writes the tagged entries as members, in order. *)
Lemma json_dumps_tagged (d : pydict) :
  Forall (fun kv => plain_leaf (snd kv) = true) d ->
  json_dumps (PDict (map tag_entry d))
  = Return (JObject (map (fun kv => (key_tag (fst kv), json_leaf (snd kv))) d)).
Proof.
  intros Hd. cbn [json_dumps].
  match goal with
  | |- obind ?m _ = _ =>
      assert (E : m = Return (map (fun kv => (key_tag (fst kv),
                                              json_leaf (snd kv))) d))
  end.
  { induction Hd as [|[k v] r Hv _ IH]; [reflexivity|].
    cbn [map tag_entry fst snd] in *.
    cbn [json_key obind]. rewrite (json_dumps_plain_leaf v Hv).
    cbn [obind]. rewrite IH. reflexivity. }
  now rewrite E.
Qed.

(** The base decoder reads them back as the tagged entries. *)
Lemma json_loads_tagged (d : pydict) :
  Forall (fun kv => plain_leaf (snd kv) = true) d ->
  distinct_keys (map tag_entry d) = true ->
  json_loads (JObject (map (fun kv => (key_tag (fst kv), json_leaf (snd kv))) d))
  = Return (PDict (map tag_entry d)).
Proof.
  intros Hd Hk. cbn [json_loads].
  match goal with
  | |- obind (?members _ []) _ = _ =>
      assert (E : forall acc,
                 distinct_keys (acc ++ map tag_entry d)%list = true ->
                 members (map (fun kv => (key_tag (fst kv),
                                          json_leaf (snd kv))) d) acc
                 = Return (acc ++ map tag_entry d)%list)
  end.
  { clear Hk. induction Hd as [|[k v] r Hv _ IH]; intros acc Ha.
    - now rewrite List.app_nil_r.
    - cbn [map tag_entry fst snd] in *.
      rewrite (json_loads_plain_leaf v Hv). cbn [obind].
      rewrite (dict_put_fresh acc (PStr (key_tag k)) v)
        by (now apply distinct_keys_fresh in Ha).
      rewrite IH by (now rewrite <- List.app_assoc).
      now rewrite <- List.app_assoc. }
  now rewrite (E [] Hk).
Qed.

(** C7.  A mapping whose keys are native integers and native floats
    (distinct, as the keys of a dict are; plain leaves as values; the text
    of each float key reading back as the key) is encoded with its keys
    tagged [__int__(...)] and [__float__(...)], and decoding the encoding
    returns the mapping with its integer and float keys, not strings. *)
Theorem numeric_keys_round_trip (d : pydict)
  (Hkeys : Forall (fun kv => numeric_key (fst kv) = true
                             /\ key_reads_back (fst kv)) d)
  (Hvals : Forall (fun kv => plain_leaf (snd kv) = true) d)
  (Hdistinct : distinct_keys d = true) :
  ModuleMultiTypeEncoder._encode_switch (PDict d)
    = (Return (PDict (map tag_entry d)), [])
  /\ bind (ModuleMultiTypeEncoder.encode (PDict d))
          ModuleMultiTypeDecoder.decode
     = (Return (PDict d), []).
Proof.
  pose proof (tagged_keys_distinct d Hkeys Hdistinct) as Htag.
  assert (Esw : ModuleMultiTypeEncoder._encode_switch (PDict d)
                = ret (PDict (map tag_entry d))).
  { unfold ModuleMultiTypeEncoder._encode_switch.
    rewrite encode_switch_dict.
    rewrite (walk_entries_exact _ _ d (map tag_entry d)); [reflexivity| |exact Htag].
    clear Hdistinct Htag.
    induction d as [|[k v] r IH]; constructor.
    - inversion Hkeys as [|? ? [Nk _] _]; inversion Hvals as [|? ? Hv _]; subst.
      cbn [fst snd tag_entry] in *. repeat split.
      + destruct k; try discriminate Nk; reflexivity.
      + now apply encode_plain_leaf.
    - inversion Hkeys; inversion Hvals; subst. now apply IH. }
  split; [exact Esw|].
  unfold ModuleMultiTypeEncoder.encode, CustomJSONEncoder.encode.
  change (CustomJSONEncoder._encode_switch ModuleMultiTypeEncoder.self (PDict d))
    with (ModuleMultiTypeEncoder._encode_switch (PDict d)).
  rewrite Esw, bind_ret_l, (json_dumps_tagged d Hvals).
  rewrite bind_lift_return.
  unfold ModuleMultiTypeDecoder.decode, CustomJSONDecoder.decode.
  rewrite (json_loads_tagged d Hvals Htag), bind_lift_return.
  rewrite decode_switch_dict.
  rewrite (walk_entries_exact _ _ (map tag_entry d) d); [reflexivity| |exact Hdistinct].
  clear Hdistinct Htag Esw.
  induction d as [|[k v] r IH]; constructor.
  - inversion Hkeys as [|? ? [Nk Rk] _]; inversion Hvals as [|? ? Hv _]; subst.
    cbn [fst snd tag_entry] in *. repeat split.
    + now apply decode_key_tag.
    + now apply decode_plain_leaf.
    + destruct k; try discriminate Nk; reflexivity.
  - inversion Hkeys; inversion Hvals; subst. now apply IH.
Qed.
End NumericKeys.

(* ===================================================================== *)
(** ** Scanning the text of a scalar                                      *)
(* ===================================================================== *)

Lemma delim_cases (c : ascii) :
  is_delim c = true -> c = ","%char \/ c = ")"%char.
Proof.
  unfold is_delim. intros E. apply orb_prop in E as [E | E];
    apply Ascii.eqb_eq in E; auto.
Qed.

Lemma starts_delim_inv (rest : string) :
  starts_delim rest = true ->
  exists c r, rest = String c r /\ (c = ","%char \/ c = ")"%char).
Proof.
  destruct rest as [|c r]; [discriminate|]. intros E.
  exists c, r. split; [reflexivity | now apply delim_cases].
Qed.

Lemma digit_is_ident (c : ascii) : is_digit c = true -> is_ident_char c = true.
Proof. intros E. unfold is_ident_char. now rewrite E, orb_true_r. Qed.

Lemma scan_number_stop (rest : string) (b : bool) :
  starts_delim rest = true -> scan_number rest b = (EmptyString, rest).
Proof.
  intros E. apply starts_delim_inv in E as (c & r & -> & [-> | ->]);
    destruct b; reflexivity.
Qed.

Lemma scan_number_step (c : ascii) (r : string) (b : bool) :
  is_ident_char c = true ->
  scan_number (String c r) b
  = let (t, rest) := scan_number r (is_e c) in (String c t, rest).
Proof. intros E. cbn [scan_number]. now rewrite E. Qed.

Lemma scan_number_digits (d : Decimal.uint) (rest : string) :
  starts_delim rest = true ->
  forall b, scan_number (NilEmpty.string_of_uint d ++ rest) b
            = (NilEmpty.string_of_uint d, rest).
Proof.
  intros E. induction d; intros b0;
    cbn [NilEmpty.string_of_uint append];
    try (rewrite scan_number_step by reflexivity;
         rewrite IHd; reflexivity).
  now apply scan_number_stop.
Qed.

Lemma pos_no_leading_zero (p : positive) (d' : Decimal.uint) :
  Pos.to_uint p <> Decimal.D0 d'.
Proof.
  intros E.
  assert (U : Decimal.unorm (Pos.to_uint p) = Pos.to_uint p).
  { rewrite <- (DecimalPos.Unsigned.to_of (Pos.to_uint p)).
    now rewrite DecimalPos.Unsigned.of_to. }
  rewrite E, DecimalFacts.unorm_D0 in U.
  destruct (Decimal.nzhead d') eqn:N.
  1:{ apply DecimalFacts.unorm_0 in N. rewrite N in U.
      injection U as <-. exact (DecimalPos.Unsigned.to_uint_nonzero p E). }
  all: rewrite DecimalFacts.unorm_nzhead in U by (rewrite N; discriminate);
       exact (DecimalFacts.nzhead_nonzero _ _ U).
Qed.

(** The digits of a non-negative integer form an integer literal. *)
Lemma int_literal_digits (z : Z) :
  (0 <= z)%Z -> int_literal (str_int z) = Some z.
Proof.
  intros Hz. destruct z as [|p|p]; [reflexivity| |lia].
  unfold str_int. cbn [Z.to_int NilZero.string_of_int]. rewrite pos_text.
  assert (V : int_digits (NilEmpty.string_of_uint (Pos.to_uint p)) 0 false
              = Some (Npos p)).
  { rewrite int_digits_uint by (left; apply DecimalPos.Unsigned.to_uint_nonnil).
    now rewrite pos_to_uint_value. }
  pose proof (pos_no_leading_zero p) as Hz0.
  pose proof (DecimalPos.Unsigned.to_uint_nonnil p) as Hnil.
  unfold int_literal.
  destruct (Pos.to_uint p) as [|u|u|u|u|u|u|u|u|u|u];
    cbn [NilEmpty.string_of_uint] in *;
    [congruence | now destruct (Hz0 u) | ..];
    rewrite V; reflexivity.
Qed.

Lemma e_is_ident (c : ascii) : is_e c = true -> is_ident_char c = true.
Proof.
  unfold is_e. intros E. apply orb_prop in E as [E | E];
    apply Ascii.eqb_eq in E; subst; reflexivity.
Qed.

Lemma under_is_ident (c : ascii) :
  Ascii.eqb c "_"%char = true -> is_ident_char c = true.
Proof. intros E. unfold is_ident_char. now rewrite E, orb_true_r. Qed.

(** A character a float literal continues with belongs to the run the
    scanner takes, and an exponent is entered on an exponent mark only. *)
Lemma num_step_scan (st st' : numstate) (c : ascii) (b : bool) :
  num_step st c = Some st' ->
  (st = NsExp -> b = true) ->
  (is_ident_char c || Ascii.eqb c "."%char || b && is_sign c) = true
  /\ (st' = NsExp -> is_e c = true).
Proof.
  intros S Hb.
  assert (Hid : is_digit c = true \/ Ascii.eqb c "_"%char = true
                \/ is_e c = true -> is_ident_char c = true).
  { intros [X | [X | X]];
      auto using digit_is_ident, under_is_ident, e_is_ident. }
  cbv beta iota zeta delta [num_step] in S.
  destruct (is_digit c) eqn:D; destruct (Ascii.eqb c "_") eqn:U;
    destruct (Ascii.eqb c ".") eqn:P; destruct (is_e c) eqn:E;
    destruct (is_sign c) eqn:G;
    destruct st; try discriminate S; injection S as <-;
    (split;
     [ first [ rewrite Hid by auto; reflexivity
             | rewrite orb_true_r; reflexivity
             | rewrite (Hb eq_refl); cbn [andb];
               rewrite orb_true_r; reflexivity ]
     | intros X; try discriminate X; reflexivity ]).
Qed.

Lemma scan_number_token (rest : string) (tok : string) :
  starts_delim rest = true ->
  forall st b,
    num_run st tok = true -> (st = NsExp -> b = true) ->
    scan_number (tok ++ rest) b = (tok, rest).
Proof.
  intros Hrest. induction tok as [|c r IH]; intros st b Hrun Hb.
  - now apply scan_number_stop.
  - cbn [num_run] in Hrun.
    destruct (num_step st c) as [st'|] eqn:S; [|discriminate].
    destruct (num_step_scan st st' c b S Hb) as [Hc He].
    cbn [append scan_number]. rewrite Hc.
    now rewrite (IH st' (is_e c) Hrun He).
Qed.

(** A float literal is not read as an integer. *)
Lemma float_token_not_int (tok : string) : forall st acc b,
  st = NsStart \/ st = NsInt \/ st = NsIntU ->
  num_run st tok = true -> int_digits tok acc b = None.
Proof.
  induction tok as [|c r IH]; intros st acc b Hst Hrun.
  - destruct Hst as [-> | [-> | ->]]; discriminate.
  - cbn [num_run] in Hrun. cbn [int_digits].
    destruct (num_step st c) as [st'|] eqn:S; [|discriminate].
    destruct (is_digit c) eqn:D.
    + apply (IH st'); [|exact Hrun].
      destruct Hst as [-> | [-> | ->]]; cbn in S; rewrite D in S;
        injection S as <-; auto.
    + destruct (Ascii.eqb c "_") eqn:U; [|reflexivity].
      destruct b; [|reflexivity].
      apply (IH st'); [|exact Hrun].
      destruct Hst as [-> | [-> | ->]]; cbn in S; rewrite D, ?U in S;
        try discriminate S; try (injection S as <-; auto).
      apply Ascii.eqb_eq in U. subst c. discriminate S.
Qed.

Lemma float_token_head (tok : string) :
  float_literal tok = true ->
  exists c r, tok = String c r /\ (is_digit c = true \/ c = "."%char).
Proof.
  destruct tok as [|c r]; [discriminate|].
  unfold float_literal. cbn [num_run num_step]. intros E.
  exists c, r. split; [reflexivity|].
  destruct (is_digit c); [now left|].
  destruct (Ascii.eqb_spec c "."); [now right | discriminate].
Qed.

Lemma skip_ws_head (inner : bool) (c : ascii) (r : string) :
  is_blank inner c = false -> skip_ws inner (String c r) = String c r.
Proof. intros E. cbn [skip_ws]. now rewrite E. Qed.

Lemma digit_class (c : ascii) :
  is_digit c = true ->
  Ascii.eqb c "("%char = false /\ Ascii.eqb c "["%char = false
  /\ is_sign c = false /\ Ascii.eqb c ")"%char = false
  /\ is_blank true c = false /\ is_blank false c = false.
Proof.
  destruct c as [[] [] [] [] [] [] [] []]; intros E;
    try (vm_compute in E; discriminate E); vm_compute; repeat split.
Qed.

Section ScalarParse.
Context {H : Host}.

Lemma blank_inner (inner : bool) (c : ascii) :
  is_blank true c = false -> is_blank inner c = false.
Proof.
  unfold is_blank. destruct inner; [auto|].
  intros E. repeat (apply orb_false_elim in E as [E ?]).
  repeat (apply orb_false_elim in E as [E ?]).
  cbn [andb orb]. rewrite !orb_false_r.
  repeat (apply orb_false_intro); auto.
Qed.

(** A token that starts with a digit or a dot is a number. *)
Lemma parse_expr_number (fuel : nat) (inner : bool) (c : ascii)
      (r tok rest : string) (a : ast) :
  is_digit c = true \/ c = "."%char ->
  scan_number (String c r) false = (tok, rest) ->
  number_token tok = Some a ->
  parse_expr (S fuel) inner (String c r) = Some (a, rest).
Proof.
  intros Hc Hscan Htok.
  assert (K : Ascii.eqb c "("%char = false /\ Ascii.eqb c "["%char = false
              /\ is_sign c = false /\ is_blank inner c = false
              /\ (is_digit c || Ascii.eqb c "."%char) = true).
  { destruct Hc as [D | ->].
    - destruct (digit_class c D) as (? & ? & ? & ? & ? & ?).
      rewrite D. repeat split; auto. now apply blank_inner.
    - destruct inner; repeat split; reflexivity. }
  destruct K as (K1 & K2 & K3 & K4 & K5).
  cbn [parse_expr]. rewrite (skip_ws_head inner c r K4).
  rewrite K1, K2, K3, K5, Hscan, Htok. reflexivity.
Qed.
End ScalarParse.

Lemma scan_repr_char (q c : ascii) (tail : string) :
  q = squote \/ q = dquote ->
  scan_string q (repr_char q c ++ tail)
  = cons_char (Some c) (scan_string q tail).
Proof.
  intros [-> | ->]; destruct c as [[] [] [] [] [] [] [] []]; reflexivity.
Qed.

(** Scanning the body [repr] wrote, up to the closing quote, gives the
    string back. *)
Lemma scan_repr_body (q : ascii) (s rest : string) :
  q = squote \/ q = dquote ->
  scan_string q (repr_body q s ++ String q rest) = Some (s, rest).
Proof.
  intros Hq. induction s as [|c r IH]; cbn [repr_body append].
  - cbn [scan_string]. now rewrite Ascii.eqb_refl.
  - rewrite app_assoc_s, (scan_repr_char q c _ Hq), IH. reflexivity.
Qed.

Lemma repr_quote_cases (s : string) :
  repr_quote s = squote \/ repr_quote s = dquote.
Proof. unfold repr_quote. destruct (_ && _); auto. Qed.

Lemma uint_text_head (d : Decimal.uint) :
  d <> Decimal.Nil ->
  exists c r, NilEmpty.string_of_uint d = String c r /\ is_digit c = true.
Proof.
  destruct d; [congruence|..]; intros _; eexists _, _; split; reflexivity.
Qed.

Section TupleParse.
Context {H : Host}.

Lemma parse_expr_eq (fuel : nat) (inner : bool) (s : string) :
  parse_expr (S fuel) inner s
  = match skip_ws inner s with
    | EmptyString => None
    | String c r =>
        if Ascii.eqb c "("%char then
          match parse_items fuel (Some ")"%char) r with
          | Some (items, comma, r') =>
              match items, comma with
              | [e], false => Some (e, r')
              | _, _ => Some (ATuple items, r')
              end
          | None => None
          end
        else if Ascii.eqb c "["%char then
          match parse_items fuel (Some "]"%char) r with
          | Some (items, _, r') => Some (AList items, r')
          | None => None
          end
        else if is_sign c then
          match parse_expr fuel inner r with
          | Some (a, r') => Some (AUnary (Ascii.eqb c "-"%char) a, r')
          | None => None
          end
        else if is_digit c || Ascii.eqb c "."%char then
          let (tok, r') := scan_number (String c r) false in
          match number_token tok with
          | Some a => Some (a, r')
          | None => None
          end
        else if Ascii.eqb c squote || Ascii.eqb c dquote then
          match scan_string c r with
          | Some (t, r') => Some (AConst (PStr t), r')
          | None => None
          end
        else if is_alpha c || Ascii.eqb c "_"%char then
          let (id, r') := scan_ident (String c r) in
          if is_keyword id then None else Some (name_node id, r')
        else if Ascii.eqb c "{"%char then
          match parse_pairs fuel r with
          | Some (pairs, r') => Some (ADict pairs, r')
          | None => None
          end
        else None
    end.
Proof. reflexivity. Qed.

Lemma parse_items_eq (fuel : nat) (close : option ascii) (s : string) :
  parse_items (S fuel) close s
  = match at_close close s with
    | Some r => Some ([], false, r)
    | None =>
        match parse_expr fuel (is_inner close) s with
        | None => None
        | Some (e, r1) =>
            match at_close close r1 with
            | Some r2 => Some ([e], false, r2)
            | None =>
                match skip_ws (is_inner close) r1 with
                | String c r2 =>
                    if Ascii.eqb c ","%char then
                      match parse_items fuel close r2 with
                      | Some (es, _, r3) => Some (e :: es, true, r3)
                      | None => None
                      end
                    else None
                | EmptyString => None
                end
            end
        end
    end.
Proof. reflexivity. Qed.

Lemma parse_expr_float_token (fuel : nat) (inner : bool)
      (tok rest : string) (f : pyfloat) :
  float_literal tok = true ->
  float_of_text tok = Return f ->
  starts_delim rest = true ->
  parse_expr (S fuel) inner (tok ++ rest) = Some (AConst (PFloat f), rest).
Proof.
  intros Hlit Hread Hrest.
  destruct (float_token_head tok Hlit) as (c & r & -> & Hc).
  pose proof (scan_number_token rest (String c r) Hrest NsStart false Hlit)
    as Hscan.
  cbn [append] in *.
  apply (parse_expr_number fuel inner c (r ++ rest) (String c r) rest); auto.
  - apply Hscan. discriminate.
  - unfold number_token, int_literal.
    rewrite (float_token_not_int (String c r) NsStart 0%N false) by auto.
    now rewrite Hlit, Hread.
Qed.

Lemma parse_expr_nat (fuel : nat) (inner : bool) (z : Z) (rest : string) :
  (0 <= z)%Z ->
  starts_delim rest = true ->
  parse_expr (S fuel) inner (str_int z ++ rest) = Some (AConst (PInt z), rest).
Proof.
  intros Hz Hrest.
  destruct (str_int_shape z) as (d & Hd & _ & E).
  replace (z <? 0)%Z with false in E by (symmetry; apply Z.ltb_ge; lia).
  cbn [append] in E.
  destruct (uint_text_head d Hd) as (c & r & Ed & Hc).
  pose proof (scan_number_digits d rest Hrest false) as Hscan.
  pose proof (int_literal_digits z Hz) as Hlit.
  rewrite E, Ed in *. cbn [append] in *.
  apply (parse_expr_number fuel inner c (r ++ rest) (String c r) rest); auto.
  unfold number_token. now rewrite Hlit.
Qed.
End TupleParse.

(* ===================================================================== *)
(** ** Parsing the text of a tuple                                        *)
(* ===================================================================== *)

Section TupleRoundTrip.
Context {H : Host}.

Lemma parse_expr_minus (fuel : nat) (inner : bool) (r : string) :
  parse_expr (S fuel) inner (String "-"%char r)
  = match parse_expr fuel inner r with
    | Some (a, r') => Some (AUnary true a, r')
    | None => None
    end.
Proof. rewrite parse_expr_eq. destruct inner; reflexivity. Qed.

Lemma parse_expr_quote (fuel : nat) (inner : bool) (q : ascii) (body : string) :
  q = squote \/ q = dquote ->
  parse_expr (S fuel) inner (String q body)
  = match scan_string q body with
    | Some (t, r') => Some (AConst (PStr t), r')
    | None => None
    end.
Proof. intros [-> | ->]; rewrite parse_expr_eq; destruct inner; reflexivity. Qed.

Lemma parse_expr_space (fuel : nat) (inner : bool) (s : string) :
  parse_expr fuel inner (String " "%char s) = parse_expr fuel inner s.
Proof.
  destruct fuel; [reflexivity|]. rewrite !parse_expr_eq.
  destruct inner; reflexivity.
Qed.

Lemma parse_items_space (fuel : nat) (c : ascii) (s : string) :
  parse_items fuel (Some c) (String " "%char s) = parse_items fuel (Some c) s.
Proof.
  destruct fuel; [reflexivity|]. rewrite !parse_items_eq.
  rewrite parse_expr_space. reflexivity.
Qed.

(** The text of a scalar, followed by a comma or a closing parenthesis,
    is parsed to its tree and leaves what follows. *)
Lemma parse_expr_scalar (v : PyVal) (fuel : nat) (inner : bool) (rest : string) :
  literal_scalar v ->
  starts_delim rest = true ->
  parse_expr (S (S fuel)) inner (scalar_text v ++ rest)
  = Some (scalar_ast v, rest).
Proof.
  intros Hv Hrest.
  destruct v as [| b | z | f | s | | | | | | | | | | | |]; try contradiction;
    cbn [scalar_text scalar_ast].
  - apply starts_delim_inv in Hrest as (c & r & -> & [-> | ->]);
      destruct inner; reflexivity.
  - apply starts_delim_inv in Hrest as (c & r & -> & [-> | ->]);
      destruct b, inner; reflexivity.
  - destruct z as [|p|p].
    + now apply parse_expr_nat.
    + now apply parse_expr_nat.
    + change (str_int (Z.neg p)) with (String "-"%char (str_int (Z.pos p))).
      cbn [append Z.ltb Z.compare Z.opp].
      rewrite parse_expr_minus, parse_expr_nat by (auto; lia). reflexivity.
  - destruct f as [| n | n | n m e]; try contradiction;
      cbn [literal_scalar literal_float] in Hv.
    + destruct n; cbn [float_repr].
      * change ("-0.0" ++ rest) with (String "-"%char ("0.0" ++ rest)).
        rewrite parse_expr_minus.
        now rewrite (parse_expr_float_token fuel inner "0.0" rest (FZero false)).
      * now apply parse_expr_float_token.
    + destruct Hv as [Hlit Hread]. destruct n; cbn [float_repr].
      * cbn [append]. rewrite parse_expr_minus.
        now rewrite (parse_expr_float_token fuel inner _ rest _ Hlit Hread).
      * now apply parse_expr_float_token.
  - unfold str_repr. cbn [append].
    rewrite (parse_expr_quote _ _ _ _ (repr_quote_cases s)).
    rewrite app_assoc_s. cbn [append].
    now rewrite (scan_repr_body _ s rest (repr_quote_cases s)).
Qed.

Lemma convert_scalar (v : PyVal) :
  literal_scalar v -> convert (scalar_ast v) = Return v.
Proof.
  destruct v as [| b | z | f | s | | | | | | | | | | | |]; try contradiction;
    intros Hv; try reflexivity.
  - cbn [scalar_ast]. destruct (z <? 0)%Z; [|reflexivity].
    cbn [convert]. now rewrite Z.opp_involutive.
  - destruct f as [| n | n | n m e]; try contradiction; destruct n; reflexivity.
Qed.

Lemma repr_scalar (v : PyVal) :
  literal_scalar v -> py_repr v = Return (scalar_text v).
Proof.
  destruct v; try contradiction; intros _; try reflexivity.
Qed.

(** The text of a scalar starts with a character that is neither white
    space nor a closing parenthesis. *)
Lemma scalar_head (v : PyVal) :
  literal_scalar v ->
  exists c r, scalar_text v = String c r
    /\ is_blank true c = false /\ Ascii.eqb c ")"%char = false.
Proof.
  destruct v as [| b | z | f | s | | | | | | | | | | | |]; try contradiction;
    intros Hv; cbn [scalar_text].
  - eexists _, _. repeat split.
  - destruct b; eexists _, _; repeat split.
  - destruct (str_int_shape z) as (d & Hd & _ & ->).
    destruct (z <? 0)%Z; cbn [append].
    + eexists _, _. repeat split.
    + destruct (uint_text_head d Hd) as (c & r & -> & Hc).
      destruct (digit_class c Hc) as (_ & _ & _ & ? & ? & _).
      now exists c, r.
  - destruct f as [| n | n | n m e]; try contradiction.
    + destruct n; eexists _, _; repeat split.
    + destruct Hv as [Hlit _]. cbn [float_repr].
      destruct n; [eexists _, _; repeat split|].
      destruct (float_token_head _ Hlit) as (c & r & -> & [Hc | ->]).
      * destruct (digit_class c Hc) as (_ & _ & _ & ? & ? & _).
        now exists c, r.
      * eexists _, _. repeat split.
  - unfold str_repr.
    destruct (repr_quote_cases s) as [-> | ->]; eexists _, _; repeat split.
Qed.

Lemma at_close_open (c : ascii) (r : string) :
  is_blank true c = false -> Ascii.eqb c ")"%char = false ->
  at_close (Some ")"%char) (String c r) = None.
Proof. intros B C. unfold at_close. cbn [skip_ws]. now rewrite B, C. Qed.

Lemma at_close_scalar (v : PyVal) (tail : string) :
  literal_scalar v -> at_close (Some ")"%char) (scalar_text v ++ tail) = None.
Proof.
  intros Hv. destruct (scalar_head v Hv) as (c & r0 & -> & B & C).
  cbn [append]. now apply at_close_open.
Qed.

(** One element and then the rest of the sequence. *)
Lemma parse_items_scalars (r : list PyVal) : forall v fuel rest,
  Forall literal_scalar (v :: r) ->
  List.length r + 3 <= fuel ->
  exists comma,
    parse_items fuel (Some ")"%char)
      (String.concat ", " (map scalar_text (v :: r)) ++ ")" ++ rest)
    = Some (map scalar_ast (v :: r), comma, rest).
Proof.
  induction r as [|v2 r IH]; intros v fuel rest Hall Hfuel.
  - inversion Hall as [|? ? Hv _]; subst.
    destruct fuel as [|[|fuel]]; try (cbn in Hfuel; lia).
    exists false. cbn [map String.concat]. rewrite parse_items_eq.
    rewrite (at_close_scalar v _ Hv). cbn [is_inner].
    destruct fuel as [|fuel]; [cbn in Hfuel; lia|].
    rewrite (parse_expr_scalar v fuel true _ Hv) by reflexivity.
    reflexivity.
  - inversion Hall as [|? ? Hv Hrest']; subst.
    destruct fuel as [|[|fuel]]; try (cbn in Hfuel; lia).
    exists true.
    change (String.concat ", " (map scalar_text (v :: v2 :: r)))
      with (scalar_text v ++ ", " ++ String.concat ", " (map scalar_text (v2 :: r))).
    rewrite !app_assoc_s. rewrite parse_items_eq.
    rewrite (at_close_scalar v _ Hv). cbn [is_inner].
    destruct fuel as [|fuel]; [cbn in Hfuel; lia|].
    rewrite (parse_expr_scalar v fuel true _ Hv) by reflexivity.
    cbn [append].
    rewrite at_close_open by reflexivity.
    rewrite skip_ws_head by reflexivity.
    change (Ascii.eqb "," ",") with true. cbv iota.
    rewrite parse_items_space.
    destruct (IH v2 (S (S fuel)) rest Hrest') as (comma & E);
      [cbn in Hfuel |- *; lia|].
    cbn [append] in E. rewrite E. reflexivity.
Qed.
End TupleRoundTrip.

Lemma concat_length_ge (ss : list string) :
  List.length ss <= String.length (String.concat ", " ss) + 1.
Proof.
  induction ss as [|s [|s2 r] IH]; cbn [String.concat List.length] in *;
    [lia | lia |].
  rewrite !length_app. cbn [String.length]. lia.
Qed.

Section TupleClaim.
Context {H : Host}.

Lemma parse_expr_paren (fuel : nat) (inner : bool) (body : string) :
  parse_expr (S fuel) inner (String "("%char body)
  = match parse_items fuel (Some ")"%char) body with
    | Some (items, comma, r') =>
        match items, comma with
        | [e], false => Some (e, r')
        | _, _ => Some (ATuple items, r')
        end
    | None => None
    end.
Proof. rewrite parse_expr_eq. destruct inner; reflexivity. Qed.

(** A parenthesised sequence that is the whole text. *)
Lemma parse_top_paren (body : string) (items : list ast) (comma : bool) :
  parse_items (2 * String.length body + 2) (Some ")"%char) body
    = Some (items, comma, EmptyString) ->
  parse_top ("(" ++ body)
  = Some (match items, comma with
          | [e], false => e
          | _, _ => ATuple items
          end).
Proof.
  intros E. unfold parse_top.
  change (lstrip_blank ("(" ++ body)) with (String "("%char body).
  change (is_blank true "("%char) with false.
  cbn [append String.length].
  replace (2 * S (String.length body) + 2)
    with (S (S (2 * String.length body + 2))) by lia.
  rewrite parse_items_eq.
  change (at_close None (String "("%char body)) with (@None string).
  cbn [is_inner]. rewrite parse_expr_paren, E.
  destruct items as [|e [|e2 r]]; destruct comma; reflexivity.
Qed.

Lemma parse_items_single (v : PyVal) (fuel : nat) :
  literal_scalar v ->
  parse_items (S (S (S fuel))) (Some ")"%char) (scalar_text v ++ ",)")
  = Some ([scalar_ast v], true, EmptyString).
Proof.
  intros Hv. rewrite parse_items_eq, (at_close_scalar v _ Hv).
  cbn [is_inner]. rewrite (parse_expr_scalar v fuel true _ Hv) by reflexivity.
  reflexivity.
Qed.

Lemma reprs_scalars (l : list PyVal) :
  Forall literal_scalar l ->
  py_repr (PTuple l) = Return (tuple_text (map scalar_text l)).
Proof.
  intros Hl. cbn [py_repr].
  match goal with
  | |- obind ?m _ = _ => assert (E : m = Return (map scalar_text l))
  end.
  { induction Hl as [|v r Hv _ IH]; [reflexivity|].
    rewrite (repr_scalar v Hv). cbn [obind]. rewrite IH. reflexivity. }
  rewrite E. reflexivity.
Qed.

Lemma convert_scalars (l : list PyVal) :
  Forall literal_scalar l ->
  convert (ATuple (map scalar_ast l)) = Return (PTuple l).
Proof.
  intros Hl. cbn [convert].
  match goal with
  | |- obind ?m _ = _ => assert (E : m = Return l)
  end.
  { induction Hl as [|v r Hv _ IH]; [reflexivity|].
    cbn [map]. rewrite (convert_scalar v Hv). cbn [obind].
    rewrite IH. reflexivity. }
  rewrite E. reflexivity.
Qed.

Lemma parse_top_scalars (l : list PyVal) :
  Forall literal_scalar l ->
  parse_top (tuple_text (map scalar_text l)) = Some (ATuple (map scalar_ast l)).
Proof.
  intros Hl. destruct l as [|v [|v2 r]].
  - reflexivity.
  - inversion Hl as [|? ? Hv _]; subst. cbn [map tuple_text].
    rewrite (parse_top_paren (scalar_text v ++ ",)") [scalar_ast v] true);
      [reflexivity|].
    replace (2 * String.length (scalar_text v ++ ",)") + 2)
      with (S (S (S (2 * String.length (scalar_text v ++ ",)") - 1))))
      by (rewrite length_app; cbn [String.length]; lia).
    now apply parse_items_single.
  - change (tuple_text (map scalar_text (v :: v2 :: r)))
      with ("(" ++ String.concat ", " (map scalar_text (v :: v2 :: r)) ++ ")").
    destruct (parse_items_scalars (v2 :: r) v
                (2 * String.length
                       (String.concat ", " (map scalar_text (v :: v2 :: r)) ++ ")")
                 + 2)
                EmptyString Hl) as (comma & E).
    { pose proof (concat_length_ge (map scalar_text (v :: v2 :: r))) as L.
      rewrite length_app. rewrite length_map in L.
      cbn [String.length List.length] in *. lia. }
    cbn [append] in E.
    rewrite (parse_top_paren _ (map scalar_ast (v :: v2 :: r)) comma E).
    destruct comma; reflexivity.
Qed.

(** C6 (as amended).  A tuple of plain scalars that have a literal
    ([None], booleans, native integers, strings, zeros and finite floats
    whose text is a float literal reading back as the value) is encoded
    as [__tuple__(...)] around its printed form, and decoding the
    encoding returns the equal tuple, as a tuple. *)
Theorem scalar_tuple_round_trip (l : list PyVal)
  (Hl : Forall literal_scalar l) :
  ModuleMultiTypeEncoder.encode (PTuple l)
    = (Return (JString ("__tuple__(" ++ tuple_text (map scalar_text l) ++ ")")),
       [])
  /\ bind (ModuleMultiTypeEncoder.encode (PTuple l))
          ModuleMultiTypeDecoder.decode
     = (Return (PTuple l), []).
Proof.
  assert (E : ModuleMultiTypeEncoder.encode (PTuple l)
              = ret (JString ("__tuple__("
                              ++ tuple_text (map scalar_text l) ++ ")"))).
  { apply encode_leaf_string; [reflexivity|].
    unfold ModuleMultiTypeEncoder._encode, MultiTypeEncoder._encode,
      format_tuple.
    rewrite (reprs_scalars l Hl). reflexivity. }
  split; [exact E|].
  rewrite E, bind_ret_l, decode_string, decode_tuple_tag.
  unfold literal_eval.
  rewrite (parse_top_scalars l Hl), (convert_scalars l Hl).
  reflexivity.
Qed.
End TupleClaim.

(* ===================================================================== *)
(** ** The claims on concrete inputs                                      *)
(* ===================================================================== *)

(** [np.int64(5)] comes back as the native [5]; [np.float32(2.5)] as the
    native [2.5]. *)
Lemma fixed_width_scalar_example :
  float_of_text (H := ExampleHost.host)
    (float_repr (H := ExampleHost.host) (FFinite false 5 (-1)))
    = Return (FFinite false 5 (-1))
  /\ ((bind (ModuleMultiTypeEncoder.encode (H := ExampleHost.host)
               (NpInteger Int64 5))
            (ModuleMultiTypeDecoder.decode (H := ExampleHost.host))
       = (Return (PInt 5), [])
       /\ key_eqb (PInt 5) (NpInteger Int64 5) = true
       /\ PInt 5 <> NpInteger Int64 5)
      /\ (bind (ModuleMultiTypeEncoder.encode (H := ExampleHost.host)
                  (NpFloating Float32 (FFinite false 5 (-1))))
               (ModuleMultiTypeDecoder.decode (H := ExampleHost.host))
          = (Return (PFloat (FFinite false 5 (-1))), [])
          /\ as_number (PFloat (FFinite false 5 (-1)))
             = as_number (NpFloating Float32 (FFinite false 5 (-1)))
          /\ PFloat (FFinite false 5 (-1))
             <> NpFloating Float32 (FFinite false 5 (-1)))).
Proof.
  split; [reflexivity|].
  apply (fixed_width_scalar_decodes_native (H := ExampleHost.host)
           Int64 5 Float32 (FFinite false 5 (-1))).
  reflexivity.
Defined.

(** The decoded [np.int64(5)] is not an [np.int64]. *)
Lemma fixed_width_kind_is_lost :
  bind (ModuleMultiTypeEncoder.encode (H := ExampleHost.host)
          (NpInteger Int64 5))
       (ModuleMultiTypeDecoder.decode (H := ExampleHost.host))
    = (Return (PInt 5), [])
  /\ ~ (exists w,
         bind (ModuleMultiTypeEncoder.encode (H := ExampleHost.host)
                 (NpInteger Int64 5))
              (ModuleMultiTypeDecoder.decode (H := ExampleHost.host))
         = (Return (NpInteger Int64 5), w)).
Proof.
  split; [reflexivity|].
  intros (w & E). vm_compute in E. discriminate E.
Qed.

(** The document [["__int__(abc)", 1]]: one bad leaf, and the whole
    decode raises [ValueError]. *)
Lemma malformed_leaf_example :
  (json_loads (H := ExampleHost.host)
     (JArray [JString "__int__(abc)"; JNumber "1"])
   = Return (PList [PStr "__int__(abc)"; PInt 1])
   /\ occurs_in (PStr "__int__(abc)") (PList [PStr "__int__(abc)"; PInt 1])
   /\ is_leaf (PStr "__int__(abc)") = true
   /\ raises (ModuleMultiTypeDecoder._decode (H := ExampleHost.host)
                (PStr "__int__(abc)")))
  /\ (raises (ModuleMultiTypeDecoder.decode (H := ExampleHost.host)
                (JArray [JString "__int__(abc)"; JNumber "1"]))
      /\ ~ exists r w,
           ModuleMultiTypeDecoder.decode (H := ExampleHost.host)
             (JArray [JString "__int__(abc)"; JNumber "1"]) = (Return r, w)).
Proof.
  assert (Hocc : occurs_in (PStr "__int__(abc)")
                   (PList [PStr "__int__(abc)"; PInt 1])).
  { apply (occurs_item _ _ (PStr "__int__(abc)")).
    - simpl. left. reflexivity.
    - apply occurs_here. }
  assert (Hbad : raises (ModuleMultiTypeDecoder._decode (H := ExampleHost.host)
                           (PStr "__int__(abc)"))).
  { exists ValueError, []. reflexivity. }
  split.
  - repeat split; [exact Hocc | exact Hbad].
  - apply (malformed_leaf_aborts_decode (H := ExampleHost.host)
             (JArray [JString "__int__(abc)"; JNumber "1"])
             (PList [PStr "__int__(abc)"; PInt 1])
             (PStr "__int__(abc)"));
      [reflexivity | exact Hocc | reflexivity | exact Hbad].
Defined.

(** The second item of [["__int__(abc)", 1]] is fine, and yet no value
    is returned for the structure. *)
Lemma malformed_leaf_is_not_contained :
  ModuleMultiTypeDecoder.decode (H := ExampleHost.host)
    (JArray [JString "__int__(abc)"; JNumber "1"]) = (Raise ValueError, [])
  /\ ModuleMultiTypeDecoder.decode (H := ExampleHost.host)
       (JArray [JNumber "1"]) = (Return (PList [PInt 1]), [])
  /\ ~ (exists r w,
         ModuleMultiTypeDecoder.decode (H := ExampleHost.host)
           (JArray [JString "__int__(abc)"; JNumber "1"]) = (Return r, w)).
Proof.
  split; [reflexivity|]. split; [reflexivity|].
  intros (r & w & E). vm_compute in E. discriminate E.
Qed.

(** A failed import ([__type__(nonexistent.module.Thing)]), a failed
    attribute lookup in a module that is found
    ([__function__(json.nothing)]), a dotted path taken for a module
    ([__module__(json.dumps)]) and a path without a dot
    ([__type__(os)], whose module part is empty). *)
Lemma unresolvable_reference_example :
  (unresolvable (H := ExampleHost.host) TypeTag "nonexistent.module.Thing"
   /\ ModuleMultiTypeDecoder.decode (H := ExampleHost.host)
        (JString "__type__(nonexistent.module.Thing)")
      = (Return (PStr "nonexistent.module.Thing"),
         ["Could not load nonexistent.module.Thing"]))
  /\ ((import_module (Host := ExampleHost.host) "json"
       = Some (PModule "json")
       /\ unresolvable (H := ExampleHost.host) FunctionTag "json.nothing")
      /\ ModuleMultiTypeDecoder.decode (H := ExampleHost.host)
           (JString "__function__(json.nothing)")
         = (Return (PStr "json.nothing"), ["Could not load json.nothing"]))
  /\ (unresolvable (H := ExampleHost.host) ModuleTag "json.dumps"
      /\ ModuleMultiTypeDecoder.decode (H := ExampleHost.host)
           (JString "__module__(json.dumps)")
         = (Return (PStr "json.dumps"), ["Could not load json.dumps"]))
  /\ (unresolvable (H := ExampleHost.host) TypeTag "os"
      /\ ModuleMultiTypeDecoder.decode (H := ExampleHost.host)
           (JString "__type__(os)")
         = (Return (PStr "os"), ["Could not load os"])).
Proof.
  assert (H1 : unresolvable (H := ExampleHost.host) TypeTag
                 "nonexistent.module.Thing") by exact I.
  assert (H2 : unresolvable (H := ExampleHost.host) FunctionTag
                 "json.nothing") by reflexivity.
  assert (H3 : unresolvable (H := ExampleHost.host) ModuleTag "json.dumps")
    by reflexivity.
  assert (H4 : unresolvable (H := ExampleHost.host) TypeTag "os")
    by exact I.
  split; [split; [exact H1|]|split; [split; [split; [reflexivity|exact H2]|]|
    split; [split; [exact H3|]|split; [exact H4|]]]].
  - exact (unresolvable_reference_degrades (H := ExampleHost.host)
             TypeTag "nonexistent.module.Thing" H1).
  - exact (unresolvable_reference_degrades (H := ExampleHost.host)
             FunctionTag "json.nothing" H2).
  - exact (unresolvable_reference_degrades (H := ExampleHost.host)
             ModuleTag "json.dumps" H3).
  - exact (unresolvable_reference_degrades (H := ExampleHost.host)
             TypeTag "os" H4).
Defined.


(** Two arrays of shape (2,2): [[1, 2], [3, 4]] and
    [[2.5, 0.125], [0.0, -0.5]]. *)
Lemma buffer_2x2_example :
  (reads_back (H := ExampleHost.host) (FFinite false 5 (-1))
   /\ reads_back (H := ExampleHost.host) (FFinite false 1 (-3))
   /\ reads_back (H := ExampleHost.host) (FZero false)
   /\ reads_back (H := ExampleHost.host) (FFinite true 1 (-1)))
  /\ bind (ModuleMultiTypeEncoder.encode (H := ExampleHost.host)
             (NdArray [2; 2] (FloatBuffer Float32
                [FFinite false 5 (-1); FFinite false 1 (-3);
                 FZero false; FFinite true 1 (-1)])))
          (ModuleMultiTypeDecoder.decode (H := ExampleHost.host))
     = (Return (nested_2x2 (PFloat (FFinite false 5 (-1)))
                           (PFloat (FFinite false 1 (-3)))
                           (PFloat (FZero false))
                           (PFloat (FFinite true 1 (-1)))), []).
Proof.
  split; [repeat split|].
  apply (buffer_2x2_becomes_nested_lists (H := ExampleHost.host)
           Int64 1 2 3 4 Float32
           (FFinite false 5 (-1)) (FFinite false 1 (-3))
           (FZero false) (FFinite true 1 (-1))); reflexivity.
Defined.

(** The tuple [(1, -2, "a'b", None, True, -2.5)]. *)
Lemma scalar_tuple_example :
  Forall (literal_scalar (H := ExampleHost.host))
    [PInt 1; PInt (-2); PStr "a'b"; PNone; PBool true;
     PFloat (FFinite true 5 (-1))]
  /\ (ModuleMultiTypeEncoder.encode (H := ExampleHost.host)
        (PTuple [PInt 1; PInt (-2); PStr "a'b"; PNone; PBool true;
                 PFloat (FFinite true 5 (-1))])
      = (Return (JString
                   ("__tuple__("
                    ++ tuple_text
                         (map (scalar_text (H := ExampleHost.host))
                              [PInt 1; PInt (-2); PStr "a'b"; PNone;
                               PBool true; PFloat (FFinite true 5 (-1))])
                    ++ ")")), [])
      /\ bind (ModuleMultiTypeEncoder.encode (H := ExampleHost.host)
                 (PTuple [PInt 1; PInt (-2); PStr "a'b"; PNone; PBool true;
                          PFloat (FFinite true 5 (-1))]))
              (ModuleMultiTypeDecoder.decode (H := ExampleHost.host))
         = (Return (PTuple [PInt 1; PInt (-2); PStr "a'b"; PNone; PBool true;
                            PFloat (FFinite true 5 (-1))]), [])).
Proof.
  assert (Hl : Forall (literal_scalar (H := ExampleHost.host))
                 [PInt 1; PInt (-2); PStr "a'b"; PNone; PBool true;
                  PFloat (FFinite true 5 (-1))]).
  { repeat constructor. }
  split; [exact Hl|].
  exact (scalar_tuple_round_trip (H := ExampleHost.host) _ Hl).
Defined.

(** The tuple [(inf,)] is written as [__tuple__((inf,))], and [inf] is a
    name, not a literal: decoding raises [ValueError]. *)
Lemma tuple_with_infinity_fails :
  ModuleMultiTypeEncoder.encode (H := ExampleHost.host)
    (PTuple [PFloat (FInf false)])
    = (Return (JString "__tuple__((inf,))"), [])
  /\ bind (ModuleMultiTypeEncoder.encode (H := ExampleHost.host)
             (PTuple [PFloat (FInf false)]))
          (ModuleMultiTypeDecoder.decode (H := ExampleHost.host))
     = (Raise ValueError, [])
  /\ ~ (exists r w,
          bind (ModuleMultiTypeEncoder.encode (H := ExampleHost.host)
                  (PTuple [PFloat (FInf false)]))
               (ModuleMultiTypeDecoder.decode (H := ExampleHost.host))
          = (Return r, w)).
Proof.
  split; [reflexivity|]. split; [reflexivity|].
  intros (r & w & E). vm_compute in E. discriminate E.
Qed.

(** The mapping [{5: "a", 2.5: "b"}]. *)
Lemma numeric_keys_example :
  (Forall (fun kv => numeric_key (fst kv) = true
                     /\ key_reads_back (H := ExampleHost.host) (fst kv))
     [(PInt 5, PStr "a"); (PFloat (FFinite false 5 (-1)), PStr "b")]
   /\ Forall (fun kv => plain_leaf (snd kv) = true)
        [(PInt 5, PStr "a"); (PFloat (FFinite false 5 (-1)), PStr "b")]
   /\ distinct_keys
        [(PInt 5, PStr "a"); (PFloat (FFinite false 5 (-1)), PStr "b")] = true)
  /\ (ModuleMultiTypeEncoder._encode_switch (H := ExampleHost.host)
        (PDict [(PInt 5, PStr "a"); (PFloat (FFinite false 5 (-1)), PStr "b")])
      = (Return (PDict [(PStr "__int__(5)", PStr "a");
                        (PStr "__float__(2.5)", PStr "b")]), [])
      /\ bind (ModuleMultiTypeEncoder.encode (H := ExampleHost.host)
                 (PDict [(PInt 5, PStr "a");
                         (PFloat (FFinite false 5 (-1)), PStr "b")]))
              (ModuleMultiTypeDecoder.decode (H := ExampleHost.host))
         = (Return (PDict [(PInt 5, PStr "a");
                           (PFloat (FFinite false 5 (-1)), PStr "b")]), [])).
Proof.
  assert (Hk : Forall (fun kv => numeric_key (fst kv) = true
                         /\ key_reads_back (H := ExampleHost.host) (fst kv))
                 [(PInt 5, PStr "a"); (PFloat (FFinite false 5 (-1)), PStr "b")]).
  { repeat constructor. }
  assert (Hv : Forall (fun kv => plain_leaf (snd kv) = true)
                 [(PInt 5, PStr "a"); (PFloat (FFinite false 5 (-1)), PStr "b")]).
  { repeat constructor. }
  split; [repeat split; assumption|].
  exact (numeric_keys_round_trip (H := ExampleHost.host) _ Hk Hv eq_refl).
Defined.

(** The mapping [{True: "a"}]. *)
Lemma bool_key_example :
  (plain_leaf (PStr "a") = true
   /\ In (PBool true, PStr "a") [(PBool true, PStr "a")]
   /\ ModuleMultiTypeEncoder.encode (H := ExampleHost.host)
        (PDict [(PBool true, PStr "a")])
      = (Return (JObject [("__int__(True)", JString "a")]), []))
  /\ (ModuleMultiTypeEncoder._encode_key (H := ExampleHost.host) (PBool true)
      = (Return (PStr ("__int__(" ++ bool_text true ++ ")")), [])
      /\ (exists j,
            ModuleMultiTypeEncoder.encode (H := ExampleHost.host)
              (PDict [(PBool true, PStr "a")])
            = (Return (JObject [("__int__(" ++ bool_text true ++ ")", j)]), []))
      /\ ModuleMultiTypeDecoder._decode_key (H := ExampleHost.host)
           (PStr ("__int__(" ++ bool_text true ++ ")"))
         = (Raise ValueError, [])
      /\ raises (ModuleMultiTypeDecoder.decode (H := ExampleHost.host)
                   (JObject [("__int__(True)", JString "a")]))).
Proof.
  split; [repeat split; simpl; auto|].
  apply (bool_key_encodes_but_does_not_decode (H := ExampleHost.host)
           true (PStr "a") (PStr "a") [(PBool true, PStr "a")]
           (JObject [("__int__(True)", JString "a")]) []);
    [reflexivity | simpl; auto | reflexivity].
Defined.

(* ===================================================================== *)
(** ** Further properties of the codec                                    *)
(* ===================================================================== *)

Lemma slice_between (p s : string) (c : ascii) :
  slice_to_last (String.length p) (p ++ s ++ String c EmptyString) = s.
Proof.
  unfold slice_to_last.
  rewrite drop_app, !length_app. cbn [String.length].
  replace (String.length p + (String.length s + 1) - 1 - String.length p)
    with (String.length s) by lia.
  apply take_app.
Qed.

Section CodecProperties.
Context {H : Host}.

(** A string value that happens to look like an integer tag does not
    survive: it is written as it is and read back as the integer. *)
Theorem tagged_looking_string_becomes_int (z : Z) :
  bind (ModuleMultiTypeEncoder.encode (PStr ("__int__(" ++ str_int z ++ ")")))
       ModuleMultiTypeDecoder.decode
  = (Return (PInt z), []).
Proof.
  rewrite (encode_leaf_string _ ("__int__(" ++ str_int z ++ ")"))
    by reflexivity.
  rewrite bind_ret_l, decode_string, decode_int_tag.
  now rewrite int_of_text_str_int.
Qed.

(** The decoder tests the prefix [__int__] only and cuts the payload by
    position: whatever character stands in place of each parenthesis,
    the digits between them are read. *)
Theorem int_tag_parentheses_unchecked (c1 c2 : ascii) (z : Z) :
  ModuleMultiTypeDecoder.decode
    (JString ("__int__" ++ String c1 (str_int z ++ String c2 EmptyString)))
  = (Return (PInt z), []).
Proof.
  rewrite decode_string.
  assert (E : slice_to_last 8
                ("__int__" ++ String c1 (str_int z ++ String c2 EmptyString))
              = str_int z)
    by exact (slice_between ("__int__" ++ String c1 EmptyString)
                            (str_int z) c2).
  unfold ModuleMultiTypeDecoder._decode, MultiTypeDecoder._decode.
  rewrite E.
  change (bind (lift (int_of_text (str_int z))) (fun z0 => ret (PInt z0))
          = (Return (PInt z), [])).
  now rewrite int_of_text_str_int, bind_lift_return.
Qed.

(** Key collisions are not detected: an integer key and a string key
    that spells its tag are written under one name, the later value
    wins, and the decoded mapping has the integer key only. *)
Theorem colliding_keys_are_merged (z : Z) (v1 v2 : PyVal)
  (H1 : plain_leaf v1 = true) (H2 : plain_leaf v2 = true) :
  ModuleMultiTypeEncoder._encode_switch
    (PDict [(PInt z, v1); (PStr ("__int__(" ++ str_int z ++ ")"), v2)])
  = (Return (PDict [(PStr ("__int__(" ++ str_int z ++ ")"), v2)]), [])
  /\ bind (ModuleMultiTypeEncoder.encode
             (PDict [(PInt z, v1); (PStr ("__int__(" ++ str_int z ++ ")"), v2)]))
          ModuleMultiTypeDecoder.decode
     = (Return (PDict [(PInt z, v2)]), []).
Proof.
  assert (E : ModuleMultiTypeEncoder._encode_switch
                (PDict [(PInt z, v1);
                        (PStr ("__int__(" ++ str_int z ++ ")"), v2)])
              = ret (PDict (map tag_entry [(PInt z, v2)]))).
  { unfold ModuleMultiTypeEncoder._encode_switch.
    rewrite encode_switch_dict. cbn [walk_entries].
    change (self_encode_key ModuleMultiTypeEncoder.self (PInt z))
      with (ret (PStr ("__int__(" ++ str_int z ++ ")"))).
    change (self_encode_key ModuleMultiTypeEncoder.self
              (PStr ("__int__(" ++ str_int z ++ ")")))
      with (ret (PStr ("__int__(" ++ str_int z ++ ")"))).
    rewrite !bind_ret_l, (encode_plain_leaf v1 H1), bind_ret_l.
    unfold dict_set. cbn [hashable dict_put]. rewrite bind_lift_return.
    rewrite bind_ret_l, (encode_plain_leaf v2 H2), bind_ret_l.
    cbn [hashable dict_put].
    change (key_eqb (PStr ("__int__(" ++ str_int z ++ ")"))
                    (PStr ("__int__(" ++ str_int z ++ ")")))
      with (String.eqb ("__int__(" ++ str_int z ++ ")")
                       ("__int__(" ++ str_int z ++ ")")).
    rewrite String.eqb_refl, bind_lift_return, bind_ret_l. reflexivity. }
  split; [exact E|].
  assert (Hv : Forall (fun kv : PyVal * PyVal => plain_leaf (snd kv) = true)
                 [(PInt z, v2)]) by (repeat constructor; exact H2).
  unfold ModuleMultiTypeEncoder.encode, CustomJSONEncoder.encode.
  change (CustomJSONEncoder._encode_switch ModuleMultiTypeEncoder.self
            (PDict [(PInt z, v1); (PStr ("__int__(" ++ str_int z ++ ")"), v2)]))
    with (ModuleMultiTypeEncoder._encode_switch
            (PDict [(PInt z, v1); (PStr ("__int__(" ++ str_int z ++ ")"), v2)])).
  rewrite E, bind_ret_l, (json_dumps_tagged _ Hv), bind_lift_return.
  unfold ModuleMultiTypeDecoder.decode, CustomJSONDecoder.decode.
  rewrite (json_loads_tagged _ Hv eq_refl), bind_lift_return.
  rewrite decode_switch_dict.
  rewrite (walk_entries_exact _ _ (map tag_entry [(PInt z, v2)]) [(PInt z, v2)]);
    [reflexivity | | reflexivity].
  repeat constructor; cbn [fst snd tag_entry map].
  - now apply decode_key_tag.
  - now apply decode_plain_leaf.
Qed.

(** A function the runtime finds under its module and name goes to
    [__function__(module.name)] and back; a module the runtime imports
    under its name goes to [__module__(name)] and back. *)
Theorem function_and_module_round_trip
  (module_ name_ mname : string) (m : PyVal)
  (Hname : contains_char "."%char name_ = false)
  (Himport : import_module module_ = Some m)
  (Hattr : getattr m name_ = Some (PFunction module_ name_))
  (Hmod : import_module mname = Some (PModule mname)) :
  bind (ModuleMultiTypeEncoder.encode (PFunction module_ name_))
       ModuleMultiTypeDecoder.decode
    = (Return (PFunction module_ name_), [])
  /\ bind (ModuleMultiTypeEncoder.encode (PModule mname))
          ModuleMultiTypeDecoder.decode
     = (Return (PModule mname), []).
Proof.
  split.
  - rewrite (encode_leaf_string _
               ("__function__(" ++ (module_ ++ "." ++ name_) ++ ")"))
      by (try reflexivity; cbn [ModuleMultiTypeEncoder._encode];
          now rewrite !app_assoc_s).
    rewrite bind_ret_l, decode_string, decode_function_tag.
    destruct (dotted_path_parts module_ name_ Hname) as [-> ->].
    unfold ModuleMultiTypeDecoder.load_attribute.
    now rewrite Himport, Hattr.
  - rewrite (encode_leaf_string _ ("__module__(" ++ mname ++ ")"))
      by reflexivity.
    rewrite bind_ret_l, decode_string, decode_module_tag.
    now rewrite Hmod.
Qed.

(** When the [repr] of a tuple raises, strict mode re-raises without a
    warning; default mode warns and then raises all the same, because
    the fallback calls [repr(obj)] again. *)
Theorem tuple_repr_failure (l : list PyVal) (e : pyexc)
  (Hrepr : py_repr (PTuple l) = Raise e) :
  ModuleMultiTypeEncoder._encode (PTuple l) true = (Raise e, [])
  /\ ModuleMultiTypeEncoder._encode (PTuple l) false
     = (Raise e,
        ["Could not pickle object of type <class 'tuple'>"
         ++ newline ++ format_exc e]).
Proof.
  unfold ModuleMultiTypeEncoder._encode, MultiTypeEncoder._encode,
    format_tuple.
  rewrite Hrepr. split; reflexivity.
Qed.

(** The one input for which the fallback of the leaf encoder does what
    it was written for: an instance of a tuple subclass whose formatting
    (its [str], unless the class formats itself) raises while its [repr]
    returns.  Strict mode re-raises; default
    mode warns and hands back the [repr] text, which [encode] then
    writes as a plain string. *)
Theorem fallback_on_tuple_subclass
  (cls : string) (oid : nat) (l : list PyVal) (e : pyexc) (s : string)
  (Hstr : runtime_format (PTupleSub cls oid l) = Raise e)
  (Hrepr : runtime_repr (PTupleSub cls oid l) = Return s) :
  ModuleMultiTypeEncoder._encode (PTupleSub cls oid l) true = (Raise e, [])
  /\ ModuleMultiTypeEncoder._encode (PTupleSub cls oid l) false
     = (Return (PStr s),
        ["Could not pickle object of type <class '" ++ cls ++ "'>"
         ++ newline ++ format_exc e])
  /\ ModuleMultiTypeEncoder.encode (PTupleSub cls oid l)
     = (Return (JString s),
        ["Could not pickle object of type <class '" ++ cls ++ "'>"
         ++ newline ++ format_exc e]).
Proof.
  assert (E : forall strict,
            ModuleMultiTypeEncoder._encode (PTupleSub cls oid l) strict
            = if strict then (Raise e, [])
              else (Return (PStr s),
                    ["Could not pickle object of type <class '" ++ cls ++ "'>"
                     ++ newline ++ format_exc e])).
  { intros strict.
    assert (W : "Could not pickle object of type "
                ++ class_repr (PTupleSub cls oid l) ++ newline ++ format_exc e
                = "Could not pickle object of type <class '" ++ cls ++ "'>"
                  ++ newline ++ format_exc e).
    { cbn [class_repr append]. now rewrite !app_assoc_s. }
    unfold ModuleMultiTypeEncoder._encode, MultiTypeEncoder._encode.
    rewrite Hstr. cbn [py_repr]. rewrite Hrepr.
    destruct strict; [reflexivity|].
    unfold try_except, lift, bind, warn, ret.
    cbn [List.app]. now rewrite W. }
  split; [exact (E true)|]. split; [exact (E false)|].
  unfold ModuleMultiTypeEncoder.encode, CustomJSONEncoder.encode.
  cbn [CustomJSONEncoder._encode_switch ModuleMultiTypeEncoder.self
       self_encode].
  rewrite (E false). reflexivity.
Qed.

(** The round trip of a type gives back whatever object the runtime
    holds under the module and the name of the type: when another class
    stands there, that other class is returned. *)
Theorem type_round_trip_follows_registry
  (module_ name_ : string) (oid : nat) (m t : PyVal)
  (Hname : contains_char "."%char name_ = false)
  (Himport : import_module module_ = Some m)
  (Hattr : getattr m name_ = Some t) :
  bind (ModuleMultiTypeEncoder.encode (PType module_ name_ oid))
       ModuleMultiTypeDecoder.decode
  = (Return t, []).
Proof.
  rewrite (encode_leaf_string _
             ("__type__(" ++ (module_ ++ "." ++ name_) ++ ")"))
    by (try reflexivity; cbn [ModuleMultiTypeEncoder._encode];
        now rewrite !app_assoc_s).
  rewrite bind_ret_l, decode_string, decode_type_tag.
  destruct (dotted_path_parts module_ name_ Hname) as [-> ->].
  unfold ModuleMultiTypeDecoder.load_attribute.
  now rewrite Himport, Hattr.
Qed.
End CodecProperties.

(* ===================================================================== *)
(** ** Plain data and the walkers                                         *)
(* ===================================================================== *)

(** Induction on values, with the items of a list as smaller values. *)
Lemma PyVal_list_ind (P : PyVal -> Prop) :
  (forall v, is_leaf v = true -> P v) ->
  (forall l, Forall P l -> P (PList l)) ->
  (forall d, P (PDict d)) ->
  forall v, P v.
Proof.
  intros Hleaf Hlist Hdict.
  fix IH 1. intros v.
  destruct v as [| b | z | f | s | l | l | c i l | d | k z | k f | sh buf
                 | m n i | t | m n | n | c i];
    try (apply Hleaf; reflexivity); [|apply Hdict].
  apply Hlist. induction l as [|x r IHr]; constructor; [apply IH | exact IHr].
Qed.

Lemma plain_tree_leaf (v : PyVal) :
  is_leaf v = true -> plain_tree v = plain_leaf v.
Proof. destruct v; try discriminate; reflexivity. Qed.

Section PlainData.
Context {H : Host}.

(** The four passes leave plain data as it is. *)
Lemma plain_tree_passes (v : PyVal) :
  plain_tree v = true ->
  CustomJSONEncoder._encode_switch ModuleMultiTypeEncoder.self v = ret v
  /\ json_dumps v = Return (doc_of v)
  /\ json_loads (doc_of v) = Return v
  /\ CustomJSONDecoder._decode_switch ModuleMultiTypeDecoder.self v = ret v.
Proof.
  induction v as [v Hleaf | l IH | d] using PyVal_list_ind.
  - rewrite (plain_tree_leaf v Hleaf). intros Hp.
    assert (Hd : doc_of v = json_leaf v) by (destruct v; try discriminate; reflexivity).
    rewrite Hd. repeat split.
    + now apply encode_plain_leaf.
    + now apply json_dumps_plain_leaf.
    + now apply json_loads_plain_leaf.
    + now apply decode_plain_leaf.
  - cbn [plain_tree]. intros Hp.
    assert (Hall : Forall (fun x =>
              CustomJSONEncoder._encode_switch ModuleMultiTypeEncoder.self x = ret x
              /\ json_dumps x = Return (doc_of x)
              /\ json_loads (doc_of x) = Return x
              /\ CustomJSONDecoder._decode_switch ModuleMultiTypeDecoder.self x
                 = ret x) l).
    { clear -IH Hp. induction IH as [|x r Hx _ IHr]; [constructor|].
      cbn [forallb] in Hp. apply andb_prop in Hp as [Hx' Hr'].
      constructor; auto. }
    clear IH Hp. repeat split.
    + cbn [CustomJSONEncoder._encode_switch].
      match goal with
      | |- bind ?m _ = _ => assert (E : m = ret l)
      end.
      { induction Hall as [|x r (Hx & _) _ IHr]; [reflexivity|].
        rewrite Hx, bind_ret_l, IHr, bind_ret_l. reflexivity. }
      now rewrite E, bind_ret_l.
    + cbn [json_dumps doc_of].
      match goal with
      | |- obind ?m _ = _ => assert (E : m = Return (map doc_of l))
      end.
      { induction Hall as [|x r (_ & Hx & _) _ IHr]; [reflexivity|].
        rewrite Hx. cbn [obind]. rewrite IHr. reflexivity. }
      now rewrite E.
    + cbn [json_loads doc_of].
      match goal with
      | |- obind ?m _ = _ => assert (E : m = Return l)
      end.
      { induction Hall as [|x r (_ & _ & Hx & _) _ IHr]; [reflexivity|].
        cbn [map]. rewrite Hx. cbn [obind]. rewrite IHr. reflexivity. }
      now rewrite E.
    + cbn [CustomJSONDecoder._decode_switch].
      match goal with
      | |- bind ?m _ = _ => assert (E : m = ret l)
      end.
      { induction Hall as [|x r (_ & _ & _ & Hx) _ IHr]; [reflexivity|].
        rewrite Hx, bind_ret_l, IHr, bind_ret_l. reflexivity. }
      now rewrite E, bind_ret_l.
  - discriminate.
Qed.

Lemma plain_tree_codec (v : PyVal) :
  plain_tree v = true ->
  ModuleMultiTypeEncoder.encode v = ret (doc_of v)
  /\ ModuleMultiTypeDecoder.decode (doc_of v) = ret v.
Proof.
  intros Hp. destruct (plain_tree_passes v Hp) as (Ea & Eb & Ec & Ed). split.
  - unfold ModuleMultiTypeEncoder.encode, CustomJSONEncoder.encode.
    now rewrite Ea, bind_ret_l, Eb.
  - unfold ModuleMultiTypeDecoder.decode, CustomJSONDecoder.decode.
    now rewrite Ec, bind_lift_return.
Qed.

(** Data the format holds as it is (nested lists of [None], booleans,
    native integers and untagged strings) is written untouched, without
    a warning, and decoding gives it back. *)
Theorem plain_data_round_trip (v : PyVal) (Hp : plain_tree v = true) :
  ModuleMultiTypeEncoder._encode_switch v = (Return v, [])
  /\ bind (ModuleMultiTypeEncoder.encode v) ModuleMultiTypeDecoder.decode
     = (Return v, []).
Proof.
  split.
  - exact (proj1 (plain_tree_passes v Hp)).
  - destruct (plain_tree_codec v Hp) as [-> E]. now rewrite bind_ret_l.
Qed.

(** The walker keeps the shape of a list, whatever the leaf codec: when
    it returns, the result is a list with one item per item, each the
    encoding of the item at its place. *)
Theorem encode_switch_keeps_list_shape
  (self : Encoder) (l : list PyVal) (v : PyVal) (w : list string)
  (Hret : CustomJSONEncoder._encode_switch self (PList l) = (Return v, w)) :
  exists l', v = PList l'
    /\ List.length l' = List.length l
    /\ Forall2 (fun x y => exists w',
                  CustomJSONEncoder._encode_switch self x = (Return y, w'))
               l l'.
Proof.
  cbn [CustomJSONEncoder._encode_switch] in Hret.
  apply bind_returns in Hret as (l' & w1 & w2 & E & Eret & _).
  injection Eret as <- _. exists l'.
  assert (F : Forall2 (fun x y => exists w',
                CustomJSONEncoder._encode_switch self x = (Return y, w')) l l').
  { clear w. revert l' w1 E. induction l as [|x r IH]; intros l' w1 E.
    - injection E as <- _. constructor.
    - apply bind_returns in E as (y & wa & wb & Ey & E & _).
      apply bind_returns in E as (ys & wc & wd & Eys & E & _).
      injection E as <- _. constructor; eauto. }
  split; [reflexivity|]. split; [|exact F].
  symmetry. exact (Forall2_length F).
Qed.

Lemma chunks_singletons {A} (items : list A) :
  chunks (List.length items) 1 items = map (fun x => [x]) items.
Proof. induction items as [|x r IH]; cbn; [reflexivity | now rewrite IH]. Qed.

(** A one-dimensional integer array of any length is written as the
    plain list of its elements as native integers, and decoding gives
    that list, not an array. *)
Theorem int_vector_becomes_list (k : int_kind) (data : list Z) :
  ModuleMultiTypeEncoder._encode_switch
    (NdArray [List.length data] (IntBuffer k data))
  = (Return (PList (map PInt data)), [])
  /\ bind (ModuleMultiTypeEncoder.encode
             (NdArray [List.length data] (IntBuffer k data)))
          ModuleMultiTypeDecoder.decode
     = (Return (PList (map PInt data)), []).
Proof.
  assert (T : tolist [List.length data] (IntBuffer k data)
              = PList (map PInt data)).
  { unfold tolist. cbn [buffer_items nest fold_right].
    rewrite <- (length_map PInt data), chunks_singletons, map_map.
    cbn [nest hd]. now rewrite map_id. }
  assert (Hp : plain_tree (PList (map PInt data)) = true).
  { cbn [plain_tree]. clear T. induction data as [|a r IHr]; [reflexivity|].
    exact IHr. }
  destruct (plain_tree_passes _ Hp) as (_ & Eb & Ec & Ed).
  assert (E : ModuleMultiTypeEncoder._encode_switch
                (NdArray [List.length data] (IntBuffer k data))
              = ret (PList (map PInt data))).
  { change (ModuleMultiTypeEncoder._encode_switch
              (NdArray [List.length data] (IntBuffer k data)))
      with (ret (tolist [List.length data] (IntBuffer k data))).
    now rewrite T. }
  split; [exact E|].
  unfold ModuleMultiTypeEncoder.encode, CustomJSONEncoder.encode.
  change (CustomJSONEncoder._encode_switch ModuleMultiTypeEncoder.self
            (NdArray [List.length data] (IntBuffer k data)))
    with (ModuleMultiTypeEncoder._encode_switch
            (NdArray [List.length data] (IntBuffer k data))).
  rewrite E, bind_ret_l, Eb, bind_lift_return.
  unfold ModuleMultiTypeDecoder.decode, CustomJSONDecoder.decode.
  now rewrite Ec, bind_lift_return.
Qed.
End PlainData.

(* ===================================================================== *)
(** ** References in lists, tuple keys, keys that decode alike            *)
(* ===================================================================== *)

Lemma int_of_text_leading_space (s : string) :
  int_of_text (String " "%char s) = int_of_text s.
Proof. reflexivity. Qed.

Lemma str_int_no_leading_space (z : Z) (t : string) :
  str_int z ++ t <> String " "%char (str_int z ++ t) .
Proof.
  pose proof (str_int_chars z) as Hc.
  destruct (str_int_shape z) as (d & Hd & _ & E).
  destruct (str_int z) as [|c r].
  - destruct (z <? 0)%Z; cbn [append] in E; [discriminate|].
    destruct d; cbn in E; congruence.
  - cbn [append all_chars] in *. apply andb_prop in Hc as [Hc _].
    intros [= -> _]. discriminate Hc.
Qed.

Lemma scalars_hashable {H : Host} (l : list PyVal) :
  Forall literal_scalar l -> forallb hashable l = true.
Proof.
  induction 1 as [|v r Hv _ IH]; [reflexivity|].
  cbn [forallb]. rewrite IH, andb_true_r.
  destruct v; try contradiction; reflexivity.
Qed.

Section MoreCodec.
Context {H : Host}.

(** Unresolvable references do not stop the decoding of a list: every
    one is replaced by its path, and the warnings come in the order of
    the items. *)
Theorem unresolvable_references_in_list (paths : list string)
  (Hnone : Forall (fun p =>
             ModuleMultiTypeDecoder.load_attribute
               (join_dot (all_but_last (split_dot p)))
               (last (split_dot p) EmptyString) = None) paths) :
  ModuleMultiTypeDecoder.decode
    (JArray (map (fun p => JString ("__type__(" ++ p ++ ")")) paths))
  = (Return (PList (map PStr paths)),
     map (fun p => "Could not load " ++ p) paths).
Proof.
  unfold ModuleMultiTypeDecoder.decode, CustomJSONDecoder.decode.
  cbn [json_loads].
  match goal with
  | |- bind (lift (obind ?m _)) _ = _ =>
      assert (E : m = Return (map (fun p => PStr ("__type__(" ++ p ++ ")"))
                                  paths))
  end.
  { clear Hnone. induction paths as [|p r IH]; [reflexivity|].
    cbn [map json_loads obind]. rewrite IH. reflexivity. }
  rewrite E. cbn [obind]. rewrite bind_lift_return.
  cbn [CustomJSONDecoder._decode_switch].
  match goal with
  | |- bind ?m _ = _ =>
      assert (E' : m = (Return (map PStr paths),
                        map (fun p => "Could not load " ++ p) paths))
  end.
  { clear E. induction Hnone as [|p r Hp _ IH]; [reflexivity|].
    cbn [map].
    change (CustomJSONDecoder._decode_switch ModuleMultiTypeDecoder.self
              (PStr ("__type__(" ++ p ++ ")")))
      with (ModuleMultiTypeDecoder._decode (PStr ("__type__(" ++ p ++ ")"))).
    rewrite decode_type_tag, Hp, IH.
    unfold bind, warn, ret. cbn [app]. now rewrite List.app_nil_r. }
  rewrite E'. unfold bind, ret. now rewrite List.app_nil_r.
Qed.

(** A tuple key is tagged like a tuple value, and a mapping with one
    such key comes back with the tuple as its key. *)
Theorem tuple_key_round_trip (l : list PyVal) (v : PyVal)
  (Hl : Forall literal_scalar l) (Hv : plain_leaf v = true) :
  ModuleMultiTypeEncoder._encode_switch (PDict [(PTuple l, v)])
  = (Return (PDict [(PStr ("__tuple__(" ++ tuple_text (map scalar_text l)
                           ++ ")"), v)]), [])
  /\ bind (ModuleMultiTypeEncoder.encode (PDict [(PTuple l, v)]))
          ModuleMultiTypeDecoder.decode
     = (Return (PDict [(PTuple l, v)]), []).
Proof.
  set (tag := "__tuple__(" ++ tuple_text (map scalar_text l) ++ ")").
  assert (Ek : self_encode_key ModuleMultiTypeEncoder.self (PTuple l)
               = ret (PStr tag)).
  { change (self_encode_key ModuleMultiTypeEncoder.self (PTuple l))
      with (ModuleMultiTypeEncoder._encode (PTuple l) false).
    unfold ModuleMultiTypeEncoder._encode, MultiTypeEncoder._encode,
      format_tuple.
    rewrite (reprs_scalars l Hl). reflexivity. }
  assert (E : ModuleMultiTypeEncoder._encode_switch (PDict [(PTuple l, v)])
              = ret (PDict [(PStr tag, v)])).
  { unfold ModuleMultiTypeEncoder._encode_switch.
    rewrite encode_switch_dict. cbn [walk_entries].
    rewrite Ek, bind_ret_l, (encode_plain_leaf v Hv), bind_ret_l.
    reflexivity. }
  split; [exact E|].
  unfold ModuleMultiTypeEncoder.encode, CustomJSONEncoder.encode.
  change (CustomJSONEncoder._encode_switch ModuleMultiTypeEncoder.self
            (PDict [(PTuple l, v)]))
    with (ModuleMultiTypeEncoder._encode_switch (PDict [(PTuple l, v)])).
  rewrite E, bind_ret_l.
  cbn [json_dumps json_key obind]. rewrite (json_dumps_plain_leaf v Hv).
  cbn [obind]. rewrite bind_lift_return.
  unfold ModuleMultiTypeDecoder.decode, CustomJSONDecoder.decode.
  cbn [json_loads]. rewrite (json_loads_plain_leaf v Hv).
  cbn [obind dict_put]. rewrite bind_lift_return.
  rewrite decode_switch_dict. cbn [walk_entries].
  change (self_decode_key ModuleMultiTypeDecoder.self (PStr tag))
    with (ModuleMultiTypeDecoder._decode (PStr tag)).
  unfold tag. rewrite decode_tuple_tag. unfold literal_eval.
  rewrite (parse_top_scalars l Hl), (convert_scalars l Hl).
  rewrite bind_lift_return.
  change (py_tuple (PTuple l)) with (Return (PTuple l)).
  rewrite bind_lift_return, (decode_plain_leaf v Hv), bind_ret_l.
  unfold dict_set. cbn [hashable]. rewrite (scalars_hashable l Hl).
  reflexivity.
Qed.

(** Two member names that decode to the same integer become one key:
    the first keeps its place, the value of the later one wins. *)
Theorem keys_decoding_alike_are_merged (z : Z) (v1 v2 : PyVal)
  (H1 : plain_leaf v1 = true) (H2 : plain_leaf v2 = true) :
  ModuleMultiTypeDecoder.decode
    (JObject [("__int__(" ++ str_int z ++ ")", json_leaf v1);
              ("__int__( " ++ str_int z ++ ")", json_leaf v2)])
  = (Return (PDict [(PInt z, v2)]), []).
Proof.
  unfold ModuleMultiTypeDecoder.decode, CustomJSONDecoder.decode.
  cbn [json_loads].
  rewrite (json_loads_plain_leaf v1 H1). cbn [obind dict_put].
  rewrite (json_loads_plain_leaf v2 H2). cbn [obind dict_put].
  change (key_eqb (PStr ("__int__(" ++ str_int z ++ ")"))
                  (PStr ("__int__( " ++ str_int z ++ ")")))
    with (String.eqb ("__int__(" ++ str_int z ++ ")")
                     ("__int__( " ++ str_int z ++ ")")).
  replace (String.eqb ("__int__(" ++ str_int z ++ ")")
                      ("__int__( " ++ str_int z ++ ")")) with false.
  2:{ symmetry. apply String.eqb_neq. intros E.
      apply (app_inv_head_s "__int__(") in E.
      exact (str_int_no_leading_space z ")" E). }
  rewrite bind_lift_return, decode_switch_dict. cbn [walk_entries].
  change (self_decode_key ModuleMultiTypeDecoder.self
            (PStr ("__int__(" ++ str_int z ++ ")")))
    with (ModuleMultiTypeDecoder._decode
            (PStr ("__int__(" ++ str_int z ++ ")"))).
  change (self_decode_key ModuleMultiTypeDecoder.self
            (PStr ("__int__( " ++ str_int z ++ ")")))
    with (ModuleMultiTypeDecoder._decode
            (PStr ("__int__(" ++ String " "%char (str_int z) ++ ")"))).
  rewrite !decode_int_tag, int_of_text_leading_space, int_of_text_str_int.
  rewrite !bind_lift_return, (decode_plain_leaf v1 H1), !bind_ret_l.
  unfold dict_set. cbn [hashable dict_put]. rewrite bind_lift_return.
  rewrite bind_ret_l, (decode_plain_leaf v2 H2), bind_ret_l.
  cbn [hashable dict_put].
  change (key_eqb (PInt z) (PInt z)) with (Z.eqb z z).
  rewrite Z.eqb_refl, bind_lift_return. reflexivity.
Qed.
End MoreCodec.

(* ===================================================================== *)
(** ** The handler: frequency tables and throttling                       *)
(* ===================================================================== *)

Lemma chars_length (s : string) : List.length (chars s) = String.length s.
Proof. induction s as [|c r IH]; cbn; [reflexivity | now rewrite IH]. Qed.

Lemma combine_keys {A B} (a : list A) (b : list B) :
  List.length a <= List.length b -> map fst (combine a b) = a.
Proof.
  revert b. induction a as [|x a IH]; intros [|y b] L; cbn in *;
    try reflexivity; try lia.
  now rewrite IH by lia.
Qed.

Lemma combine_keys_prefix {A B} (a : list A) (b : list B) :
  map fst (combine a b) = firstn (List.length (combine a b)) a.
Proof.
  revert b. induction a as [|x a IH]; intros [|y b]; cbn;
    try reflexivity.
  now rewrite IH.
Qed.

Lemma arg_iter_length (a : TensorboardXHandler.FreqArg) (n : nat) :
  native_arg a = true ->
  TensorboardXHandler.is_Iterable a = true ->
  TensorboardXHandler.arg_len a = Return n ->
  List.length (TensorboardXHandler.arg_iter a) = n.
Proof.
  destruct a; try discriminate; intros _ _ E; cbn in *;
    injection E as <-; auto using chars_length, length_map.
Qed.

(** The iterable branch on an argument a list cannot be added to. *)
Lemma create_frequencies_fixed (a : TensorboardXHandler.FreqArg) (n : nat) :
  TensorboardXHandler.is_None a = false ->
  TensorboardXHandler.as_int a = None ->
  TensorboardXHandler.is_Iterable a = true ->
  TensorboardXHandler.arg_len a = Return n ->
  (forall k, TensorboardXHandler.add_ones a k = Raise TypeError) ->
  TensorboardXHandler._create_frequencies a
  = if (n <? 11)%nat
    then (Raise TypeError, [TensorboardXHandler.length_warning])
    else (Return (combine TensorboardXHandler.SUPPORTED_MODES
                          (TensorboardXHandler.arg_iter a)),
          if (n =? 11)%nat then []
          else [TensorboardXHandler.length_warning]).
Proof.
  intros HN HI HT HL HA. unfold TensorboardXHandler._create_frequencies.
  rewrite HN, HI, HT, HL, bind_lift_return.
  change (List.length TensorboardXHandler.SUPPORTED_MODES) with 11%nat.
  destruct (n =? 11)%nat eqn:E11.
  - apply Nat.eqb_eq in E11. rewrite E11. reflexivity.
  - apply Nat.eqb_neq in E11. cbn [negb].
    destruct (n <? 11)%nat eqn:Elt.
    + apply Nat.ltb_lt in Elt.
      replace (0 <? Z.of_nat 11 - Z.of_nat n)%Z
        with true by (symmetry; apply Z.ltb_lt; lia).
      rewrite HA. reflexivity.
    + apply Nat.ltb_ge in Elt.
      replace (0 <? Z.of_nat 11 - Z.of_nat n)%Z
        with false by (symmetry; apply Z.ltb_ge; lia).
      reflexivity.
Qed.

(** A list is padded with ones up to the eleven modes, and what exceeds
    them is left out by the pairing; a warning is logged unless the list
    has exactly eleven entries. *)
Theorem create_frequencies_list (l : list PyVal) :
  TensorboardXHandler._create_frequencies (TensorboardXHandler.FreqList l)
  = (Return (combine TensorboardXHandler.SUPPORTED_MODES
               (l ++ repeat (PInt 1) (11 - List.length l))%list),
     if (List.length l =? 11)%nat then []
     else [TensorboardXHandler.length_warning]).
Proof.
  unfold TensorboardXHandler._create_frequencies.
  cbn [TensorboardXHandler.is_None TensorboardXHandler.as_int
       TensorboardXHandler.is_Iterable TensorboardXHandler.arg_len].
  rewrite bind_lift_return.
  change (List.length TensorboardXHandler.SUPPORTED_MODES) with 11%nat.
  destruct (List.length l =? 11)%nat eqn:E11.
  - apply Nat.eqb_eq in E11. rewrite E11. cbn [negb Nat.sub repeat].
    rewrite bind_ret_l, List.app_nil_r. reflexivity.
  - apply Nat.eqb_neq in E11. cbn [negb].
    destruct (List.length l <? 11)%nat eqn:Elt.
    + apply Nat.ltb_lt in Elt.
      replace (0 <? Z.of_nat 11 - Z.of_nat (List.length l))%Z
        with true by (symmetry; apply Z.ltb_lt; lia).
      replace (Z.to_nat (Z.of_nat 11 - Z.of_nat (List.length l)))
        with (11 - List.length l) by lia.
      reflexivity.
    + apply Nat.ltb_ge in Elt.
      replace (0 <? Z.of_nat 11 - Z.of_nat (List.length l))%Z
        with false by (symmetry; apply Z.ltb_ge; lia).
      replace (11 - List.length l) with 0 by lia.
      cbn [repeat]. rewrite List.app_nil_r. reflexivity.
Qed.

(** A tuple or a string with fewer than eleven entries cannot be padded:
    [_create_frequencies] logs the warning and raises [TypeError]. *)
Theorem create_frequencies_short_tuple (l : list PyVal) (s : string)
  (Hl : List.length l < 11) (Hs : String.length s < 11) :
  TensorboardXHandler._create_frequencies (TensorboardXHandler.FreqTuple l)
    = (Raise TypeError, [TensorboardXHandler.length_warning])
  /\ TensorboardXHandler._create_frequencies (TensorboardXHandler.FreqStr s)
     = (Raise TypeError, [TensorboardXHandler.length_warning]).
Proof.
  split.
  - rewrite (create_frequencies_fixed _ (List.length l)) by reflexivity.
    now apply Nat.ltb_lt in Hl as ->.
  - rewrite (create_frequencies_fixed _ (String.length s)) by reflexivity.
    now apply Nat.ltb_lt in Hs as ->.
Qed.

Lemma fixed_iterable_keys (a : TensorboardXHandler.FreqArg) (n : nat)
      (t : list (string * PyVal)) (w : list string) :
  native_arg a = true ->
  TensorboardXHandler.is_None a = false ->
  TensorboardXHandler.as_int a = None ->
  TensorboardXHandler.is_Iterable a = true ->
  TensorboardXHandler.arg_len a = Return n ->
  (forall k, TensorboardXHandler.add_ones a k = Raise TypeError) ->
  TensorboardXHandler._create_frequencies a = (Return t, w) ->
  map fst t = TensorboardXHandler.SUPPORTED_MODES.
Proof.
  intros Hnat HN HI HT HL HA R.
  rewrite (create_frequencies_fixed a n HN HI HT HL HA) in R.
  destruct (n <? 11)%nat eqn:Elt; [discriminate|].
  apply Nat.ltb_ge in Elt.
  remember (combine TensorboardXHandler.SUPPORTED_MODES
                    (TensorboardXHandler.arg_iter a)) as X eqn:EX.
  injection R as <- _. subst X.
  apply combine_keys. rewrite (arg_iter_length a n Hnat HT HL). exact Elt.
Qed.

(** What the iterable branch returns is a pairing of the modes with
    some items. *)
Lemma iterable_table_shape (a : TensorboardXHandler.FreqArg)
      (t : list (string * PyVal)) (w : list string) :
  TensorboardXHandler.is_None a = false ->
  TensorboardXHandler.as_int a = None ->
  TensorboardXHandler.is_Iterable a = true ->
  TensorboardXHandler._create_frequencies a = (Return t, w) ->
  exists items, t = combine TensorboardXHandler.SUPPORTED_MODES items.
Proof.
  intros HN HI HT. unfold TensorboardXHandler._create_frequencies.
  rewrite HN, HI, HT.
  destruct (TensorboardXHandler.arg_len a) as [n|e]; [|discriminate].
  rewrite bind_lift_return.
  match goal with
  | |- bind ?m _ = _ -> _ => destruct m as [[lf|e] w0] eqn:E
  end; [|discriminate].
  intros R.
  remember (combine TensorboardXHandler.SUPPORTED_MODES
                    (TensorboardXHandler.arg_iter lf)) as X eqn:EX.
  unfold bind, ret in R. injection R as <- _. now eexists.
Qed.

(** Whenever [_create_frequencies] returns a table, the keys of the
    table are the first supported modes, in their order, and all eleven
    of them unless the argument is an iterable of another class than
    list, tuple, string and dict. *)
Theorem create_frequencies_keys
  (a : TensorboardXHandler.FreqArg) (t : list (string * PyVal))
  (w : list string)
  (Hret : TensorboardXHandler._create_frequencies a = (Return t, w)) :
  map fst t = firstn (List.length t) TensorboardXHandler.SUPPORTED_MODES
  /\ (native_arg a = true -> map fst t = TensorboardXHandler.SUPPORTED_MODES).
Proof.
  assert (F : native_arg a = true ->
              map fst t = TensorboardXHandler.SUPPORTED_MODES).
  { intros Hnat.
    destruct a as [| b | z | l | l | s | d | len plus items |];
      try discriminate Hnat.
    - injection Hret as <- _. reflexivity.
    - injection Hret as <- _. reflexivity.
    - injection Hret as <- _. reflexivity.
    - rewrite create_frequencies_list in Hret.
      remember (combine TensorboardXHandler.SUPPORTED_MODES
                  (l ++ repeat (PInt 1) (11 - List.length l))%list)
        as X eqn:EX.
      injection Hret as <- _. subst X.
      apply combine_keys. rewrite List.length_app, repeat_length.
      change (List.length TensorboardXHandler.SUPPORTED_MODES) with 11. lia.
    - now apply (fixed_iterable_keys (TensorboardXHandler.FreqTuple l)
                   (List.length l) t w).
    - now apply (fixed_iterable_keys (TensorboardXHandler.FreqStr s)
                   (String.length s) t w).
    - now apply (fixed_iterable_keys (TensorboardXHandler.FreqDict d)
                   (List.length d) t w).
    - discriminate Hret. }
  split; [|exact F].
  destruct (native_arg a) eqn:Hnat.
  - rewrite (F eq_refl).
    assert (E : List.length t = 11)
      by (rewrite <- (length_map fst t), (F eq_refl); reflexivity).
    rewrite E. reflexivity.
  - destruct a as [| | | | | | | len plus items |]; try discriminate Hnat.
    destruct (iterable_table_shape
                (TensorboardXHandler.FreqIterable len plus items) t w
                eq_refl eq_refl eq_refl Hret) as (its & ->).
    apply combine_keys_prefix.
Qed.

Section EmitProperties.
Context {L : TensorboardXHandler.Logger}.

(** Keys that are not supported modes leave the handler as it is: no
    counter moves and nothing is logged. *)
Theorem emit_ignores_unsupported_keys
  (self : TensorboardXHandler.Handler) (items : pydict)
  (Hnone : Forall (fun kv => TensorboardXHandler.in_modes (fst kv) = None)
                  items) :
  TensorboardXHandler.emit self (PDict items) = (self, None).
Proof.
  cbn [TensorboardXHandler.emit].
  induction Hnone as [|[k v] r Hk _ IH]; [reflexivity|].
  cbn [TensorboardXHandler.emit_items TensorboardXHandler.emit_item fst] in *.
  unfold TensorboardXHandler.emit_item. now rewrite Hk.
Qed.

Lemma lookup_update {A} (k : string) (v : A) (t : list (string * A)) :
  TensorboardXHandler.lookup k (TensorboardXHandler.update k v t) = Some v.
Proof.
  induction t as [|[k0 v0] r IH]; cbn.
  - now rewrite String.eqb_refl.
  - destruct (String.eqb k0 k) eqn:E; cbn; now rewrite E.
Qed.

Lemma lookup_const {A} (mode : string) (x : A) (modes : list string) :
  In mode modes ->
  TensorboardXHandler.lookup mode (map (fun k => (k, x)) modes) = Some x.
Proof.
  induction modes as [|k r IH]; [contradiction|].
  intros [-> | Hin]; cbn.
  - now rewrite String.eqb_refl.
  - destruct (String.eqb k mode); [reflexivity | now apply IH].
Qed.

Lemma in_modes_supported (mode : string) :
  In mode TensorboardXHandler.SUPPORTED_MODES ->
  TensorboardXHandler.in_modes (PStr mode) = Some mode.
Proof.
  intros Hin. unfold TensorboardXHandler.in_modes.
  replace (existsb (String.eqb mode) TensorboardXHandler.SUPPORTED_MODES)
    with true; [reflexivity|].
  symmetry. apply existsb_exists. exists mode. split; [exact Hin|].
  apply String.eqb_refl.
Qed.

Lemma div_step (n f : Z) :
  (0 <= n)%Z -> (0 < f)%Z ->
  ((n + 1) / f = n / f + (if (n + 1) mod f =? 0 then 1 else 0))%Z.
Proof.
  intros Hn Hf.
  pose proof (Z.div_mod n f ltac:(lia)) as D1.
  pose proof (Z.mod_pos_bound n f Hf) as B1.
  pose proof (Z.div_mod (n + 1) f ltac:(lia)) as D2.
  pose proof (Z.mod_pos_bound (n + 1) f Hf) as B2.
  destruct (Z.eqb_spec ((n + 1) mod f) 0) as [E | E]; nia.
Qed.

(** One more call of [emit] for a mode whose counter is [c] and whose
    period is the positive integer [f], with keyword arguments the
    logger accepts. *)
Lemma emit_one (self : TensorboardXHandler.Handler)
      (mode : string) (kwargs : pydict) (c f : Z) :
  In mode TensorboardXHandler.SUPPORTED_MODES ->
  TensorboardXHandler.lookup mode (TensorboardXHandler._counter self) = Some c ->
  TensorboardXHandler.lookup mode (TensorboardXHandler._frequencies self)
    = Some (PInt f) ->
  f <> 0%Z ->
  keyword_args kwargs = true ->
  (forall calls,
     TensorboardXHandler.logger_getattr calls ("add_" ++ mode) = None) ->
  (forall calls,
     TensorboardXHandler.logger_call calls ("add_" ++ mode) kwargs = None) ->
  TensorboardXHandler.emit self (PDict [(PStr mode, PDict kwargs)])
  = ({| TensorboardXHandler._frequencies := TensorboardXHandler._frequencies self;
        TensorboardXHandler._counter :=
          TensorboardXHandler.update mode (c + 1)%Z
            (TensorboardXHandler._counter self);
        TensorboardXHandler._logger :=
          if ((c + 1) mod f =? 0)%Z
          then (TensorboardXHandler._logger self
                ++ [(("add_" ++ mode)%string, PDict kwargs)])%list
          else TensorboardXHandler._logger self |}, None).
Proof.
  intros Hm Hc Hf Hz Hkw Hget Hcall.
  cbn [TensorboardXHandler.emit TensorboardXHandler.emit_items].
  unfold TensorboardXHandler.emit_item.
  rewrite (in_modes_supported mode Hm), Hc.
  cbn [TensorboardXHandler._frequencies]. rewrite Hf.
  cbn [TensorboardXHandler.fires].
  apply Z.eqb_neq in Hz. rewrite Hz.
  destruct ((c + 1) mod f =? 0)%Z; [|reflexivity].
  unfold TensorboardXHandler.logger_add.
  cbn [TensorboardXHandler._logger TensorboardXHandler._frequencies
       TensorboardXHandler._counter].
  now rewrite Hget, Hkw, Hcall.
Qed.

(** Throttling: a handler created with the positive period [f] for all
    modes is given [n] messages for one mode, each with the same keyword
    arguments, and the logger has the method and accepts the call.  No
    [emit] raises, [n] calls are counted and [n / f] of them are made on
    the logger. *)
Theorem emit_passes_every_fth_call
  (f : Z) (mode : string) (kwargs : pydict)
  (h0 : TensorboardXHandler.Handler) (n : nat)
  (Hf : (0 < f)%Z)
  (Hmode : In mode TensorboardXHandler.SUPPORTED_MODES)
  (Hkw : keyword_args kwargs = true)
  (Hget : forall calls,
     TensorboardXHandler.logger_getattr calls ("add_" ++ mode) = None)
  (Hcall : forall calls,
     TensorboardXHandler.logger_call calls ("add_" ++ mode) kwargs = None)
  (Hinit : TensorboardXHandler.init (TensorboardXHandler.FreqInt f)
           = (Return h0, [])) :
  exists h,
    emit_repeat n h0 (PDict [(PStr mode, PDict kwargs)]) = (h, None)
    /\ TensorboardXHandler.lookup mode (TensorboardXHandler._counter h)
       = Some (Z.of_nat n)
    /\ TensorboardXHandler._logger h
       = repeat (("add_" ++ mode)%string, PDict kwargs)
                (Z.to_nat (Z.of_nat n / f)).
Proof.
  injection Hinit as <-.
  assert (G : exists h,
    emit_repeat n
      {| TensorboardXHandler._frequencies :=
           map (fun k => (k, PInt f)) TensorboardXHandler.SUPPORTED_MODES;
         TensorboardXHandler._counter :=
           map (fun k => (k, 0%Z)) TensorboardXHandler.SUPPORTED_MODES;
         TensorboardXHandler._logger := [] |}
      (PDict [(PStr mode, PDict kwargs)]) = (h, None)
    /\ TensorboardXHandler._frequencies h
       = map (fun k => (k, PInt f)) TensorboardXHandler.SUPPORTED_MODES
    /\ TensorboardXHandler.lookup mode (TensorboardXHandler._counter h)
       = Some (Z.of_nat n)
    /\ TensorboardXHandler._logger h
       = repeat (("add_" ++ mode)%string, PDict kwargs)
                (Z.to_nat (Z.of_nat n / f))).
  { induction n as [|n (h & E & Hfr & Hc & Hl)].
    - eexists. split; [reflexivity|].
      split; [reflexivity|]. split; [|reflexivity].
      cbn [TensorboardXHandler._counter]. now apply lookup_const.
    - cbn [emit_repeat]. rewrite E.
      rewrite (emit_one h mode kwargs (Z.of_nat n) f Hmode Hc)
        by (try lia; try assumption; rewrite Hfr; now apply lookup_const).
      eexists. split; [reflexivity|].
      cbn [TensorboardXHandler._frequencies TensorboardXHandler._counter
           TensorboardXHandler._logger].
      split; [exact Hfr|]. split.
      + rewrite lookup_update. f_equal. lia.
      + rewrite Hl. replace (Z.of_nat (S n)) with (Z.of_nat n + 1)%Z by lia.
        rewrite (div_step (Z.of_nat n) f) by lia.
        assert (0 <= Z.of_nat n / f)%Z by (apply Z.div_pos; lia).
        destruct ((Z.of_nat n + 1) mod f =? 0)%Z.
        * replace (Z.to_nat (Z.of_nat n / f + 1))
            with (S (Z.to_nat (Z.of_nat n / f))) by lia.
          now rewrite <- repeat_cons.
        * now rewrite Z.add_0_r. }
  destruct G as (h & E & _ & Hc & Hl). now exists h.
Qed.

(** A period of zero is accepted at creation and fails at the first
    message for a supported mode: the counter has moved, nothing is
    logged, and [ZeroDivisionError] leaves [emit]. *)
Theorem emit_zero_period_raises
  (mode : string) (val : PyVal) (rest : pydict)
  (h0 : TensorboardXHandler.Handler)
  (Hmode : In mode TensorboardXHandler.SUPPORTED_MODES)
  (Hinit : TensorboardXHandler.init (TensorboardXHandler.FreqInt 0)
           = (Return h0, [])) :
  exists h,
    TensorboardXHandler.emit h0 (PDict ((PStr mode, val) :: rest))
    = (h, Some ZeroDivisionError)
    /\ TensorboardXHandler.lookup mode (TensorboardXHandler._counter h)
       = Some 1%Z
    /\ TensorboardXHandler._logger h = [].
Proof.
  assert (E0 : h0 =
    {| TensorboardXHandler._frequencies :=
         map (fun k => (k, PInt 0)) TensorboardXHandler.SUPPORTED_MODES;
       TensorboardXHandler._counter :=
         map (fun k => (k, 0%Z)) TensorboardXHandler.SUPPORTED_MODES;
       TensorboardXHandler._logger := [] |}).
  { unfold TensorboardXHandler.init in Hinit.
    change (TensorboardXHandler._create_frequencies
              (TensorboardXHandler.FreqInt 0))
      with (ret (map (fun k => (k, PInt 0))
                     TensorboardXHandler.SUPPORTED_MODES)) in Hinit.
    rewrite bind_ret_l in Hinit. unfold ret in Hinit. congruence. }
  subst h0.
  cbn [TensorboardXHandler.emit TensorboardXHandler.emit_items].
  unfold TensorboardXHandler.emit_item.
  rewrite (in_modes_supported mode Hmode).
  cbn [TensorboardXHandler._counter TensorboardXHandler._frequencies
       TensorboardXHandler._logger].
  rewrite !(lookup_const mode _ _ Hmode).
  cbn [TensorboardXHandler.fires Z.eqb].
  eexists. split; [reflexivity|].
  cbn [TensorboardXHandler._counter TensorboardXHandler._logger].
  split; [apply lookup_update | reflexivity].
Qed.



(** An iterable of another class with one item, whose sum with a list
    of ten ones has ten items (a numpy array adds the list to its one
    element), is accepted with the length warning and gives a table for
    the first ten modes only: the first message for ["video"] then
    raises [KeyError], after the call was counted. *)
Theorem short_table_emit_raises
  (plus : nat -> outcome (list PyVal))
  (items l : list PyVal) (val : PyVal) (rest : pydict)
  (Hplus : plus 10 = Return l)
  (Hl : List.length l = 10) :
  exists h0,
    TensorboardXHandler.init
      (TensorboardXHandler.FreqIterable (Return 1) plus items)
    = (Return h0, [TensorboardXHandler.length_warning])
    /\ map fst (TensorboardXHandler._frequencies h0)
       = firstn 10 TensorboardXHandler.SUPPORTED_MODES
    /\ exists h,
         TensorboardXHandler.emit h0 (PDict ((PStr "video", val) :: rest))
         = (h, Some KeyError)
         /\ TensorboardXHandler.lookup "video" (TensorboardXHandler._counter h)
            = Some 1%Z.
Proof.
  do 10 (destruct l as [|? l]; [discriminate Hl|]).
  destruct l; [|discriminate Hl].
  unfold TensorboardXHandler.init, TensorboardXHandler._create_frequencies.
  cbn [TensorboardXHandler.is_None TensorboardXHandler.as_int
       TensorboardXHandler.is_Iterable TensorboardXHandler.arg_len].
  rewrite bind_lift_return.
  cbn [List.length TensorboardXHandler.SUPPORTED_MODES Nat.eqb negb].
  change (0 <? Z.of_nat 11 - Z.of_nat 1)%Z with true.
  change (Z.to_nat (Z.of_nat 11 - Z.of_nat 1)) with 10.
  cbn [TensorboardXHandler.add_ones]. rewrite Hplus.
  eexists. split; [reflexivity|]. split; [reflexivity|].
  eexists. split; reflexivity.
Qed.
End EmitProperties.

(* ===================================================================== *)
(** ** The second walk of [encode]                                        *)
(* ===================================================================== *)






Section SecondWalk.
Context {H : Host}.












End SecondWalk.

(* ===================================================================== *)
(** ** The further properties on concrete inputs                          *)
(* ===================================================================== *)

(** The mapping [{5: "a", "__int__(5)": "b"}]. *)
Lemma colliding_keys_example :
  (plain_leaf (PStr "a") = true /\ plain_leaf (PStr "b") = true)
  /\ bind (ModuleMultiTypeEncoder.encode (H := ExampleHost.host)
             (PDict [(PInt 5, PStr "a");
                     (PStr ("__int__(" ++ str_int 5 ++ ")"), PStr "b")]))
          (ModuleMultiTypeDecoder.decode (H := ExampleHost.host))
     = (Return (PDict [(PInt 5, PStr "b")]), []).
Proof.
  split; [split; reflexivity|].
  exact (proj2 (colliding_keys_are_merged (H := ExampleHost.host)
                  5 (PStr "a") (PStr "b") eq_refl eq_refl)).
Defined.

(** The function [json.dumps] and the module [json]. *)
Lemma function_and_module_example :
  (contains_char "."%char "dumps" = false
   /\ import_module (Host := ExampleHost.host) "json" = Some (PModule "json")
   /\ getattr (Host := ExampleHost.host) (PModule "json") "dumps"
      = Some (PFunction "json" "dumps"))
  /\ (bind (ModuleMultiTypeEncoder.encode (H := ExampleHost.host)
              (PFunction "json" "dumps"))
           (ModuleMultiTypeDecoder.decode (H := ExampleHost.host))
      = (Return (PFunction "json" "dumps"), [])
      /\ bind (ModuleMultiTypeEncoder.encode (H := ExampleHost.host)
                 (PModule "json"))
              (ModuleMultiTypeDecoder.decode (H := ExampleHost.host))
         = (Return (PModule "json"), [])).
Proof.
  split; [repeat split|].
  exact (function_and_module_round_trip (H := ExampleHost.host)
           "json" "dumps" "json" (PModule "json")
           eq_refl eq_refl eq_refl eq_refl).
Defined.

(** A tuple holding an object whose [__repr__] raises. *)
Lemma tuple_repr_failure_example :
  py_repr (H := ExampleHost.host) (PTuple [PObject "Foo" 0]) = Raise ReprError
  /\ (ModuleMultiTypeEncoder._encode (H := ExampleHost.host)
        (PTuple [PObject "Foo" 0]) true = (Raise ReprError, [])
      /\ ModuleMultiTypeEncoder._encode (H := ExampleHost.host)
           (PTuple [PObject "Foo" 0]) false
         = (Raise ReprError,
            ["Could not pickle object of type <class 'tuple'>"
             ++ newline
             ++ format_exc (Host := ExampleHost.host) ReprError])).
Proof.
  split; [reflexivity|].
  exact (tuple_repr_failure (H := ExampleHost.host)
           [PObject "Foo" 0] ReprError eq_refl).
Defined.

(** The data [[1, ["a", None], True]]. *)
Lemma plain_data_example :
  plain_tree (PList [PInt 1; PList [PStr "a"; PNone]; PBool true]) = true
  /\ (ModuleMultiTypeEncoder._encode_switch (H := ExampleHost.host)
        (PList [PInt 1; PList [PStr "a"; PNone]; PBool true])
      = (Return (PList [PInt 1; PList [PStr "a"; PNone]; PBool true]), [])
      /\ bind (ModuleMultiTypeEncoder.encode (H := ExampleHost.host)
                 (PList [PInt 1; PList [PStr "a"; PNone]; PBool true]))
              (ModuleMultiTypeDecoder.decode (H := ExampleHost.host))
         = (Return (PList [PInt 1; PList [PStr "a"; PNone]; PBool true]), [])).
Proof.
  split; [reflexivity|].
  exact (plain_data_round_trip (H := ExampleHost.host)
           (PList [PInt 1; PList [PStr "a"; PNone]; PBool true]) eq_refl).
Defined.

(** The list [[np.int64(5), (1,)]] under the reference encoder. *)
Lemma list_shape_example :
  CustomJSONEncoder._encode_switch
    (ModuleMultiTypeEncoder.self (H := ExampleHost.host))
    (PList [NpInteger Int64 5; PTuple [PInt 1]])
  = (Return (PList [PStr "__int__(5)"; PStr "__tuple__((1,))"]), [])
  /\ exists l',
       PList [PStr "__int__(5)"; PStr "__tuple__((1,))"] = PList l'
       /\ List.length l' = 2
       /\ Forall2 (fun x y => exists w',
                     CustomJSONEncoder._encode_switch
                       (ModuleMultiTypeEncoder.self (H := ExampleHost.host)) x
                     = (Return y, w'))
                  [NpInteger Int64 5; PTuple [PInt 1]] l'.
Proof.
  split; [reflexivity|].
  exact (encode_switch_keeps_list_shape
           (ModuleMultiTypeEncoder.self (H := ExampleHost.host))
           [NpInteger Int64 5; PTuple [PInt 1]]
           (PList [PStr "__int__(5)"; PStr "__tuple__((1,))"]) [] eq_refl).
Defined.

(** The list [["__type__(a.b)", "__type__(nonexistent.module.Thing)"]]. *)
Lemma references_in_list_example :
  Forall (fun p =>
            ModuleMultiTypeDecoder.load_attribute (H := ExampleHost.host)
              (join_dot (all_but_last (split_dot p)))
              (last (split_dot p) EmptyString) = None)
         ["a.b"; "nonexistent.module.Thing"]
  /\ ModuleMultiTypeDecoder.decode (H := ExampleHost.host)
       (JArray (map (fun p => JString ("__type__(" ++ p ++ ")"))
                    ["a.b"; "nonexistent.module.Thing"]))
     = (Return (PList (map PStr ["a.b"; "nonexistent.module.Thing"])),
        map (fun p => "Could not load " ++ p)
            ["a.b"; "nonexistent.module.Thing"]).
Proof.
  assert (Hn : Forall (fun p =>
            ModuleMultiTypeDecoder.load_attribute (H := ExampleHost.host)
              (join_dot (all_but_last (split_dot p)))
              (last (split_dot p) EmptyString) = None)
         ["a.b"; "nonexistent.module.Thing"]) by (repeat constructor).
  split; [exact Hn|].
  exact (unresolvable_references_in_list (H := ExampleHost.host) _ Hn).
Defined.

(** The mapping [{(1, "a"): None}]. *)
Lemma tuple_key_example :
  (Forall (literal_scalar (H := ExampleHost.host)) [PInt 1; PStr "a"]
   /\ plain_leaf PNone = true)
  /\ bind (ModuleMultiTypeEncoder.encode (H := ExampleHost.host)
             (PDict [(PTuple [PInt 1; PStr "a"], PNone)]))
          (ModuleMultiTypeDecoder.decode (H := ExampleHost.host))
     = (Return (PDict [(PTuple [PInt 1; PStr "a"], PNone)]), []).
Proof.
  assert (Hl : Forall (literal_scalar (H := ExampleHost.host))
                 [PInt 1; PStr "a"]) by (repeat constructor).
  split; [split; [exact Hl | reflexivity]|].
  exact (proj2 (tuple_key_round_trip (H := ExampleHost.host)
                  [PInt 1; PStr "a"] PNone Hl eq_refl)).
Defined.

(** The document with the members [__int__(5)] and [__int__( 5)]. *)
Lemma keys_decoding_alike_example :
  (plain_leaf (PStr "a") = true /\ plain_leaf (PStr "b") = true)
  /\ ModuleMultiTypeDecoder.decode (H := ExampleHost.host)
       (JObject [("__int__(" ++ str_int 5 ++ ")", json_leaf (PStr "a"));
                 ("__int__( " ++ str_int 5 ++ ")", json_leaf (PStr "b"))])
     = (Return (PDict [(PInt 5, PStr "b")]), []).
Proof.
  split; [split; reflexivity|].
  exact (keys_decoding_alike_are_merged (H := ExampleHost.host)
           5 (PStr "a") (PStr "b") eq_refl eq_refl).
Defined.

(** The tuple [(5, 2)] and the string ["abc"] as frequencies. *)
Lemma short_tuple_example :
  (List.length [PInt 5; PInt 2] < 11 /\ String.length "abc" < 11)
  /\ (TensorboardXHandler._create_frequencies
        (TensorboardXHandler.FreqTuple [PInt 5; PInt 2])
      = (Raise TypeError, [TensorboardXHandler.length_warning])
      /\ TensorboardXHandler._create_frequencies
           (TensorboardXHandler.FreqStr "abc")
         = (Raise TypeError, [TensorboardXHandler.length_warning])).
Proof.
  assert (H1 : List.length [PInt 5; PInt 2] < 11) by (simpl; lia).
  assert (H2 : String.length "abc" < 11) by (simpl; lia).
  split; [split; assumption|].
  exact (create_frequencies_short_tuple [PInt 5; PInt 2] "abc" H1 H2).
Defined.

(** The table made from the list [[5, 2]]. *)
Lemma table_keys_example :
  exists t w,
    TensorboardXHandler._create_frequencies
      (TensorboardXHandler.FreqList [PInt 5; PInt 2]) = (Return t, w)
    /\ map fst t
       = firstn (List.length t) TensorboardXHandler.SUPPORTED_MODES
    /\ (native_arg (TensorboardXHandler.FreqList [PInt 5; PInt 2]) = true ->
        map fst t = TensorboardXHandler.SUPPORTED_MODES).
Proof.
  eexists _, _. split; [reflexivity|].
  exact (create_frequencies_keys
           (TensorboardXHandler.FreqList [PInt 5; PInt 2]) _ _ eq_refl).
Defined.

(** A message with the keys ["loss"] and [3]. *)
Lemma unsupported_keys_example :
  exists h0,
    TensorboardXHandler.init TensorboardXHandler.FreqNone = (Return h0, [])
    /\ Forall (fun kv => TensorboardXHandler.in_modes (fst kv) = None)
              [(PStr "loss", PDict []); (PInt 3, PNone)]
    /\ TensorboardXHandler.emit (L := ExampleLogger.logger) h0
         (PDict [(PStr "loss", PDict []); (PInt 3, PNone)]) = (h0, None).
Proof.
  assert (Hn : Forall (fun kv => TensorboardXHandler.in_modes (fst kv) = None)
                 [(PStr "loss", PDict []); (PInt 3, PNone)])
    by (repeat constructor).
  eexists. split; [reflexivity|]. split; [exact Hn|].
  exact (emit_ignores_unsupported_keys (L := ExampleLogger.logger) _ _ Hn).
Defined.

(** Period 3 and seven messages for ["scalar"] with a tag and a value:
    two calls are made. *)
Lemma throttling_example :
  exists h0,
    ((0 < 3)%Z
     /\ In "scalar" TensorboardXHandler.SUPPORTED_MODES
     /\ keyword_args [(PStr "tag", PStr "loss"); (PStr "scalar_value", PInt 1)]
        = true
     /\ (forall calls,
          TensorboardXHandler.logger_getattr (Logger := ExampleLogger.logger)
            calls "add_scalar" = None)
     /\ (forall calls,
          TensorboardXHandler.logger_call (Logger := ExampleLogger.logger)
            calls "add_scalar"
            [(PStr "tag", PStr "loss"); (PStr "scalar_value", PInt 1)]
          = None)
     /\ TensorboardXHandler.init (TensorboardXHandler.FreqInt 3)
        = (Return h0, []))
    /\ exists h,
         emit_repeat (L := ExampleLogger.logger) 7 h0
           (PDict [(PStr "scalar",
                    PDict [(PStr "tag", PStr "loss");
                           (PStr "scalar_value", PInt 1)])])
         = (h, None)
         /\ TensorboardXHandler.lookup "scalar" (TensorboardXHandler._counter h)
            = Some 7%Z
         /\ TensorboardXHandler._logger h
            = repeat ("add_scalar",
                      PDict [(PStr "tag", PStr "loss");
                             (PStr "scalar_value", PInt 1)]) 2.
Proof.
  assert (Hm : In "scalar" TensorboardXHandler.SUPPORTED_MODES)
    by (simpl; auto).
  eexists.
  split; [split; [lia | split; [exact Hm | split; [reflexivity |
    split; [intros calls; reflexivity |
    split; [intros calls; reflexivity | reflexivity]]]]]|].
  exact (emit_passes_every_fth_call (L := ExampleLogger.logger)
           3 "scalar"
           [(PStr "tag", PStr "loss"); (PStr "scalar_value", PInt 1)]
           _ 7 eq_refl Hm eq_refl (fun _ => eq_refl) (fun _ => eq_refl)
           eq_refl).
Defined.

(** Period 0 and one message for ["image"]. *)
Lemma zero_period_example :
  exists h0,
    (In "image" TensorboardXHandler.SUPPORTED_MODES
     /\ TensorboardXHandler.init (TensorboardXHandler.FreqInt 0)
        = (Return h0, []))
    /\ exists h,
         TensorboardXHandler.emit (L := ExampleLogger.logger) h0
           (PDict [(PStr "image", PDict [])])
         = (h, Some ZeroDivisionError)
         /\ TensorboardXHandler.lookup "image" (TensorboardXHandler._counter h)
            = Some 1%Z
         /\ TensorboardXHandler._logger h = [].
Proof.
  assert (Hm : In "image" TensorboardXHandler.SUPPORTED_MODES)
    by (simpl; auto).
  eexists. split; [split; [exact Hm | reflexivity]|].
  exact (emit_zero_period_raises (L := ExampleLogger.logger)
           "image" (PDict []) [] _ Hm eq_refl).
Defined.

(** An instance of a tuple subclass whose [__str__] raises. *)
Lemma tuple_subclass_example :
  (runtime_format (Host := ExampleHost.host)
     (PTupleSub "Strict" 0 [PInt 1]) = Raise ReprError
   /\ runtime_repr (Host := ExampleHost.host)
        (PTupleSub "Strict" 0 [PInt 1]) = Return "<Strict record>")
  /\ (ModuleMultiTypeEncoder._encode (H := ExampleHost.host)
        (PTupleSub "Strict" 0 [PInt 1]) true = (Raise ReprError, [])
      /\ ModuleMultiTypeEncoder._encode (H := ExampleHost.host)
           (PTupleSub "Strict" 0 [PInt 1]) false
         = (Return (PStr "<Strict record>"),
            ["Could not pickle object of type <class '" ++ "Strict" ++ "'>"
             ++ newline ++ format_exc (Host := ExampleHost.host) ReprError])
      /\ ModuleMultiTypeEncoder.encode (H := ExampleHost.host)
           (PTupleSub "Strict" 0 [PInt 1])
         = (Return (JString "<Strict record>"),
            ["Could not pickle object of type <class '" ++ "Strict" ++ "'>"
             ++ newline ++ format_exc (Host := ExampleHost.host) ReprError])).
Proof.
  split; [split; reflexivity|].
  exact (fallback_on_tuple_subclass (H := ExampleHost.host)
           "Strict" 0 [PInt 1] ReprError "<Strict record>" eq_refl eq_refl).
Defined.

(** A class that calls itself [builtins.int] without being the built-in
    [int]: the built-in comes back, not the class that was encoded. *)
Lemma same_name_type_example :
  (contains_char "."%char "int" = false
   /\ import_module (Host := ExampleHost.host) "builtins"
      = Some (PModule "builtins")
   /\ getattr (Host := ExampleHost.host) (PModule "builtins") "int"
      = Some (PType "builtins" "int" 1))
  /\ bind (ModuleMultiTypeEncoder.encode (H := ExampleHost.host)
             (PType "builtins" "int" 7))
          (ModuleMultiTypeDecoder.decode (H := ExampleHost.host))
     = (Return (PType "builtins" "int" 1), []).
Proof.
  split; [repeat split|].
  exact (type_round_trip_follows_registry (H := ExampleHost.host)
           "builtins" "int" 7 (PModule "builtins") (PType "builtins" "int" 1)
           eq_refl eq_refl eq_refl).
Defined.


(** The array [np.array([5])] as frequencies: its length is 1, and its
    sum with ten ones is ten times 6. *)
Lemma short_table_example :
  (Return (A := list PyVal) (repeat (NpInteger Int64 6) 10)
   = Return (repeat (NpInteger Int64 6) 10)
   /\ List.length (repeat (NpInteger Int64 6) 10) = 10)
  /\ exists h0,
       TensorboardXHandler.init
         (TensorboardXHandler.FreqIterable (Return 1)
            (fun n => Return (repeat (NpInteger Int64 6) n))
            [NpInteger Int64 5])
       = (Return h0, [TensorboardXHandler.length_warning])
       /\ map fst (TensorboardXHandler._frequencies h0)
          = firstn 10 TensorboardXHandler.SUPPORTED_MODES
       /\ exists h,
            TensorboardXHandler.emit (L := ExampleLogger.logger) h0
              (PDict [(PStr "video", PDict [])])
            = (h, Some KeyError)
            /\ TensorboardXHandler.lookup "video"
                 (TensorboardXHandler._counter h) = Some 1%Z.
Proof.
  split; [repeat split|].
  exact (short_table_emit_raises (L := ExampleLogger.logger)
           (fun n => Return (repeat (NpInteger Int64 6) n))
           [NpInteger Int64 5] (repeat (NpInteger Int64 6) 10)
           (PDict []) [] eq_refl eq_refl).
Defined.

